(** * Hotel management app: a shallow embedding of [app.py] and [models.py]

    The Flask handlers of [app.py] are embedded as state transformers over
    the two module-level globals [rooms] and [booking_ids].  A request is
    the form (UI routes) or the decoded JSON body (API routes); a response
    is what the handler flashes, renders, returns as JSON, or the
    exception that escapes it.

    Python values that reach the handlers untyped (every field of a JSON
    body) are kept as values of [pyval]; [float] is IEEE-754 binary64, as
    in CPython, through the Standard Library's [SpecFloat]. *)

From Stdlib Require Import ZArith List String Ascii Bool Lia.
From Stdlib Require Import Floats.SpecFloat.
From stdpp Require Import base list.

Import ListNotations.
Local Set Warnings "-register-all".
Local Open Scope string_scope.
Local Open Scope Z_scope.

(** ** Python floats *)

Module PyFloat.

Definition float : Type := spec_float.

Definition prec : Z := 53.
Definition emax : Z := 1024.

(** [0.0] *)
Definition zero : float := S754_zero false.

(** [x - y] on two floats. *)
Definition sub (x y : float) : float := SFsub prec emax x y.

(** The nearest double of an integer, ties to even; an integer beyond
    the range of a double has none ([OverflowError] in CPython). *)
Definition of_int (z : Z) : option float :=
  match binary_normalize prec emax z 0 false with
  | S754_infinity _ => None
  | f => Some f
  end.

Definition is_nan (x : float) : bool :=
  match x with S754_nan => true | _ => false end.

(** [x == y] on two floats: a NaN equals nothing, [0.0 == -0.0]. *)
Definition eqb (x y : float) : bool := SFeqb x y.

(** The least exponent of a double, that of the subnormal numbers. *)
Definition emin : Z := SpecFloat.emin prec emax.

(** A double: its mantissa fits the precision at its exponent, and the
    exponent is in range. *)
Definition valid (x : float) : bool := valid_binary prec emax x.

(** A finite float's exponent is not below that of the subnormals. *)
Definition exponent_ok (x : float) : bool :=
  match x with
  | S754_finite _ _ e => emin <=? e
  | _ => true
  end.

(** The value of a finite [x] counted in units of [2^e], for an [e] not
    above the exponent of [x]. *)
Definition units (x : float) (e : Z) : Z :=
  match x with
  | S754_finite s m ex =>
      let n := Z.pos m * 2 ^ (ex - e) in if s then - n else n
  | _ => 0
  end.

(** [x < y] on two floats, by the values they stand for: nothing is
    below or above a NaN, the two zeros are equal. *)
Definition ltb (x y : float) : bool :=
  match x, y with
  | S754_nan, _ | _, S754_nan => false
  | S754_infinity sx, S754_infinity sy => sx && negb sy
  | S754_infinity sx, _ => sx
  | _, S754_infinity sy => negb sy
  | S754_zero _, S754_zero _ => false
  | S754_zero _, S754_finite sy _ _ => negb sy
  | S754_finite sx _ _, S754_zero _ => sx
  | S754_finite _ _ ex, S754_finite _ _ ey =>
      let e := Z.min ex ey in units x e <? units y e
  end.

(** [x == z] for a float and an integer: CPython compares the exact
    values, without rounding the integer. *)
Definition eqb_int (x : float) (z : Z) : bool :=
  match x with
  | S754_zero _ => z =? 0
  | S754_finite s m e =>
      let v := if s then Z.neg m else Z.pos m in
      if 0 <=? e then z =? v * 2 ^ e else v =? z * 2 ^ (- e)
  | S754_infinity _ | S754_nan => false
  end.

(** [z < x] for an integer and a float, on the exact values. *)
Definition int_ltb (z : Z) (x : float) : bool :=
  match x with
  | S754_zero _ => z <? 0
  | S754_finite s m e =>
      let v := if s then Z.neg m else Z.pos m in
      if 0 <=? e then z <? v * 2 ^ e else z * 2 ^ (- e) <? v
  | S754_infinity s => negb s
  | S754_nan => false
  end.

(** [bool(x)]: zero of either sign is false, NaN is true. *)
Definition truthy (x : float) : bool :=
  match x with S754_zero _ => false | _ => true end.

(** [int(x)]: truncation toward zero; [None] on NaN and infinities
    (the caller picks the exception). *)
Definition trunc (x : float) : option Z :=
  match x with
  | S754_zero _ => Some 0
  | S754_finite s m e =>
      let a := if 0 <=? e then Z.pos m * 2 ^ e else Z.pos m / 2 ^ (- e) in
      Some (if s then - a else a)
  | S754_infinity _ | S754_nan => None
  end.

End PyFloat.

Abbreviation float := PyFloat.float.

(** ** Python values as [json.loads] produces them *)

Inductive pyval : Type :=
  | PNone
  | PBool (b : bool)
  | PInt (z : Z)
  | PFloat (f : float)
  | PStr (s : string)
  | PList (l : list pyval)
  | PDict (d : list (string * pyval)).

(** A dict is kept as the list of its items, keys distinct. *)
Fixpoint dict_lookup {A : Type} (k : string) (d : list (string * A))
  : option A :=
  match d with
  | [] => None
  | (k', v) :: d' => if String.eqb k' k then Some v else dict_lookup k d'
  end.

(** Numbers: [bool] is a subclass of [int]. *)
Definition as_int (v : pyval) : option Z :=
  match v with
  | PInt z => Some z
  | PBool b => Some (if b then 1 else 0)
  | _ => None
  end.

(** A NaN.  [json] decodes every NaN literal to one shared float
    object, so two NaNs of decoded bodies are the same object although
    they are not [==]. *)
Definition py_is_nan (v : pyval) : bool :=
  match v with PFloat f => PyFloat.is_nan f | _ => false end.

(** [a == b].  Numbers compare by value across [bool], [int] and
    [float]; strings compare by content; lists and dicts compare their
    elements, accepting an element that is the same object as the other
    before trying [==] on it, which for decoded JSON adds the NaN to the
    equal pairs; values of unrelated types are unequal; [==] never
    raises on these types. *)
Fixpoint py_eq (a b : pyval) : bool :=
  match a, b with
  | PNone, PNone => true
  | PStr s, PStr t => String.eqb s t
  | PFloat x, PFloat y => PyFloat.eqb x y
  | PFloat x, (PInt _ | PBool _) =>
      match as_int b with Some z => PyFloat.eqb_int x z | None => false end
  | (PInt _ | PBool _), PFloat y =>
      match as_int a with Some z => PyFloat.eqb_int y z | None => false end
  | (PInt _ | PBool _), (PInt _ | PBool _) =>
      match as_int a, as_int b with
      | Some x, Some y => x =? y
      | _, _ => false
      end
  | PList l, PList m =>
      (fix go (l m : list pyval) : bool :=
         match l, m with
         | [], [] => true
         | x :: l', y :: m' =>
             (py_is_nan x && py_is_nan y || py_eq x y) && go l' m'
         | _, _ => false
         end) l m
  | PDict d, PDict e =>
      (length d =? length e)%nat &&
      (fix all (d : list (string * pyval)) : bool :=
         match d with
         | [] => true
         | (k, v) :: d' =>
             match dict_lookup k e with
             | Some w => py_is_nan v && py_is_nan w || py_eq v w
             | None => false
             end && all d'
         end) d
  | _, _ => false
  end.

(** [bool(v)] *)
Definition py_truthy (v : pyval) : bool :=
  match v with
  | PNone => false
  | PBool b => b
  | PInt z => negb (z =? 0)
  | PFloat f => PyFloat.truthy f
  | PStr s => negb (String.eqb s "")
  | PList l => match l with [] => false | _ => true end
  | PDict d => match d with [] => false | _ => true end
  end.

(** Lists and dicts are unhashable: using one as a set element raises
    [TypeError]. *)
Definition py_hashable (v : pyval) : bool :=
  match v with
  | PList _ | PDict _ => false
  | _ => true
  end.

(** ** A Python [set] of hashable values

    Lookup in a set accepts an element that is the same object as the
    key before it tries [==].  On decoded JSON that matters for NaN
    only, which [json] decodes to one shared float object. *)
Definition set_key_eq (x y : pyval) : bool :=
  py_eq x y || (py_is_nan x && py_is_nan y).

Definition set_mem (x : pyval) (s : list pyval) : bool :=
  existsb (set_key_eq x) s.

Definition set_add (x : pyval) (s : list pyval) : list pyval :=
  if set_mem x s then s else s ++ [x].

Definition set_discard (x : pyval) (s : list pyval) : list pyval :=
  filter (fun y => negb (set_key_eq x y)) s.

(** ** The data model of [models.py] *)

Record Customer : Type := mkCustomer {
  name : pyval;
  address : pyval;
  phone : pyval;
  from_date : pyval;
  to_date : pyval;
  payment_advance : float;
  booking_id : pyval
}.

(** [status]: 0 = available, 1 = reserved. *)
Record Room : Type := mkRoom {
  room_number : pyval;
  ac : pyval;
  comfort : pyval;
  size : pyval;
  rent : Z;
  status : Z;
  cust : option Customer
}.

(** [room.cust = c] and [room.status = s] on a room object. *)
Definition set_cust (c : option Customer) (r : Room) : Room :=
  mkRoom (room_number r) (ac r) (comfort r) (size r) (rent r) (status r) c.

Definition set_status (s : Z) (r : Room) : Room :=
  mkRoom (room_number r) (ac r) (comfort r) (size r) (rent r) s (cust r).

(** The module-level globals [rooms] and [booking_ids]. *)
Record State : Type := mkState {
  rooms : list Room;
  booking_ids : list pyval
}.

Definition init_state : State := mkState [] [].

(** [find_room_index]: the index of the first room whose number [==]
    [rno], or [None]. *)
Fixpoint find_room_index (rs : list Room) (rno : pyval) : option nat :=
  match rs with
  | [] => None
  | r :: rs' =>
      if py_eq (room_number r) rno then Some 0%nat
      else S <$> find_room_index rs' rno
  end.

(** ** Requests and responses *)

(** [request.form] and [request.args]: the first value of a key wins. *)
Definition Form : Type := list (string * string).

Inductive exn : Type :=
  | ValueError
  | TypeError
  | OverflowError
  | AttributeError
  | IndexError
  | BadRequestKeyError.

Record BillResult : Type := mkBill {
  bill : Z;
  advance : float;
  payable : float
}.

Inductive Response : Type :=
  (** [flash(message, category)] of a rejected form, then a redirect *)
  | Flash (message category : string)
  (** [flash(f"Room {rno} added successfully", "success")] *)
  | RoomAdded (rno : Z)
  (** [flash(f"Customer {name} checked into room {rno}", "success")] *)
  | CheckedIn (name : string) (rno : Z)
  (** [render_template("guests.html", checkout_result={...})] *)
  | CheckoutResult (rno : Z) (b : BillResult)
  (** [jsonify({"error": error}), code] *)
  | JsonError (error : string) (code : Z)
  (** [jsonify({"ok": True}), code] *)
  | JsonOk (code : Z)
  (** [jsonify({"bill": .., "advance": .., "payable": ..}), 200] *)
  | JsonBill (b : BillResult)
  (** [jsonify(results)]: room number and [vars(r.cust)] per entry *)
  | JsonResults (results : list (pyval * Customer))
  (** an exception that no handler catches *)
  | Raised (e : exn).

(** A response that reports the operation as done. *)
Definition is_success (r : Response) : bool :=
  match r with
  | RoomAdded _ | CheckedIn _ _ | CheckoutResult _ _
  | JsonOk _ | JsonBill _ | JsonResults _ => true
  | Flash _ _ | JsonError _ _ | Raised _ => false
  end.

(** ** The builtins the handlers call

    [str.strip], [str.upper], [str.lower] and the string cases of [int]
    and [float] belong to the interpreter, not to the repository: the
    handlers are embedded over any implementation of them ([None] stands
    for [ValueError]). *)
Class Builtins : Type := {
  str_strip : string -> string;
  str_upper : string -> string;
  str_lower : string -> string;
  int_of_str : string -> option Z;
  float_of_str : string -> option float
}.

(** ** Handlers as computations over the globals

    A computation either ends the request early with a response (a
    [return] in the middle of the handler, or an escaping exception) or
    goes on with a value. *)
Definition M (A : Type) : Type := State -> State * (Response + A).

#[global] Instance M_ret : MRet M := fun A a st => (st, inr a).

#[global] Instance M_bind : MBind M := fun A B k m st =>
  match m st with
  | (st', inl r) => (st', inl r)
  | (st', inr a) => k a st'
  end.

Definition respond {A : Type} (r : Response) : M A := fun st => (st, inl r).

Definition raise {A : Type} (e : exn) : M A := respond (Raised e).

(** A call that may raise, where nothing catches the exception. *)
Definition lift {A : Type} (x : exn + A) : M A :=
  match x with inl e => raise e | inr a => mret a end.

(** [try: x except ValueError: <respond r>] *)
Definition try_or_respond {A : Type} (x : exn + A) (r : Response) : M A :=
  match x with
  | inl ValueError => respond r
  | inl e => raise e
  | inr a => mret a
  end.

(** [try: v = x except ValueError: v = d] *)
Definition try_or_default {A : Type} (x : exn + A) (d : A) : M A :=
  match x with
  | inl ValueError => mret d
  | inl e => raise e
  | inr a => mret a
  end.

Definition get_rooms : M (list Room) := fun st => (st, inr (rooms st)).

Definition get_booking_ids : M (list pyval) :=
  fun st => (st, inr (booking_ids st)).

(** [rooms[idx]] *)
Definition room_at (idx : nat) : M Room := fun st =>
  match rooms st !! idx with
  | Some r => (st, inr r)
  | None => (st, inl (Raised IndexError))
  end.

(** An assignment to an attribute of the object [rooms[idx]]. *)
Definition modify_room (idx : nat) (f : Room -> Room) : M unit := fun st =>
  (mkState (alter f idx (rooms st)) (booking_ids st), inr tt).

(** [rooms.append(room)] *)
Definition append_room (r : Room) : M unit := fun st =>
  (mkState (rooms st ++ [r]) (booking_ids st), inr tt).

(** [booking_ids.add(b)] and [booking_ids.discard(b)] *)
Definition add_booking_id (b : pyval) : M unit := fun st =>
  (mkState (rooms st) (set_add b (booking_ids st)), inr tt).

Definition discard_booking_id (b : pyval) : M unit := fun st =>
  (mkState (rooms st) (set_discard b (booking_ids st)), inr tt).

(** The handler's response, whichever way it ended. *)
Definition run (m : M Response) (st : State) : State * Response :=
  match m st with
  | (st', inl r) => (st', r)
  | (st', inr r) => (st', r)
  end.

(** [request.form[k]]: a missing key is werkzeug's [BadRequestKeyError]. *)
Definition form_item (k : string) (form : Form) : M string :=
  match dict_lookup k form with
  | Some v => mret v
  | None => raise BadRequestKeyError
  end.

(** [request.form.get(k, d)] *)
Definition form_get (k : string) (d : pyval) (form : Form) : pyval :=
  match dict_lookup k form with
  | Some v => PStr v
  | None => d
  end.

(** [request.form.get(k, d)] with a string default. *)
Definition form_get_str (k d : string) (form : Form) : string :=
  match dict_lookup k form with
  | Some v => v
  | None => d
  end.

(** [request.json or {}] on the decoded body. *)
Definition json_data (body : pyval) : pyval :=
  if py_truthy body then body else PDict [].

(** [d.get(k, default)] on a dict. *)
Definition dict_get (items : list (string * pyval)) (k : string)
           (default : pyval) : pyval :=
  match dict_lookup k items with Some v => v | None => default end.

(** [data.get(k, d)]: only a dict has [get]. *)
Definition data_get (data : pyval) (k : string) (d : pyval) : M pyval :=
  match data with
  | PDict items => mret (dict_get items k d)
  | _ => raise AttributeError
  end.

(** [v is None] and [idx is not None] *)
Definition is_none (v : pyval) : bool :=
  match v with PNone => true | _ => false end.

Definition is_Some_b {A : Type} (o : option A) : bool :=
  match o with Some _ => true | None => false end.

(** [s in (a, b)] for strings. *)
Definition str_in (s : string) (t : list string) : bool :=
  existsb (String.eqb s) t.

(** [bill - advance] with an [int] on the left and a [float] on the
    right: the integer is converted first. *)
Definition int_sub_float (z : Z) (x : float) : exn + float :=
  match PyFloat.of_int z with
  | Some f => inr (PyFloat.sub f x)
  | None => inl OverflowError
  end.

Section Handlers.

Context {builtins : Builtins}.

(** [int(v)] *)
Definition py_int (v : pyval) : exn + Z :=
  match v with
  | PInt z => inr z
  | PBool b => inr (if b then 1 else 0)
  | PFloat f =>
      match PyFloat.trunc f with
      | Some z => inr z
      | None => inl (if PyFloat.is_nan f then ValueError else OverflowError)
      end
  | PStr s =>
      match int_of_str s with Some z => inr z | None => inl ValueError end
  | PNone | PList _ | PDict _ => inl TypeError
  end.

(** [float(v)] *)
Definition py_float (v : pyval) : exn + float :=
  match v with
  | PInt _ | PBool _ =>
      match as_int v with
      | Some z =>
          match PyFloat.of_int z with
          | Some f => inr f
          | None => inl OverflowError
          end
      | None => inl TypeError
      end
  | PFloat f => inr f
  | PStr s =>
      match float_of_str s with Some f => inr f | None => inl ValueError end
  | PNone | PList _ | PDict _ => inl TypeError
  end.

(** *** UI routes *)

(** [manage_rooms], POST *)
Definition manage_rooms (form : Form) : M Response :=
  s ← form_item "room_number" form;
  rno ← try_or_respond (py_int (PStr s))
          (Flash "Room number must be an integer" "danger");
  rs ← get_rooms;
  if is_Some_b (find_room_index rs (PInt rno)) then
    respond (Flash "Room number already exists. Choose a unique number."
                   "warning")
  else
    let ac := str_upper (form_get_str "ac" "N" form) in
    let comfort := str_upper (form_get_str "comfort" "N" form) in
    let size := str_upper (form_get_str "size" "S" form) in
    rent ← lift (py_int (form_get "rent" (PInt 0) form));
    if negb (str_in ac ["A"; "N"]) || negb (str_in comfort ["S"; "N"])
       || negb (str_in size ["B"; "S"])
    then respond (Flash "Invalid room attributes" "danger")
    else
      append_room
        (mkRoom (PInt rno) (PStr ac) (PStr comfort) (PStr size) rent 0 None);;
      mret (RoomAdded rno).

(** [checkin], POST *)
Definition checkin (form : Form) : M Response :=
  s ← form_item "room_number" form;
  rno ← try_or_respond (py_int (PStr s))
          (Flash "Invalid room number" "danger");
  rs ← get_rooms;
  match find_room_index rs (PInt rno) with
  | None => respond (Flash "Room not found" "warning")
  | Some idx =>
      room ← room_at idx;
      if status room =? 1 then
        respond (Flash "Room is already booked" "warning")
      else
        b ← form_item "booking_id" form;
        bid ← try_or_respond (py_int (PStr b))
                (Flash "Booking ID must be an integer" "danger");
        ids ← get_booking_ids;
        if set_mem (PInt bid) ids then
          respond (Flash "Booking ID already taken. Use a different ID"
                         "warning")
        else
          let name := str_strip (form_get_str "name" "" form) in
          let address := str_strip (form_get_str "address" "" form) in
          let phone := str_strip (form_get_str "phone" "" form) in
          let from_date := str_strip (form_get_str "from_date" "" form) in
          let to_date := str_strip (form_get_str "to_date" "" form) in
          advance ← try_or_default
                      (py_float (form_get "advance" (PInt 0) form))
                      PyFloat.zero;
          let c := mkCustomer (PStr name) (PStr address) (PStr phone)
                     (PStr from_date) (PStr to_date) advance (PInt bid) in
          modify_room idx (set_cust (Some c));;
          modify_room idx (set_status 1);;
          add_booking_id (PInt bid);;
          mret (CheckedIn name rno)
  end.

(** The statements shared by [checkout] and [api_checkout] once the
    room is known to be checked in: the bill, then freeing the room. *)
Definition bill_and_free (idx : nat) (days : Z) : M BillResult :=
  room ← room_at idx;
  let bill := days * rent room in
  let advance :=
    match cust room with
    | Some c => payment_advance c
    | None => PyFloat.zero
    end in
  payable ← lift (int_sub_float bill advance);
  match cust room with
  | Some c =>
      if py_truthy (booking_id c) then discard_booking_id (booking_id c)
      else mret tt
  | None => mret tt
  end;;
  modify_room idx (set_cust None);;
  modify_room idx (set_status 0);;
  mret (mkBill bill advance payable).

(** [checkout], POST *)
Definition checkout (form : Form) : M Response :=
  s ← form_item "room_number" form;
  rno ← try_or_respond (py_int (PStr s))
          (Flash "Invalid room number" "danger");
  rs ← get_rooms;
  match find_room_index rs (PInt rno) with
  | None => respond (Flash "Room is not currently checked-in" "warning")
  | Some idx =>
      room ← room_at idx;
      if status room =? 0 then
        respond (Flash "Room is not currently checked-in" "warning")
      else
        d ← form_item "days" form;
        days ← try_or_respond (py_int (PStr d))
                 (Flash "Number of days must be an integer" "danger");
        b ← bill_and_free idx days;
        mret (CheckoutResult rno b)
  end.

(** *** JSON API routes *)

(** [api_rooms], POST *)
Definition api_rooms (body : pyval) : M Response :=
  let data := json_data body in
  rno ← data_get data "room_number" PNone;
  if is_none rno then respond (JsonError "room_number required" 400)
  else
    rs ← get_rooms;
    if is_Some_b (find_room_index rs rno) then
      respond (JsonError "room exists" 400)
    else
      ac ← data_get data "ac" (PStr "N");
      comfort ← data_get data "comfort" (PStr "N");
      size ← data_get data "size" (PStr "S");
      r ← data_get data "rent" (PInt 0);
      rent ← lift (py_int r);
      append_room (mkRoom rno ac comfort size rent 0 None);;
      mret (JsonOk 201).

(** [api_checkin] *)
Definition api_checkin (body : pyval) : M Response :=
  let data := json_data body in
  rno ← data_get data "room_number" PNone;
  if is_none rno then respond (JsonError "room_number required" 400)
  else
    rs ← get_rooms;
    match find_room_index rs rno with
    | None => respond (JsonError "room not found" 404)
    | Some idx =>
        room ← room_at idx;
        if status room =? 1 then respond (JsonError "already booked" 400)
        else
          bid ← data_get data "booking_id" PNone;
          ids ← get_booking_ids;
          if negb (py_hashable bid) then raise TypeError
          else if set_mem bid ids then
            respond (JsonError "booking id taken" 400)
          else
            name ← data_get data "name" (PStr "");
            address ← data_get data "address" (PStr "");
            phone ← data_get data "phone" (PStr "");
            from_date ← data_get data "from_date" (PStr "");
            to_date ← data_get data "to_date" (PStr "");
            a ← data_get data "payment_advance" (PInt 0);
            advance ← lift (py_float a);
            let c := mkCustomer name address phone from_date to_date
                       advance bid in
            modify_room idx (set_cust (Some c));;
            modify_room idx (set_status 1);;
            add_booking_id bid;;
            mret (JsonOk 200)
    end.

(** [api_checkout] *)
Definition api_checkout (body : pyval) : M Response :=
  let data := json_data body in
  rno ← data_get data "room_number" PNone;
  d ← data_get data "days" (PInt 0);
  days ← lift (py_int d);
  rs ← get_rooms;
  match find_room_index rs rno with
  | None => respond (JsonError "room not checked-in" 400)
  | Some idx =>
      room ← room_at idx;
      if status room =? 0 then
        respond (JsonError "room not checked-in" 400)
      else
        b ← bill_and_free idx days;
        mret (JsonBill b)
  end.

(** The loop of [api_search_customer]; [r.cust.name.lower()] raises
    [AttributeError] when the stored name is not a string. *)
Fixpoint search_rooms (q : string) (rs : list Room)
  : exn + list (pyval * Customer) :=
  match rs with
  | [] => inr []
  | r :: rs' =>
      let hit : exn + option Customer :=
        if status r =? 1 then
          match cust r with
          | Some c =>
              match name c with
              | PStr s =>
                  inr (if String.eqb (str_lower s) q then Some c else None)
              | _ => inl AttributeError
              end
          | None => inr None
          end
        else inr None in
      match hit with
      | inl e => inl e
      | inr h =>
          match search_rooms q rs' with
          | inl e => inl e
          | inr rest =>
              inr (match h with
                   | Some c => (room_number r, c) :: rest
                   | None => rest
                   end)
          end
      end
  end.

(** [api_search_customer] *)
Definition api_search_customer (args : Form) : M Response :=
  let q := str_lower (str_strip (form_get_str "name" "" args)) in
  if String.eqb q "" then mret (JsonResults [])
  else
    rs ← get_rooms;
    results ← lift (search_rooms q rs);
    mret (JsonResults results).

(** [guests] and [available]: the rooms listed by the two views. *)
Definition guests (st : State) : list Room :=
  filter (fun r => status r =? 1) (rooms st).

Definition available (st : State) : list Room :=
  filter (fun r => status r =? 0) (rooms st).

(** *** The objects the handlers build *)

(** The customer built by [checkin] from the form. *)
Definition form_customer (form : Form) (advance : float) (bid : Z)
  : Customer :=
  mkCustomer (PStr (str_strip (form_get_str "name" "" form)))
             (PStr (str_strip (form_get_str "address" "" form)))
             (PStr (str_strip (form_get_str "phone" "" form)))
             (PStr (str_strip (form_get_str "from_date" "" form)))
             (PStr (str_strip (form_get_str "to_date" "" form)))
             advance (PInt bid).

(** [float(form.get("advance", 0))], 0.0 on [ValueError]. *)
Definition form_advance (form : Form) : float :=
  match dict_lookup "advance" form with
  | Some a => match float_of_str a with Some f => f | None => PyFloat.zero end
  | None => PyFloat.zero
  end.

(** The customer built by [api_checkin] from the body's items. *)
Definition json_customer (items : list (string * pyval)) (advance : float)
  : Customer :=
  mkCustomer (dict_get items "name" (PStr ""))
             (dict_get items "address" (PStr ""))
             (dict_get items "phone" (PStr ""))
             (dict_get items "from_date" (PStr ""))
             (dict_get items "to_date" (PStr ""))
             advance (dict_get items "booking_id" PNone).

(** The room built by [manage_rooms] from the form. *)
Definition form_room (form : Form) (rno rent : Z) : Room :=
  mkRoom (PInt rno)
         (PStr (str_upper (form_get_str "ac" "N" form)))
         (PStr (str_upper (form_get_str "comfort" "N" form)))
         (PStr (str_upper (form_get_str "size" "S" form)))
         rent 0 None.

(** The test [manage_rooms] makes on the three attributes. *)
Definition form_attributes_valid (form : Form) : bool :=
  str_in (str_upper (form_get_str "ac" "N" form)) ["A"; "N"]
  && str_in (str_upper (form_get_str "comfort" "N" form)) ["S"; "N"]
  && str_in (str_upper (form_get_str "size" "S" form)) ["B"; "S"].

(** The room built by [api_rooms] from the body's items. *)
Definition json_room (items : list (string * pyval)) (rent : Z) : Room :=
  mkRoom (dict_get items "room_number" PNone)
         (dict_get items "ac" (PStr "N"))
         (dict_get items "comfort" (PStr "N"))
         (dict_get items "size" (PStr "S"))
         rent 0 None.


(** *** Requests that reach a handler which touches the globals *)
Inductive Request : Type :=
  | ManageRoomsPost (form : Form)
  | CheckinPost (form : Form)
  | CheckoutPost (form : Form)
  | ApiRoomsPost (body : pyval)
  | ApiCheckinPost (body : pyval)
  | ApiCheckoutPost (body : pyval)
  | ApiSearchCustomer (args : Form).

Definition handle (req : Request) : M Response :=
  match req with
  | ManageRoomsPost form => manage_rooms form
  | CheckinPost form => checkin form
  | CheckoutPost form => checkout form
  | ApiRoomsPost body => api_rooms body
  | ApiCheckinPost body => api_checkin body
  | ApiCheckoutPost body => api_checkout body
  | ApiSearchCustomer args => api_search_customer args
  end.

Definition step (req : Request) (st : State) : State * Response :=
  run (handle req) st.

(** The states the server can be in: the empty globals at start-up,
    then one request after the other. *)
Inductive reachable : State -> Prop :=
  | reachable_init : reachable init_state
  | reachable_step (req : Request) (st : State) :
      reachable st -> reachable (fst (step req st)).

(** The state after a list of requests, oldest first. *)
Definition run_requests (reqs : list Request) (st : State) : State :=
  fold_left (fun s req => fst (step req s)) reqs st.

End Handlers.

(** ** The builtins on ASCII text

    CPython's behaviour on strings of ASCII characters, used to run the
    handlers on concrete requests.  [str.strip] removes the whitespace
    of [str.isspace]; [int] and [float] skip blanks only.  Characters
    outside ASCII are left as they are and are neither digits nor
    whitespace here; the interpreter's limit on the length of an
    integer literal is not modelled. *)
Module AsciiBuiltins.

Definition code (c : ascii) : N := N_of_ascii c.

(** [c.isspace()]: tab to carriage return, the four separators
    0x1c-0x1f, and the space. *)
Definition is_space (c : ascii) : bool :=
  ((9 <=? code c) && (code c <=? 13) || (28 <=? code c) && (code c <=? 32))%N.

Definition is_digit (c : ascii) : bool :=
  ((48 <=? code c) && (code c <=? 57))%N.

Definition digit (c : ascii) : Z := Z.of_N (code c) - 48.

Definition upper_char (c : ascii) : ascii :=
  if ((97 <=? code c) && (code c <=? 122))%N
  then ascii_of_N (code c - 32) else c.

Definition lower_char (c : ascii) : ascii :=
  if ((65 <=? code c) && (code c <=? 90))%N
  then ascii_of_N (code c + 32) else c.

Fixpoint map_chars (f : ascii -> ascii) (s : string) : string :=
  match s with
  | EmptyString => EmptyString
  | String c s' => String (f c) (map_chars f s')
  end.

Definition upper : string -> string := map_chars upper_char.
Definition lower : string -> string := map_chars lower_char.

Fixpoint lstrip (s : string) : string :=
  match s with
  | String c s' => if is_space c then lstrip s' else s
  | EmptyString => EmptyString
  end.

Fixpoint rstrip (s : string) : string :=
  match s with
  | EmptyString => EmptyString
  | String c s' =>
      match rstrip s' with
      | EmptyString => if is_space c then EmptyString else String c EmptyString
      | t => String c t
      end
  end.

Definition strip (s : string) : string := rstrip (lstrip s).

(** The whitespace [int] and [float] skip around an ASCII literal: tab
    to carriage return and the space.  The separators 0x1c-0x1f, which
    [str.strip] removes, are not skipped: [int] and [float] raise
    [ValueError] on them. *)
Definition is_blank (c : ascii) : bool :=
  ((9 <=? code c) && (code c <=? 13) || (code c =? 32))%N.

Fixpoint skip_blanks (s : string) : string :=
  match s with
  | String c s' => if is_blank c then skip_blanks s' else s
  | EmptyString => EmptyString
  end.

Fixpoint drop_blanks (s : string) : string :=
  match s with
  | EmptyString => EmptyString
  | String c s' =>
      match drop_blanks s' with
      | EmptyString => if is_blank c then EmptyString else String c EmptyString
      | t => String c t
      end
  end.

(** The literal inside the blanks. *)
Definition literal (s : string) : string := drop_blanks (skip_blanks s).

(** A run of digits in which single underscores may separate digits:
    its value on top of [acc], the number of digits, and what follows
    the run.  [None] when [s] does not start with a digit. *)
Fixpoint digit_run (s : string) (acc : Z) (n : nat) (started : bool)
  : option (Z * nat * string) :=
  match s with
  | String c s' =>
      if is_digit c then digit_run s' (10 * acc + digit c) (S n) true
      else if started && Ascii.eqb c "_" then
        match s' with
        | String c' _ =>
            if is_digit c' then digit_run s' acc n true
            else Some (acc, n, s)
        | EmptyString => Some (acc, n, s)
        end
      else if started then Some (acc, n, s) else None
  | EmptyString => if started then Some (acc, n, s) else None
  end.

(** An optional sign: whether it is a minus, and the rest. *)
Definition sign (s : string) : bool * string :=
  match s with
  | String c s' =>
      if Ascii.eqb c "-" then (true, s')
      else if Ascii.eqb c "+" then (false, s')
      else (false, s)
  | EmptyString => (false, s)
  end.

(** [int(s)] in base 10 *)
Definition int_of_str (s : string) : option Z :=
  let '(neg, t) := sign (literal s) in
  match digit_run t 0 0 false with
  | Some (v, _, EmptyString) => Some (if neg then - v else v)
  | _ => None
  end.

(** The double nearest to [(-1)^neg * m * 10^k], ties to even. *)
Definition round_decimal (neg : bool) (m k : Z) : float :=
  match m with
  | Z0 => S754_zero neg
  | _ =>
      if 0 <=? k then
        binary_normalize PyFloat.prec PyFloat.emax
          ((if neg then - m else m) * 10 ^ k) 0 neg
      else
        let '(q, e, l) :=
          SFdiv_core_binary PyFloat.prec PyFloat.emax m 0 (10 ^ (- k)) 0 in
        binary_round_aux PyFloat.prec PyFloat.emax neg q e l
  end.

(** The digits of a decimal literal: integer part, optional point and
    fraction, at least one digit in all.  Returns the digits as one
    integer, the number of fraction digits, and the rest. *)
Definition mantissa (s : string) : option (Z * nat * string) :=
  match digit_run s 0 0 false with
  | Some (i, _, String "." t) =>
      match digit_run t i 0 false with
      | Some (v, n, rest) => Some (v, n, rest)
      | None => Some (i, 0%nat, t)
      end
  | Some (i, _, rest) => Some (i, 0%nat, rest)
  | None =>
      match s with
      | String "." t => digit_run t 0 0 false
      | _ => None
      end
  end.

(** An optional exponent [e±ddd] that must end the literal. *)
Definition exponent (s : string) : option Z :=
  match s with
  | EmptyString => Some 0
  | String c t =>
      if Ascii.eqb (lower_char c) "e" then
        let '(neg, u) := sign t in
        match digit_run u 0 0 false with
        | Some (v, _, EmptyString) => Some (if neg then - v else v)
        | _ => None
        end
      else None
  end.

(** [float(s)] *)
Definition float_of_str (s : string) : option float :=
  let '(neg, t) := sign (literal s) in
  let w := lower t in
  if String.eqb w "inf" || String.eqb w "infinity" then
    Some (S754_infinity neg)
  else if String.eqb w "nan" then Some S754_nan
  else
    match mantissa t with
    | Some (m, n, rest) =>
        match exponent rest with
        | Some e => Some (round_decimal neg m (e - Z.of_nat n))
        | None => None
        end
    | None => None
    end.

End AsciiBuiltins.

Definition ascii_builtins : Builtins :=
  {| str_strip := AsciiBuiltins.strip;
     str_upper := AsciiBuiltins.upper;
     str_lower := AsciiBuiltins.lower;
     int_of_str := AsciiBuiltins.int_of_str;
     float_of_str := AsciiBuiltins.float_of_str |}.

(** ** What one request can do to the globals

    Every handler either leaves the globals as they are, appends one
    free room whose number no stored room equals, checks a customer into
    a room that is not reserved, or frees a room that is not available. *)
Definition checked_in (idx : nat) (c : Customer) (st : State) : State :=
  mkState (alter (set_status 1) idx (alter (set_cust (Some c)) idx (rooms st)))
          (set_add (booking_id c) (booking_ids st)).

Definition checked_out (idx : nat) (room : Room) (st : State) : State :=
  mkState (alter (set_status 0) idx (alter (set_cust None) idx (rooms st)))
          (match cust room with
           | Some c =>
               if py_truthy (booking_id c)
               then set_discard (booking_id c) (booking_ids st)
               else booking_ids st
           | None => booking_ids st
           end).

(** [room.cust.payment_advance if room.cust else 0.0] *)
Definition advance_of (room : Room) : float :=
  match cust room with
  | Some c => payment_advance c
  | None => PyFloat.zero
  end.

Inductive effect (st : State) : State -> Response -> Prop :=
  | effect_none (r : Response) : effect st st r
  | effect_add (room : Room) (r : Response) :
      find_room_index (rooms st) (room_number room) = None ->
      status room = 0 ->
      cust room = None ->
      is_success r = true ->
      effect st (mkState (rooms st ++ [room]) (booking_ids st)) r
  | effect_checkin (idx : nat) (room : Room) (c : Customer) (r : Response) :
      rooms st !! idx = Some room ->
      (status room =? 1) = false ->
      py_hashable (booking_id c) = true ->
      set_mem (booking_id c) (booking_ids st) = false ->
      is_success r = true ->
      effect st (checked_in idx c st) r
  | effect_checkout (idx : nat) (room : Room) (r : Response) :
      rooms st !! idx = Some room ->
      (status room =? 0) = false ->
      is_success r = true ->
      effect st (checked_out idx room st) r.

(** ** The invariants of the registry *)

(** A room has a customer exactly when it is reserved. *)
Definition occupancy (st : State) : Prop :=
  forall r : Room, r ∈ rooms st -> is_Some (cust r) <-> status r = 1.



(** The booking ids of the customers of the reserved rooms. *)
Definition occupied_booking_ids (st : State) : list pyval :=
  omap (fun r => if status r =? 1 then booking_id <$> cust r else None)
       (rooms st).

(** The in-use set and the reserved rooms' booking ids hold the same
    elements. *)
Definition booking_ids_exact (st : State) : bool :=
  forallb (fun b => set_mem b (occupied_booking_ids st)) (booking_ids st)
  && forallb (fun b => set_mem b (booking_ids st)) (occupied_booking_ids st).

(** The attributes of a room are among the letters of [models.py]. *)
Definition room_attributes_valid (r : Room) : Prop :=
  (ac r = PStr "A" \/ ac r = PStr "N")
  /\ (comfort r = PStr "S" \/ comfort r = PStr "N")
  /\ (size r = PStr "B" \/ size r = PStr "S").

(** Every customer of a reserved room has a string for a name. *)
Definition names_are_strings (st : State) : Prop :=
  forall (r : Room) (c : Customer),
    r ∈ rooms st -> status r = 1 -> cust r = Some c ->
    exists s : string, name c = PStr s.

(** ** The customer search, stated without the loop *)
Section Search.

Context {builtins : Builtins}.

(** The entry a room contributes for the lower-case name [q]: the room
    is reserved and its customer's name, a string, lower-cased, is [q]. *)
Definition matching_entry (q : string) (r : Room)
  : option (pyval * Customer) :=
  if status r =? 1 then
    match cust r with
    | Some c =>
        match name c with
        | PStr s =>
            if String.eqb (str_lower s) q then Some (room_number r, c)
            else None
        | _ => None
        end
    | None => None
    end
  else None.

(** The search on the query with the whitespace around it removed:
    what [api_search_customer] computes when no stored name makes
    [lower] fail. *)
Definition search_stripped (query : string) (st : State)
  : list (pyval * Customer) :=
  let q := str_lower (str_strip query) in
  if String.eqb q "" then [] else omap (matching_entry q) (rooms st).

(** The search as the specification words it: nothing for a query that
    is empty or only whitespace, otherwise the reserved rooms whose
    customer's name equals the query itself, ignoring case. *)
Definition search_as_specified (query : string) (st : State)
  : list (pyval * Customer) :=
  if String.eqb (str_strip query) "" then []
  else omap (matching_entry (str_lower query)) (rooms st).

End Search.

(** ** Concrete requests

    The requests of the scenarios below, run with the ASCII builtins. *)
Module Scenario.

#[local] Existing Instance ascii_builtins.

(** UI forms *)
Definition add_101 : Request :=
  ManageRoomsPost [("room_number", "101"); ("ac", "N"); ("comfort", "N");
                   ("size", "S"); ("rent", "500")].

Definition add_102 : Request :=
  ManageRoomsPost [("room_number", "102"); ("ac", "A"); ("comfort", "S");
                   ("size", "B"); ("rent", "800")].

Definition checkin_form (rno bid guest adv : string) : Form :=
  [("room_number", rno); ("booking_id", bid); ("name", guest);
   ("address", "1 Main St"); ("phone", "555"); ("from_date", "2024-01-01");
   ("to_date", "2024-01-04"); ("advance", adv)].

Definition checkin_101 : Request :=
  CheckinPost (checkin_form "101" "1" "Alice" "200").

Definition checkout_form (rno days : string) : Form :=
  [("room_number", rno); ("days", days)].

Definition checkout_101 : Request := CheckoutPost (checkout_form "101" "3").

(** JSON bodies *)
Definition api_add_101 : Request :=
  ApiRoomsPost (PDict [("room_number", PInt 101); ("ac", PStr "N");
                       ("comfort", PStr "N"); ("size", PStr "S");
                       ("rent", PInt 500)]).

Definition api_checkin_body (rno bid : pyval) (guest : string)
           (adv : pyval) : pyval :=
  PDict [("room_number", rno); ("booking_id", bid); ("name", PStr guest);
         ("payment_advance", adv)].

Definition api_checkin_101 : Request :=
  ApiCheckinPost (api_checkin_body (PInt 101) (PInt 1) "Alice" (PInt 200)).

Definition api_checkout_101 : Request :=
  ApiCheckoutPost (PDict [("room_number", PInt 101); ("days", PInt 3)]).

(** The doubles 200.0 and 1300.0 *)
Definition f200 : float := S754_finite false 7036874417766400 (-45).
Definition f1300 : float := S754_finite false 5717460464435200 (-42).

Definition room_101 : Room :=
  mkRoom (PInt 101) (PStr "N") (PStr "N") (PStr "S") 500 0 None.

Definition alice (adv : float) (bid : Z) : Customer :=
  mkCustomer (PStr "Alice") (PStr "1 Main St") (PStr "555")
             (PStr "2024-01-01") (PStr "2024-01-04") adv (PInt bid).

(** Room 101 added through the form, and then checked in. *)
Definition st_added : State := mkState [room_101] [].

Definition st_checked_in : State :=
  mkState [set_status 1 (set_cust (Some (alice f200 1)) room_101)] [PInt 1].

(** Booking id 0: a check-in of room 101, and its check-out. *)
Definition checkin_101_id0 : Request :=
  CheckinPost (checkin_form "101" "0" "Alice" "200").

Definition api_checkin_101_id0 : Request :=
  ApiCheckinPost (api_checkin_body (PInt 101) (PInt 0) "Alice" (PInt 200)).

(** A check-in whose advance is not a number. *)
Definition checkin_101_bad_advance : Request :=
  CheckinPost (checkin_form "101" "1" "Alice" "abc").

Definition api_checkin_101_bad_advance : Request :=
  ApiCheckinPost (api_checkin_body (PInt 101) (PInt 1) "Alice" (PStr "abc")).

(** A room whose rent is negative. *)
Definition add_101_negative_rent : Request :=
  ManageRoomsPost [("room_number", "101"); ("ac", "N"); ("comfort", "N");
                   ("size", "S"); ("rent", "-5")].

Definition room_101_negative_rent : Room :=
  mkRoom (PInt 101) (PStr "N") (PStr "N") (PStr "S") (-5) 0 None.

(** Three rooms: 101 reserved for "alice", 102 for "Alice Smith", 103
    free; and the state once room 103 is taken by a customer who gave
    no name. *)
Definition add_103 : Request :=
  ManageRoomsPost [("room_number", "103")].

Definition st_guests : State :=
  run_requests
    [add_101; add_102; add_103;
     CheckinPost (checkin_form "101" "1" "alice" "0");
     CheckinPost (checkin_form "102" "2" "Alice Smith" "0")]
    init_state.

Definition st_nameless : State :=
  run_requests [CheckinPost (checkin_form "103" "3" "" "0")] st_guests.

Definition search (query : string) : Request :=
  ApiSearchCustomer [("name", query)].

Definition guest (who : string) (bid : Z) : Customer :=
  mkCustomer (PStr who) (PStr "1 Main St") (PStr "555")
             (PStr "2024-01-01") (PStr "2024-01-04") PyFloat.zero (PInt bid).

(** Two free rooms, and check-ins of both with the one booking id 7. *)
Definition room_102 : Room :=
  mkRoom (PInt 102) (PStr "A") (PStr "S") (PStr "B") 800 0 None.

Definition st_two_rooms : State := mkState [room_101; room_102] [].

Definition checkin_A : Form := checkin_form "101" "7" "Ann" "0".
Definition checkin_B : Form := checkin_form "102" "7" "Bob" "0".

Definition api_checkin_A : pyval :=
  api_checkin_body (PInt 101) (PInt 7) "Ann" (PInt 0).
Definition api_checkin_B : pyval :=
  api_checkin_body (PInt 102) (PInt 7) "Bob" (PInt 0).

(** Room 201 at rent 1, reserved with an advance of 2^53 + 4, a value
    a double holds exactly. *)
Definition add_201 : Request :=
  ManageRoomsPost [("room_number", "201"); ("rent", "1")].

Definition checkin_201 : Request :=
  CheckinPost (checkin_form "201" "9" "Bob" "9007199254740996").

Definition st_large_advance : State :=
  run_requests [add_201; checkin_201] init_state.

Definition f_2p53_4 : float := S754_finite false 4503599627370498 1.

(** 2^53 + 3 days in room 201, and a stay long enough for the bill to
    leave the range of a double. *)
Definition checkout_201 : Request :=
  CheckoutPost (checkout_form "201" "9007199254740995").

Definition api_checkout_201_overflow : Request :=
  ApiCheckoutPost
    (PDict [("room_number", PInt 201); ("days", PInt (10 ^ 400))]).

Definition room_201 : Room :=
  mkRoom (PInt 201) (PStr "N") (PStr "N") (PStr "S") 1 0 None.



End Scenario.

(** ** The read-only JSON views *)

(** [api_room]: the fields of the room found for [rno], or the 404
    answer.  The [int] converter of the route hands the handler an
    integer. *)
Definition api_room (rno : Z) (st : State) : Response + Room :=
  match find_room_index (rooms st) (PInt rno) with
  | None => inl (JsonError "not found" 404)
  | Some idx =>
      match rooms st !! idx with
      | Some r => inr r
      | None => inl (Raised IndexError)
      end
  end.

(** The entry [api_guests] appends for a room: [r.status == 1 and
    r.cust]. *)
Definition guest_entry (r : Room) : option (pyval * Customer) :=
  if status r =? 1 then
    match cust r with
    | Some c => Some (room_number r, c)
    | None => None
    end
  else None.

(** [api_guests]: room number and customer of every room with status 1
    and a customer, in room order. *)
Definition api_guests (st : State) : list (pyval * Customer) :=
  omap guest_entry (rooms st).

(** ** Further invariants of the globals *)

(** Every status is 0 or 1. *)
Definition status_binary (st : State) : Prop :=
  forall r : Room, r ∈ rooms st -> status r = 0 \/ status r = 1.

(** No room is numbered [None]. *)
Definition numbers_given (st : State) : Prop :=
  forall r : Room, r ∈ rooms st -> room_number r <> PNone.

(** The booking id of every attached customer is hashable and is an
    element of [booking_ids]. *)
Definition booking_ids_cover (st : State) : Prop :=
  forall (i : nat) (r : Room) (c : Customer),
    rooms st !! i = Some r -> cust r = Some c ->
    py_hashable (booking_id c) = true /\ booking_id c ∈ booking_ids st.

(** The customers of two different rooms never have booking ids that a
    set takes for the same key. *)
Definition booking_ids_distinct (st : State) : Prop :=
  forall (i j : nat) (ri rj : Room) (ci cj : Customer),
    i <> j -> rooms st !! i = Some ri -> rooms st !! j = Some rj ->
    cust ri = Some ci -> cust rj = Some cj ->
    set_key_eq (booking_id ci) (booking_id cj) = false.

(** What no handler assigns once a room is stored. *)
Definition fixed_part (r : Room) : pyval * pyval * pyval * pyval * Z :=
  (room_number r, ac r, comfort r, size r, rent r).

(** The in-use set after a check-in with id [b] and the check-out that
    follows: [b] is dropped unless it is falsy. *)
Definition ids_after_round_trip (b : pyval) (ids : list pyval) : list pyval :=
  if py_truthy b then ids else (ids ++ [b])%list.

(** * Properties *)

(** ** Float subtraction and conversion

    The sign of a difference of two doubles is the sign of the exact
    difference, since rounding never crosses zero; and an integer below
    [2^1023] in absolute value has a nearest double. *)
Module PyFloatFacts.

Import PyFloat.

Ltac unfold_float :=
  unfold fexp, emin, SpecFloat.emin, prec, emax in *.

(** [digits2_pos p] is the length of [p] in binary. *)
Lemma digits2_pos_bounds (p : positive) :
  2 ^ (Z.pos (digits2_pos p) - 1) <= Z.pos p < 2 ^ Z.pos (digits2_pos p).
Proof.
  induction p as [p IH | p IH |]; simpl digits2_pos.
  - rewrite Pos2Z.inj_succ. replace (Z.succ (Z.pos (digits2_pos p)) - 1)
      with (Z.succ (Z.pos (digits2_pos p) - 1)) by lia.
    rewrite !Z.pow_succ_r by lia. lia.
  - rewrite Pos2Z.inj_succ. replace (Z.succ (Z.pos (digits2_pos p)) - 1)
      with (Z.succ (Z.pos (digits2_pos p) - 1)) by lia.
    rewrite !Z.pow_succ_r by lia. lia.
  - simpl. lia.
Qed.

(** Shifting right drops low bits: [n] shifts divide by [2^n]. *)
Lemma shr_1_m (mrs : shr_record) :
  0 <= shr_m mrs -> shr_m (shr_1 mrs) = shr_m mrs / 2.
Proof.
  destruct mrs as [m r s]. simpl.
  destruct m as [|[p|p|]|p]; simpl; intros Hm; try lia; try reflexivity.
  - rewrite Pos2Z.inj_xI. apply Z.div_unique with (r := 1); lia.
  - rewrite Pos2Z.inj_xO. apply Z.div_unique with (r := 0); lia.
Qed.

Lemma iter_shr_1_m (p : positive) (mrs : shr_record) :
  0 <= shr_m mrs ->
  shr_m (SpecFloat.iter_pos shr_1 p mrs) = shr_m mrs / 2 ^ Z.pos p.
Proof.
  revert mrs. induction p as [p IH | p IH |]; intros mrs Hm;
    simpl SpecFloat.iter_pos.
  - assert (H1 : 0 <= shr_m (shr_1 mrs))
      by (rewrite shr_1_m by exact Hm; apply Z.div_pos; lia).
    assert (H2 : 0 <= shr_m (SpecFloat.iter_pos shr_1 p (shr_1 mrs)))
      by (rewrite IH by exact H1; apply Z.div_pos; lia).
    rewrite IH by exact H2. rewrite IH by exact H1. rewrite shr_1_m by exact Hm.
    rewrite !Z.div_div by lia.
    f_equal. rewrite (Pos2Z.inj_xI p).
    replace (2 * Z.pos p + 1) with (1 + Z.pos p + Z.pos p) by lia.
    rewrite !Z.pow_add_r by lia. change (2 ^ 1) with 2. lia.
  - assert (H2 : 0 <= shr_m (SpecFloat.iter_pos shr_1 p mrs))
      by (rewrite IH by exact Hm; apply Z.div_pos; lia).
    rewrite IH by exact H2. rewrite IH by exact Hm.
    rewrite !Z.div_div by lia.
    f_equal. rewrite (Pos2Z.inj_xO p).
    replace (2 * Z.pos p) with (Z.pos p + Z.pos p) by lia.
    rewrite !Z.pow_add_r by lia. lia.
  - rewrite shr_1_m by exact Hm. reflexivity.
Qed.

Lemma shr_record_of_loc_m (m : Z) (l : location) :
  shr_m (shr_record_of_loc m l) = m.
Proof. destruct l as [|[]]; reflexivity. Qed.

(** Truncating a positive mantissa to the precision leaves it
    positive, and only raises the exponent. *)
Lemma shr_fexp_pos (m e : Z) (l : location) :
  0 < m -> emin <= e ->
  0 < shr_m (fst (shr_fexp prec emax m e l))
  /\ e <= snd (shr_fexp prec emax m e l).
Proof.
  intros Hm He. destruct m as [|p|p]; try lia.
  unfold shr_fexp, shr. simpl Zdigits2.
  pose proof (digits2_pos_bounds p) as [Hlo _].
  destruct (fexp prec emax (Z.pos (digits2_pos p) + e) - e) as [|q|q] eqn:En;
    simpl; rewrite ?shr_record_of_loc_m; try lia.
  rewrite iter_shr_1_m by (rewrite shr_record_of_loc_m; lia).
  rewrite shr_record_of_loc_m. split; [|lia].
  apply Z.div_str_pos. split; [apply Z.pow_pos_nonneg; lia|].
  apply Z.le_trans with (2 ^ (Z.pos (digits2_pos p) - 1)); [|exact Hlo].
  apply Z.pow_le_mono_r; [lia|].
  unfold_float. lia.
Qed.

Lemma round_nearest_even_ge (m : Z) (l : location) :
  m <= round_nearest_even m l.
Proof. destruct l as [|[]]; simpl; try lia. destruct (Z.even m); lia. Qed.

(** Rounding a positive mantissa gives a finite non-zero float or an
    infinity, of the sign asked for. *)
Lemma binary_round_aux_shape (s : bool) (m e : Z) (l : location) :
  0 < m -> emin <= e ->
  (exists (m' : positive) (e' : Z),
      binary_round_aux prec emax s m e l = S754_finite s m' e' /\ e <= e')
  \/ binary_round_aux prec emax s m e l = S754_infinity s.
Proof.
  intros Hm He. unfold binary_round_aux.
  pose proof (shr_fexp_pos m e l Hm He) as [H1 H2].
  destruct (shr_fexp prec emax m e l) as [mrs' e'] eqn:E1.
  simpl in H1, H2.
  pose proof (round_nearest_even_ge (shr_m mrs') (loc_of_shr_record mrs'))
    as Hr.
  pose proof (shr_fexp_pos (round_nearest_even (shr_m mrs')
                                               (loc_of_shr_record mrs'))
                           e' loc_Exact ltac:(lia) ltac:(lia)) as [H3 H4].
  destruct (shr_fexp prec emax _ e' loc_Exact) as [mrs'' e''] eqn:E2.
  simpl in H3, H4.
  destruct (shr_m mrs'') as [|m''|m'']; try lia.
  destruct (e'' <=? emax - prec); [left | right; reflexivity].
  exists m'', e''. split; [reflexivity | lia].
Qed.

(** Aligning to a lower exponent multiplies the mantissa by a power
    of two. *)
Lemma shl_align_m (m : positive) (e e' : Z) :
  e' <= e -> Z.pos (fst (shl_align m e e')) = Z.pos m * 2 ^ (e - e').
Proof.
  intros Hle. unfold shl_align.
  destruct (e' - e) as [|d|d] eqn:Ed; cbn [fst]; try lia.
  - replace (e - e') with 0 by lia. rewrite Z.pow_0_r. lia.
  - replace (e - e') with (Z.pos d) by lia. clear.
    induction d as [|d IH] using Pos.peano_ind.
    + cbn [Pos.iter]. rewrite Pos2Z.inj_xO. change (2 ^ 1) with 2. lia.
    + rewrite Pos.iter_succ, Pos2Z.inj_succ, Z.pow_succ_r by lia.
      rewrite Pos2Z.inj_xO, IH. ring.
Qed.

Lemma binary_round_shape (s : bool) (p : positive) (e : Z) :
  emin <= e ->
  (exists (m' : positive) (e' : Z),
      binary_round prec emax s p e = S754_finite s m' e' /\ emin <= e')
  \/ binary_round prec emax s p e = S754_infinity s.
Proof.
  intros He. unfold binary_round.
  destruct (shl_align p e _) as [mz ez] eqn:Ea.
  assert (Hez : emin <= ez).
  { unfold shl_align in Ea.
    destruct (fexp prec emax (Z.pos (digits2_pos p) + e) - e) eqn:En;
      injection Ea as <- <-; try lia.
    unfold_float. lia. }
  destruct (binary_round_aux_shape s (Z.pos mz) ez loc_Exact ltac:(lia) Hez)
    as [(m' & e' & Hr & Hle) | Hr]; [left | right; exact Hr].
  exists m', e'. split; [exact Hr | lia].
Qed.

Lemma valid_exponent_ok (x : float) :
  valid x = true -> exponent_ok x = true.
Proof.
  destruct x as [s|s| |s m e]; simpl; try reflexivity.
  unfold valid, valid_binary, bounded, canonical_mantissa.
  intros [Hc _]%andb_prop.
  apply Z.eqb_eq in Hc. apply Z.leb_le.
  unfold_float. lia.
Qed.

(** The double of [d * 2^e] is below zero exactly when [d] is. *)
Lemma binary_normalize_negative (d e : Z) :
  emin <= e ->
  ltb (binary_normalize prec emax d e false) zero = (d <? 0).
Proof.
  intros He. destruct d as [|p|p]; simpl binary_normalize.
  - reflexivity.
  - destruct (binary_round_shape false p e He) as [(m' & e' & -> & _) | ->];
      reflexivity.
  - destruct (binary_round_shape true p e He) as [(m' & e' & -> & _) | ->];
      reflexivity.
Qed.

Lemma binary_normalize_exponent_ok (d e : Z) (sz : bool) :
  emin <= e -> exponent_ok (binary_normalize prec emax d e sz) = true.
Proof.
  intros He. destruct d as [|p|p]; simpl binary_normalize.
  - reflexivity.
  - destruct (binary_round_shape false p e He) as [(m' & e' & -> & Hle) | ->];
      [apply Z.leb_le, Hle | reflexivity].
  - destruct (binary_round_shape true p e He) as [(m' & e' & -> & Hle) | ->];
      [apply Z.leb_le, Hle | reflexivity].
Qed.

Lemma of_int_exponent_ok (z : Z) (f : float) :
  of_int z = Some f -> exponent_ok f = true.
Proof.
  unfold of_int. intros Hf.
  pose proof (binary_normalize_exponent_ok z 0 false) as H.
  assert (He : emin <= 0) by (unfold_float; lia).
  specialize (H He).
  destruct (binary_normalize prec emax z 0 false); inversion Hf; subst; exact H.
Qed.

(** A difference of two doubles is below zero exactly when the first
    is below the second. *)
Lemma sub_negative (x y : float) :
  exponent_ok x = true -> exponent_ok y = true ->
  ltb (sub x y) zero = ltb x y.
Proof.
  destruct x as [sx|sx| |sx mx ex], y as [sy|sy| |sy my ey];
    try reflexivity;
    try (destruct sx; try destruct sy; reflexivity);
    try (destruct sy; reflexivity).
  intros Hx%Z.leb_le Hy%Z.leb_le.
  unfold sub, SFsub.
  rewrite binary_normalize_negative by lia.
  unfold ltb, units.
  rewrite !shl_align_m by lia.
  unfold cond_Zopp.
  destruct sx, sy; apply eq_true_iff_eq; rewrite !Z.ltb_lt; lia.
Qed.

Lemma Zdigits2_le (m k : Z) :
  0 < m -> m < 2 ^ k -> Zdigits2 m <= k.
Proof.
  intros Hm Hk. destruct m as [|p|p]; try lia. simpl.
  pose proof (digits2_pos_bounds p) as [Hlo _].
  destruct (Z_lt_le_dec k 0) as [Hneg | Hnn].
  - rewrite (Z.pow_neg_r 2 k Hneg) in Hk. lia.
  - assert (Hlt : 2 ^ (Z.pos (digits2_pos p) - 1) < 2 ^ k) by lia.
    apply Z.pow_lt_mono_r_iff in Hlt; lia.
Qed.

Lemma Zdigits2_gt (m : Z) : 0 < m -> m < 2 ^ Zdigits2 m.
Proof.
  intros Hm. destruct m as [|p|p]; try lia. simpl.
  apply digits2_pos_bounds.
Qed.

(** Truncation does not raise the magnitude [digits + exponent]. *)
Lemma shr_fexp_bound (m e : Z) (l : location) :
  0 < m -> emin <= e ->
  snd (shr_fexp prec emax m e l)
  <= Z.max e (fexp prec emax (Zdigits2 m + e))
  /\ Zdigits2 (shr_m (fst (shr_fexp prec emax m e l)))
     + snd (shr_fexp prec emax m e l) <= Zdigits2 m + e.
Proof.
  intros Hm He.
  pose proof (shr_fexp_pos m e l Hm He) as [Hpos _].
  pose proof (Zdigits2_gt m Hm) as Hd.
  revert Hpos. unfold shr_fexp, shr.
  destruct (fexp prec emax (Zdigits2 m + e) - e) as [|q|q] eqn:En;
    simpl; rewrite ?shr_record_of_loc_m; try lia.
  rewrite iter_shr_1_m by (rewrite shr_record_of_loc_m; lia).
  rewrite shr_record_of_loc_m. intros Hpos. split; [lia|].
  assert (Hq : m / 2 ^ Z.pos q < 2 ^ (Zdigits2 m - Z.pos q)).
  { assert (Hdq : 0 <= Zdigits2 m - Z.pos q).
    { destruct (Z_lt_le_dec (Zdigits2 m - Z.pos q) 0) as [Hneg|]; [|lia].
      exfalso.
      assert (m < 2 ^ Z.pos q).
      { apply Z.lt_le_trans with (2 ^ Zdigits2 m); [exact Hd|].
        apply Z.pow_le_mono_r; lia. }
      rewrite Z.div_small in Hpos by lia. lia. }
    apply Z.div_lt_upper_bound; [apply Z.pow_pos_nonneg; lia|].
    rewrite <- Z.pow_add_r by lia.
    replace (Z.pos q + (Zdigits2 m - Z.pos q)) with (Zdigits2 m) by lia.
    exact Hd. }
  pose proof (Zdigits2_le _ _ Hpos Hq). lia.
Qed.

Lemma round_nearest_even_le (m : Z) (l : location) :
  round_nearest_even m l <= m + 1.
Proof. destruct l as [|[]]; simpl; try lia. destruct (Z.even m); lia. Qed.

(** Rounding a value of magnitude below [emax] does not overflow. *)
Lemma binary_round_aux_finite (s : bool) (m e : Z) (l : location) :
  0 < m -> emin <= e -> e <= emax - prec ->
  Zdigits2 m + e <= emax - 1 ->
  exists (m' : positive) (e' : Z),
    binary_round_aux prec emax s m e l = S754_finite s m' e'.
Proof.
  intros Hm He Hle HD. unfold binary_round_aux.
  pose proof (shr_fexp_pos m e l Hm He) as [H1 H2].
  pose proof (shr_fexp_bound m e l Hm He) as [B1 B2].
  destruct (shr_fexp prec emax m e l) as [mrs' e'] eqn:E1.
  simpl in H1, H2, B1, B2.
  set (m2 := round_nearest_even (shr_m mrs') (loc_of_shr_record mrs')).
  pose proof (round_nearest_even_ge (shr_m mrs') (loc_of_shr_record mrs'))
    as Hr.
  pose proof (round_nearest_even_le (shr_m mrs') (loc_of_shr_record mrs'))
    as Hr'.
  fold m2 in Hr, Hr'.
  assert (Hm2 : 0 < m2) by lia.
  assert (Hd2 : Zdigits2 m2 <= Zdigits2 (shr_m mrs') + 1).
  { apply Zdigits2_le; [exact Hm2|].
    pose proof (Zdigits2_gt (shr_m mrs') H1) as Hg.
    rewrite Z.pow_add_r by (destruct (shr_m mrs'); simpl; lia).
    change (2 ^ 1) with 2. lia. }
  pose proof (shr_fexp_pos m2 e' loc_Exact Hm2 ltac:(lia)) as [H3 H4].
  pose proof (shr_fexp_bound m2 e' loc_Exact Hm2 ltac:(lia)) as [B3 B4].
  destruct (shr_fexp prec emax m2 e' loc_Exact) as [mrs'' e''] eqn:E2.
  simpl in H3, H4, B3, B4.
  destruct (shr_m mrs'') as [|m''|m'']; try lia.
  assert (Hfin : e'' <= emax - prec).
  { unfold_float. lia. }
  apply Z.leb_le in Hfin. rewrite Hfin. eauto.
Qed.

Lemma binary_round_finite (s : bool) (p : positive) :
  Z.pos p < 2 ^ (emax - 1) ->
  exists (m' : positive) (e' : Z),
    binary_round prec emax s p 0 = S754_finite s m' e'.
Proof.
  intros Hp. unfold binary_round.
  pose proof (Zdigits2_le (Z.pos p) (emax - 1) ltac:(lia) Hp) as Hd.
  cbn [Zdigits2] in Hd.
  pose proof (digits2_pos_bounds p) as [_ Hhi].
  set (d := Z.pos (digits2_pos p)) in *.
  set (f := fexp prec emax (d + 0)).
  assert (Hf : emin <= f /\ d - prec <= f)
    by (unfold f; unfold_float; lia).
  pose proof (shl_align_m p 0 f) as Hm.
  destruct (shl_align p 0 f) as [mz ez] eqn:Ea. cbn [fst] in Hm.
  assert (Hz : emin <= ez /\ ez <= 0 /\ Zdigits2 (Z.pos mz) + ez <= d).
  { unfold shl_align in Ea.
    destruct (f - 0) as [|q|q] eqn:En; injection Ea as <- <-.
    - unfold_float. cbn [Zdigits2]. fold d. lia.
    - unfold_float. cbn [Zdigits2]. fold d. lia.
    - split; [lia|]. split; [lia|].
      assert (Hlt : Z.pos (Pos.iter xO p q) < 2 ^ (d - f)).
      { rewrite Hm by lia. replace (d - f) with (d + (0 - f)) by lia.
        rewrite Z.pow_add_r by lia.
        apply Z.mul_lt_mono_pos_r; [apply Z.pow_pos_nonneg; lia | exact Hhi]. }
      assert (Hpos : 0 < Z.pos (Pos.iter xO p q)) by apply Pos2Z.is_pos.
      pose proof (Zdigits2_le _ _ Hpos Hlt) as Hdz. lia. }
  destruct Hz as (Hz1 & Hz2 & Hz3).
  apply binary_round_aux_finite; try lia.
  unfold_float. lia.
Qed.

Lemma of_int_in_range (z : Z) :
  Z.abs z < 2 ^ (emax - 1) -> exists f, of_int z = Some f.
Proof.
  intros Hz. unfold of_int. destruct z as [|p|p]; simpl binary_normalize.
  - eauto.
  - destruct (binary_round_finite false p) as (m' & e' & ->); [lia | eauto].
  - destruct (binary_round_finite true p) as (m' & e' & ->); [lia | eauto].
Qed.

End PyFloatFacts.

(** ** Room lookup *)

Lemma find_room_index_Some (rs : list Room) (rno : pyval) (i : nat) :
  find_room_index rs rno = Some i ->
  exists r, rs !! i = Some r /\ py_eq (room_number r) rno = true.
Proof.
  revert i. induction rs as [|r rs IH]; intros i; simpl; [discriminate|].
  destruct (py_eq (room_number r) rno) eqn:E.
  - intros [= <-]. exists r. split; [reflexivity | exact E].
  - destruct (find_room_index rs rno) as [j|]; simpl; [|discriminate].
    intros [= <-]. apply (IH j). reflexivity.
Qed.

Lemma find_room_index_None (rs : list Room) (rno : pyval) :
  find_room_index rs rno = None ->
  forall (i : nat) (r : Room),
    rs !! i = Some r -> py_eq (room_number r) rno = false.
Proof.
  induction rs as [|r0 rs IH]; simpl; intros Hf i r Hi; [discriminate|].
  destruct (py_eq (room_number r0) rno) eqn:E; [discriminate|].
  destruct (find_room_index rs rno); [discriminate|].
  destruct i as [|i]; simpl in Hi.
  - injection Hi as <-. exact E.
  - apply (IH eq_refl i r Hi).
Qed.

(** Assigning [cust] or [status] leaves the room numbers, hence every
    lookup, as they were. *)
Lemma find_room_index_alter (f : Room -> Room) (idx : nat)
      (rs : list Room) (rno : pyval) :
  (forall r, room_number (f r) = room_number r) ->
  find_room_index (alter f idx rs) rno = find_room_index rs rno.
Proof.
  intros Hf. revert idx. induction rs as [|r rs IH]; intros idx; [reflexivity|].
  destruct idx as [|idx]; cbn.
  - rewrite Hf. reflexivity.
  - fold (alter f idx rs). rewrite IH. reflexivity.
Qed.

Ltac unfold_monad :=
  unfold run, mbind, M_bind, mret, M_ret, respond, raise, lift,
    try_or_respond, try_or_default, get_rooms, get_booking_ids, room_at,
    modify_room, append_room, add_booking_id, discard_booking_id,
    form_item, data_get in *.

Ltac exec :=
  repeat (first [ progress (unfold_monad; simpl in *; simplify_eq)
                | case_match ]).

(** ** The handlers run in one step

    Each handler's result spelled out as one decision list, in the order
    in which the handler reads its inputs and the globals. *)
Section Runs.

Context {builtins : Builtins}.

(** [bill_and_free] in one step: the subtraction may overflow before
    anything is written; otherwise the room is freed. *)
Lemma bill_and_free_run (idx : nat) (days : Z) (st : State) :
  bill_and_free idx days st =
  match rooms st !! idx with
  | None => (st, inl (Raised IndexError))
  | Some room =>
      match int_sub_float (days * rent room) (advance_of room) with
      | inl e => (st, inl (Raised e))
      | inr p =>
          (checked_out idx room st,
           inr (mkBill (days * rent room) (advance_of room) p))
      end
  end.
Proof.
  unfold bill_and_free, checked_out, advance_of.
  exec; try reflexivity; destruct st; reflexivity.
Qed.

Lemma checkout_run (form : Form) (st : State) :
  run (checkout form) st =
  match dict_lookup "room_number" form with
  | None => (st, Raised BadRequestKeyError)
  | Some s =>
  match int_of_str s with
  | None => (st, Flash "Invalid room number" "danger")
  | Some rno =>
  match find_room_index (rooms st) (PInt rno) with
  | None => (st, Flash "Room is not currently checked-in" "warning")
  | Some idx =>
  match rooms st !! idx with
  | None => (st, Raised IndexError)
  | Some room =>
  if status room =? 0
  then (st, Flash "Room is not currently checked-in" "warning")
  else
  match dict_lookup "days" form with
  | None => (st, Raised BadRequestKeyError)
  | Some d =>
  match int_of_str d with
  | None => (st, Flash "Number of days must be an integer" "danger")
  | Some days =>
  match int_sub_float (days * rent room) (advance_of room) with
  | inl e => (st, Raised e)
  | inr p =>
      (checked_out idx room st,
       CheckoutResult rno (mkBill (days * rent room) (advance_of room) p))
  end end end end end end end.
Proof.
  unfold checkout.
  repeat (first [ rewrite bill_and_free_run in *
                | progress (unfold_monad; simpl in *; simplify_eq)
                | case_match ]); reflexivity.
Qed.

Lemma api_checkout_run (body : pyval) (st : State) :
  run (api_checkout body) st =
  match json_data body with
  | PDict items =>
  match py_int (dict_get items "days" (PInt 0)) with
  | inl e => (st, Raised e)
  | inr days =>
  match find_room_index (rooms st) (dict_get items "room_number" PNone) with
  | None => (st, JsonError "room not checked-in" 400)
  | Some idx =>
  match rooms st !! idx with
  | None => (st, Raised IndexError)
  | Some room =>
  if status room =? 0 then (st, JsonError "room not checked-in" 400)
  else
  match int_sub_float (days * rent room) (advance_of room) with
  | inl e => (st, Raised e)
  | inr p =>
      (checked_out idx room st,
       JsonBill (mkBill (days * rent room) (advance_of room) p))
  end end end end
  | _ => (st, Raised AttributeError)
  end.
Proof.
  unfold api_checkout. destruct (json_data body).
  all: repeat (first [ rewrite bill_and_free_run in *
                     | progress (unfold_monad; simpl in *; simplify_eq)
                     | case_match ]); reflexivity.
Qed.

Lemma checkin_run (form : Form) (st : State) :
  run (checkin form) st =
  match dict_lookup "room_number" form with
  | None => (st, Raised BadRequestKeyError)
  | Some s =>
  match int_of_str s with
  | None => (st, Flash "Invalid room number" "danger")
  | Some rno =>
  match find_room_index (rooms st) (PInt rno) with
  | None => (st, Flash "Room not found" "warning")
  | Some idx =>
  match rooms st !! idx with
  | None => (st, Raised IndexError)
  | Some room =>
  if status room =? 1 then (st, Flash "Room is already booked" "warning")
  else
  match dict_lookup "booking_id" form with
  | None => (st, Raised BadRequestKeyError)
  | Some b =>
  match int_of_str b with
  | None => (st, Flash "Booking ID must be an integer" "danger")
  | Some bid =>
  if set_mem (PInt bid) (booking_ids st)
  then (st, Flash "Booking ID already taken. Use a different ID" "warning")
  else
    (checked_in idx (form_customer form (form_advance form) bid) st,
     CheckedIn (str_strip (form_get_str "name" "" form)) rno)
  end end end end end end.
Proof.
  unfold checkin, form_customer, form_advance, form_get, checked_in.
  exec; reflexivity.
Qed.

Lemma api_checkin_run (body : pyval) (st : State) :
  run (api_checkin body) st =
  match json_data body with
  | PDict items =>
  let rno := dict_get items "room_number" PNone in
  let bid := dict_get items "booking_id" PNone in
  if is_none rno then (st, JsonError "room_number required" 400)
  else
  match find_room_index (rooms st) rno with
  | None => (st, JsonError "room not found" 404)
  | Some idx =>
  match rooms st !! idx with
  | None => (st, Raised IndexError)
  | Some room =>
  if status room =? 1 then (st, JsonError "already booked" 400)
  else if negb (py_hashable bid) then (st, Raised TypeError)
  else if set_mem bid (booking_ids st)
  then (st, JsonError "booking id taken" 400)
  else
  match py_float (dict_get items "payment_advance" (PInt 0)) with
  | inl e => (st, Raised e)
  | inr advance => (checked_in idx (json_customer items advance) st, JsonOk 200)
  end end end
  | _ => (st, Raised AttributeError)
  end.
Proof.
  unfold api_checkin, json_customer, checked_in.
  destruct (json_data body); exec; reflexivity.
Qed.

Lemma manage_rooms_run (form : Form) (st : State) :
  run (manage_rooms form) st =
  match dict_lookup "room_number" form with
  | None => (st, Raised BadRequestKeyError)
  | Some s =>
  match int_of_str s with
  | None => (st, Flash "Room number must be an integer" "danger")
  | Some rno =>
  if is_Some_b (find_room_index (rooms st) (PInt rno))
  then (st, Flash "Room number already exists. Choose a unique number."
                  "warning")
  else
  match py_int (form_get "rent" (PInt 0) form) with
  | inl e => (st, Raised e)
  | inr rent =>
  if form_attributes_valid form
  then (mkState (rooms st ++ [form_room form rno rent]) (booking_ids st),
        RoomAdded rno)
  else (st, Flash "Invalid room attributes" "danger")
  end end end.
Proof.
  unfold manage_rooms, form_attributes_valid, form_room.
  unfold_monad. simpl.
  destruct (dict_lookup "room_number" form) as [s|]; simpl; [|reflexivity].
  destruct (int_of_str s) as [rno|]; simpl; [|reflexivity].
  destruct (is_Some_b _); simpl; [reflexivity|].
  destruct (py_int (form_get "rent" (PInt 0) form)) as [e|rent]; simpl;
    [reflexivity|].
  repeat match goal with
         | |- context [String.eqb ?a ?b] => destruct (String.eqb a b)
         end; reflexivity.
Qed.

Lemma api_rooms_run (body : pyval) (st : State) :
  run (api_rooms body) st =
  match json_data body with
  | PDict items =>
  let rno := dict_get items "room_number" PNone in
  if is_none rno then (st, JsonError "room_number required" 400)
  else if is_Some_b (find_room_index (rooms st) rno)
  then (st, JsonError "room exists" 400)
  else
  match py_int (dict_get items "rent" (PInt 0)) with
  | inl e => (st, Raised e)
  | inr rent =>
      (mkState (rooms st ++ [json_room items rent]) (booking_ids st),
       JsonOk 201)
  end
  | _ => (st, Raised AttributeError)
  end.
Proof.
  unfold api_rooms, json_room.
  destruct (json_data body); unfold_monad; simpl; try reflexivity.
  destruct (is_none _); simpl; [reflexivity|].
  destruct (is_Some_b _); simpl; [reflexivity|].
  destruct (py_int _); reflexivity.
Qed.

End Runs.

(** ** Each handler has one of the four effects *)

Section Effects.

Context {builtins : Builtins}.

Lemma manage_rooms_effect (form : Form) (st : State) :
  effect st (fst (run (manage_rooms form) st))
            (snd (run (manage_rooms form) st)).
Proof.
  rewrite manage_rooms_run.
  repeat case_match; simpl; try apply effect_none.
  apply effect_add; try reflexivity.
  simpl. destruct (find_room_index _ _); [discriminate | reflexivity].
Qed.

Lemma checkin_effect (form : Form) (st : State) :
  effect st (fst (run (checkin form) st)) (snd (run (checkin form) st)).
Proof.
  rewrite checkin_run.
  repeat case_match; simpl; try apply effect_none.
  eapply effect_checkin; eauto.
Qed.

Lemma checkout_effect (form : Form) (st : State) :
  effect st (fst (run (checkout form) st)) (snd (run (checkout form) st)).
Proof.
  rewrite checkout_run.
  repeat case_match; simpl; try apply effect_none.
  eapply effect_checkout; eauto.
Qed.

Lemma api_rooms_effect (body : pyval) (st : State) :
  effect st (fst (run (api_rooms body) st)) (snd (run (api_rooms body) st)).
Proof.
  rewrite api_rooms_run. cbv zeta.
  repeat case_match; simpl; try apply effect_none.
  apply effect_add; try reflexivity.
  simpl. destruct (find_room_index _ _); [discriminate | reflexivity].
Qed.

Lemma api_checkin_effect (body : pyval) (st : State) :
  effect st (fst (run (api_checkin body) st))
            (snd (run (api_checkin body) st)).
Proof.
  rewrite api_checkin_run. cbv zeta.
  repeat case_match; simpl; try apply effect_none.
  eapply effect_checkin; eauto.
  simpl. destruct (py_hashable _); [reflexivity | discriminate].
Qed.

Lemma api_checkout_effect (body : pyval) (st : State) :
  effect st (fst (run (api_checkout body) st))
            (snd (run (api_checkout body) st)).
Proof.
  rewrite api_checkout_run.
  repeat case_match; simpl; try apply effect_none.
  eapply effect_checkout; eauto.
Qed.

Lemma api_search_customer_effect (args : Form) (st : State) :
  fst (run (api_search_customer args) st) = st.
Proof. unfold api_search_customer. exec; reflexivity. Qed.

(** Whatever the request, the globals change in one of the four ways. *)
Lemma step_effect (req : Request) (st : State) :
  effect st (fst (step req st)) (snd (step req st)).
Proof.
  destruct req; unfold step, handle.
  - apply manage_rooms_effect.
  - apply checkin_effect.
  - apply checkout_effect.
  - apply api_rooms_effect.
  - apply api_checkin_effect.
  - apply api_checkout_effect.
  - rewrite api_search_customer_effect. apply effect_none.
Qed.

Lemma reachable_run_requests (reqs : list Request) (st : State) :
  reachable st -> reachable (run_requests reqs st).
Proof.
  revert st. induction reqs as [|req reqs IH]; intros st Hst; [exact Hst|].
  simpl. apply IH. apply reachable_step. exact Hst.
Qed.

End Effects.

(** ** Preservation of the invariants *)

(** The two assignments of a check-in or a check-out touch the room at
    [idx] and no other. *)
Lemma lookup_alter_twice (f g : Room -> Room) (idx k : nat)
      (rs : list Room) (r' : Room) :
  alter f idx (alter g idx rs) !! k = Some r' ->
  (k <> idx /\ rs !! k = Some r') \/
  (k = idx /\ exists r, rs !! idx = Some r /\ r' = f (g r)).
Proof.
  destruct (decide (k = idx)) as [->|Hne].
  - rewrite !list_lookup_alter_eq.
    destruct (rs !! idx) as [r|] eqn:E; simpl; [|discriminate].
    intros [= <-]. right. split; [reflexivity|]. exists r. auto.
  - rewrite !list_lookup_alter_ne by auto. auto.
Qed.

Lemma occupancy_effect (st st' : State) (r : Response) :
  effect st st' r -> occupancy st -> occupancy st'.
Proof.
  intros He Hocc. unfold occupancy in *.
  destruct He as [r | room r Hf Hs Hc _ | idx room c r Hi _ _ _ _
                  | idx room r Hi _ _]; simpl.
  - exact Hocc.
  - intros x [Hx | Hx%list_elem_of_singleton]%elem_of_app.
    + apply Hocc, Hx.
    + subst x. rewrite Hs, Hc. split; [intros [? [=]] | discriminate].
  - intros x [k Hk]%list_elem_of_lookup.
    apply lookup_alter_twice in Hk as [[_ Hk] | [_ (r0 & _ & ->)]].
    + apply Hocc. eapply list_elem_of_lookup_2, Hk.
    + simpl. split; [reflexivity | eauto].
  - intros x [k Hk]%list_elem_of_lookup.
    apply lookup_alter_twice in Hk as [[_ Hk] | [_ (r0 & _ & ->)]].
    + apply Hocc. eapply list_elem_of_lookup_2, Hk.
    + simpl. split; [intros [? [=]] | discriminate].
Qed.



Section Invariants.

Context {builtins : Builtins}.

Lemma occupancy_init : occupancy init_state.
Proof. intros r Hr. simpl in Hr. apply elem_of_nil in Hr. destruct Hr. Qed.

Lemma occupancy_step (req : Request) (st : State) :
  occupancy st -> occupancy (fst (step req st)).
Proof. apply occupancy_effect with (r := snd (step req st)), step_effect. Qed.


End Invariants.

(** ** The scenarios of the specification, run on the handlers *)

Section ScenarioFacts.

Import Scenario.
#[local] Existing Instance ascii_builtins.

(** C6. From the empty registry, adding room 101 (N, N, S, rent 500),
    checking it in with booking id 1 and advance 200, and checking it
    out after 3 days succeeds with bill 1500, advance 200 and payable
    1300; afterwards room 101 is available without a customer and
    booking id 1 is out of the in-use set, so that a later check-in can
    take it again.  This holds through the forms and through the JSON
    API alike. *)
Theorem checkin_checkout_round_trip :
  (step add_101 init_state = (st_added, RoomAdded 101)
   /\ step checkin_101 st_added = (st_checked_in, CheckedIn "Alice" 101)
   /\ step checkout_101 st_checked_in
      = (st_added, CheckoutResult 101 (mkBill 1500 f200 f1300))
   /\ step checkin_101 st_added = (st_checked_in, CheckedIn "Alice" 101))
  /\ (let st1 := fst (step api_add_101 init_state) in
      let st2 := fst (step api_checkin_101 st1) in
      snd (step api_add_101 init_state) = JsonOk 201
      /\ snd (step api_checkin_101 st1) = JsonOk 200
      /\ step api_checkout_101 st2
         = (st_added, JsonBill (mkBill 1500 f200 f1300))
      /\ snd (step api_checkin_101 st_added) = JsonOk 200)
  /\ rooms st_added = [room_101]
  /\ status room_101 = 0 /\ cust room_101 = None
  /\ set_mem (PInt 1) (booking_ids st_added) = false
  /\ PyFloat.eqb_int f200 200 = true
  /\ PyFloat.eqb_int f1300 1300 = true.
Proof. vm_compute. repeat split; reflexivity. Qed.

(** C1 (the code departs from it).  Checking out a room whose customer
    has booking id 0 does not take 0 out of the in-use set: the guard
    [room.cust.booking_id] is false for 0, so [discard] is skipped.
    After the check-out no room is reserved, yet 0 is still in use and a
    new check-in with booking id 0 is turned down, through the forms
    and through the JSON API. *)
Theorem checkout_keeps_booking_id_zero :
  (let st := run_requests [add_101; checkin_101_id0] init_state in
   let st' := fst (step checkout_101 st) in
   is_success (snd (step checkout_101 st)) = true
   /\ guests st' = [] /\ occupied_booking_ids st' = []
   /\ booking_ids st' = [PInt 0]
   /\ booking_ids_exact st' = false
   /\ step checkin_101_id0 st'
      = (st', Flash "Booking ID already taken. Use a different ID"
                    "warning"))
  /\ (let st := run_requests [api_add_101; api_checkin_101_id0] init_state in
      let st' := fst (step api_checkout_101 st) in
      is_success (snd (step api_checkout_101 st)) = true
      /\ guests st' = [] /\ occupied_booking_ids st' = []
      /\ booking_ids st' = [PInt 0]
      /\ booking_ids_exact st' = false
      /\ step api_checkin_101_id0 st'
         = (st', JsonError "booking id taken" 400)).
Proof. vm_compute. repeat split; reflexivity. Qed.

(** C9 (the code departs from it).  On the JSON API an advance that is
    not a number is not replaced by 0.0: [float] raises [ValueError],
    nothing catches it, and no customer is stored.  The form handler
    given the same text checks the customer in with advance 0.0. *)
Theorem api_checkin_bad_advance_raises :
  step api_checkin_101_bad_advance st_added = (st_added, Raised ValueError)
  /\ step checkin_101_bad_advance st_added
     = (mkState
          [set_status 1 (set_cust (Some (alice PyFloat.zero 1)) room_101)]
          [PInt 1],
        CheckedIn "Alice" 101).
Proof. vm_compute. split; reflexivity. Qed.

End ScenarioFacts.

(** ** Two corners of the builtins *)

(** Inside a list or a dict the shared NaN of decoded JSON passes for
    equal to itself; on its own it does not. *)
Lemma nan_equal_in_containers_only :
  py_eq (PFloat S754_nan) (PFloat S754_nan) = false
  /\ py_eq (PList [PFloat S754_nan]) (PList [PFloat S754_nan]) = true
  /\ py_eq (PDict [("n", PFloat S754_nan)]) (PDict [("n", PFloat S754_nan)])
     = true.
Proof. repeat split; reflexivity. Qed.

(** [str.strip] removes the separator 0x1c, [int] and [float] reject a
    literal that has it, and both skip ordinary blanks. *)
Lemma separators_are_not_blanks :
  let fs := String (ascii_of_N 28) "12" in
  AsciiBuiltins.strip fs = "12"
  /\ AsciiBuiltins.int_of_str fs = None
  /\ AsciiBuiltins.float_of_str fs = None
  /\ AsciiBuiltins.int_of_str " 12 " = Some 12.
Proof. vm_compute. repeat split; reflexivity. Qed.

(** ** The claims on every request and every reachable state *)

Lemma find_room_index_checked_out (idx : nat) (room : Room) (st : State)
      (rno : pyval) :
  find_room_index (rooms (checked_out idx room st)) rno
  = find_room_index (rooms st) rno.
Proof.
  unfold checked_out; simpl.
  rewrite !find_room_index_alter by reflexivity. reflexivity.
Qed.

Lemma lookup_checked_out (idx : nat) (room : Room) (st : State) :
  rooms st !! idx = Some room ->
  rooms (checked_out idx room st) !! idx
  = Some (set_status 0 (set_cust None room)).
Proof.
  intros Hr. unfold checked_out; simpl.
  rewrite !list_lookup_alter_eq, Hr. reflexivity.
Qed.

(** A hashable value is found again in a set it was added to. *)
Lemma set_key_eq_refl (b : pyval) :
  py_hashable b = true -> set_key_eq b b = true.
Proof.
  unfold set_key_eq. destruct b as [|b|z|f|s|l|d]; simpl; try discriminate;
    intros _; try reflexivity.
  - destruct b; reflexivity.
  - rewrite Z.eqb_refl. reflexivity.
  - destruct f as [s|s| |s m e]; try (destruct s; reflexivity); try reflexivity.
    unfold PyFloat.eqb, SFeqb, SFcompare.
    rewrite Z.compare_refl, Pos.compare_cont_refl. destruct s; reflexivity.
  - rewrite String.eqb_refl. reflexivity.
Qed.


Lemma set_mem_add (b : pyval) (s : list pyval) :
  py_hashable b = true -> set_mem b (set_add b s) = true.
Proof.
  intros Hb. unfold set_add. destruct (set_mem b s) eqn:E; [exact E|].
  unfold set_mem. rewrite existsb_app. simpl.
  rewrite (set_key_eq_refl b Hb). rewrite orb_true_r. reflexivity.
Qed.

Section Claims.

Context {builtins : Builtins}.

(** C2. Occupancy invariant: in the empty registry and after any
    sequence of requests, a room has a customer attached if and only
    if its status is 1 (reserved); every request keeps it that way,
    from any state in which it holds: a check-in assigns the customer
    and status 1 to the same room, a check-out clears the customer and
    sets status 0, and a new room starts free with no customer. *)
Theorem occupancy_invariant (st : State) (req : Request) :
  reachable st \/ occupancy st ->
  occupancy st /\ occupancy (fst (step req st)).
Proof.
  intros Hst.
  assert (Hocc : occupancy st).
  { destruct Hst as [Hr | Ho]; [|exact Ho].
    induction Hr as [|req' st' _ IH]; [apply occupancy_init|].
    apply occupancy_step, IH. }
  split; [exact Hocc | apply occupancy_step, Hocc].
Qed.


(** C7. Atomicity of failures: whenever a request is answered with a
    failure (a flashed rejection, a JSON error, or an escaping
    exception), the rooms and the in-use set are exactly as before the
    request.  In particular a check-out that succeeded, sent again,
    is turned down as "not checked-in" and leaves the globals as the
    first check-out left them, for the form and for the JSON handler. *)
Theorem failure_atomicity (req : Request) (st : State) :
  (is_success (snd (step req st)) = false -> fst (step req st) = st)
  /\ (forall form : Form,
        req = CheckoutPost form ->
        is_success (snd (step req st)) = true ->
        step req (fst (step req st))
        = (fst (step req st),
           Flash "Room is not currently checked-in" "warning"))
  /\ (forall body : pyval,
        req = ApiCheckoutPost body ->
        is_success (snd (step req st)) = true ->
        step req (fst (step req st))
        = (fst (step req st), JsonError "room not checked-in" 400)).
Proof.
  split; [|split].
  - intros Hfail. pose proof (step_effect req st) as He.
    destruct He as [r | room r _ _ _ Hs | idx room c r _ _ _ _ Hs
                    | idx room r _ _ Hs]; try reflexivity.
    all: simpl in *; congruence.
  - intros form -> Hs. unfold step, handle in *.
    rewrite (checkout_run form st) in *.
    repeat case_match; simpl in Hs; try discriminate. simpl.
    rewrite checkout_run.
    repeat match goal with Hx : _ = _ |- _ => rewrite Hx end.
    rewrite find_room_index_checked_out.
    repeat match goal with Hx : _ = _ |- _ => rewrite Hx end.
    erewrite lookup_checked_out by eassumption. reflexivity.
  - intros body -> Hs. unfold step, handle in *.
    rewrite (api_checkout_run body st) in *.
    repeat case_match; simpl in Hs; try discriminate. simpl.
    rewrite api_checkout_run.
    repeat match goal with Hx : _ = _ |- _ => rewrite Hx end.
    rewrite find_room_index_checked_out.
    repeat match goal with Hx : _ = _ |- _ => rewrite Hx end.
    erewrite lookup_checked_out by eassumption. reflexivity.
Qed.

(** C8. A check-in whose booking id is already in the in-use set is
    turned down with the "taken" message and changes nothing, so the
    target room, available with no customer before, is so afterwards.
    In particular, right after a check-in that succeeded with some
    booking id, a check-in of a room that is still free with the same
    id is turned down.  Both hold for the form handler (first two
    parts) and for the JSON handler (last two). *)
Theorem duplicate_booking_id_rejected (st : State) :
  (forall (form : Form) (s b : string) (rno bid : Z) (idx : nat)
          (room : Room),
      dict_lookup "room_number" form = Some s ->
      int_of_str s = Some rno ->
      find_room_index (rooms st) (PInt rno) = Some idx ->
      rooms st !! idx = Some room ->
      status room = 0 -> cust room = None ->
      dict_lookup "booking_id" form = Some b ->
      int_of_str b = Some bid ->
      set_mem (PInt bid) (booking_ids st) = true ->
      step (CheckinPost form) st
      = (st, Flash "Booking ID already taken. Use a different ID" "warning")
      /\ rooms (fst (step (CheckinPost form) st)) !! idx = Some room)
  /\ (forall (formA formB : Form) (sB b : string) (rnoB bid : Z)
             (idxB : nat) (roomB : Room),
        is_success (snd (step (CheckinPost formA) st)) = true ->
        let st' := fst (step (CheckinPost formA) st) in
        dict_lookup "booking_id" formA = Some b ->
        dict_lookup "booking_id" formB = Some b ->
        int_of_str b = Some bid ->
        dict_lookup "room_number" formB = Some sB ->
        int_of_str sB = Some rnoB ->
        find_room_index (rooms st') (PInt rnoB) = Some idxB ->
        rooms st' !! idxB = Some roomB ->
        status roomB = 0 -> cust roomB = None ->
        step (CheckinPost formB) st'
        = (st', Flash "Booking ID already taken. Use a different ID"
                      "warning")
        /\ rooms (fst (step (CheckinPost formB) st')) !! idxB = Some roomB)
  /\ (forall (body : pyval) (items : list (string * pyval)) (idx : nat)
             (room : Room),
        json_data body = PDict items ->
        is_none (dict_get items "room_number" PNone) = false ->
        find_room_index (rooms st) (dict_get items "room_number" PNone)
        = Some idx ->
        rooms st !! idx = Some room ->
        status room = 0 -> cust room = None ->
        set_mem (dict_get items "booking_id" PNone) (booking_ids st) = true ->
        py_hashable (dict_get items "booking_id" PNone) = true ->
        step (ApiCheckinPost body) st
        = (st, JsonError "booking id taken" 400)
        /\ rooms (fst (step (ApiCheckinPost body) st)) !! idx = Some room)
  /\ (forall (bodyA bodyB : pyval) (itemsA itemsB : list (string * pyval))
             (idxB : nat) (roomB : Room),
        is_success (snd (step (ApiCheckinPost bodyA) st)) = true ->
        let st' := fst (step (ApiCheckinPost bodyA) st) in
        json_data bodyA = PDict itemsA ->
        json_data bodyB = PDict itemsB ->
        dict_get itemsB "booking_id" PNone
        = dict_get itemsA "booking_id" PNone ->
        is_none (dict_get itemsB "room_number" PNone) = false ->
        find_room_index (rooms st') (dict_get itemsB "room_number" PNone)
        = Some idxB ->
        rooms st' !! idxB = Some roomB ->
        status roomB = 0 -> cust roomB = None ->
        step (ApiCheckinPost bodyB) st'
        = (st', JsonError "booking id taken" 400)
        /\ rooms (fst (step (ApiCheckinPost bodyB) st')) !! idxB
           = Some roomB).
Proof.
  assert (Hui : forall (st0 : State) (form : Form) (s b : string)
                       (rno bid : Z) (idx : nat) (room : Room),
             dict_lookup "room_number" form = Some s ->
             int_of_str s = Some rno ->
             find_room_index (rooms st0) (PInt rno) = Some idx ->
             rooms st0 !! idx = Some room ->
             status room = 0 ->
             dict_lookup "booking_id" form = Some b ->
             int_of_str b = Some bid ->
             set_mem (PInt bid) (booking_ids st0) = true ->
             step (CheckinPost form) st0
             = (st0, Flash "Booking ID already taken. Use a different ID"
                           "warning")).
  { intros st0 form s b rno bid idx room Hs Hn Hf Hr Hst Hb Hbid Hmem.
    unfold step, handle.
    rewrite checkin_run, Hs, Hn, Hf, Hr, Hst, Hb, Hbid, Hmem. reflexivity. }
  assert (Hapi : forall (st0 : State) (body : pyval)
                        (items : list (string * pyval)) (idx : nat)
                        (room : Room),
             json_data body = PDict items ->
             is_none (dict_get items "room_number" PNone) = false ->
             find_room_index (rooms st0) (dict_get items "room_number" PNone)
             = Some idx ->
             rooms st0 !! idx = Some room ->
             status room = 0 ->
             set_mem (dict_get items "booking_id" PNone) (booking_ids st0)
             = true ->
             py_hashable (dict_get items "booking_id" PNone) = true ->
             step (ApiCheckinPost body) st0
             = (st0, JsonError "booking id taken" 400)).
  { intros st0 body items idx room Hb Hn Hf Hr Hst Hmem Hh.
    unfold step, handle.
    rewrite api_checkin_run, Hb. cbv zeta.
    rewrite Hn, Hf, Hr, Hst, Hh, Hmem. reflexivity. }
  split; [|split; [|split]].
  - intros form s b rno bid idx room Hs Hn Hf Hr Hst _ Hb Hbid Hmem.
    rewrite (Hui st form s b rno bid idx room) by assumption.
    split; [reflexivity | exact Hr].
  - intros formA formB sB b rnoB bid idxB roomB Hok st' HbA HbB Hbid
           HsB HnB HfB HrB HstB _.
    rewrite (Hui st' formB sB b rnoB bid idxB roomB); try assumption.
    { split; [reflexivity | exact HrB]. }
    subst st'. unfold step, handle in *.
    rewrite (checkin_run formA st) in *.
    repeat case_match; simpl in Hok; try discriminate; simplify_eq.
    simpl. apply set_mem_add. reflexivity.
  - intros body items idx room Hb Hn Hf Hr Hst _ Hmem Hh.
    rewrite (Hapi st body items idx room) by assumption.
    split; [reflexivity | exact Hr].
  - intros bodyA bodyB itemsA itemsB idxB roomB Hok st' HA HB Hid HnB
           HfB HrB HstB _.
    assert (Hin : set_mem (dict_get itemsA "booking_id" PNone)
                          (booking_ids st') = true
                  /\ py_hashable (dict_get itemsA "booking_id" PNone) = true).
    { subst st'. unfold step, handle in *.
      rewrite (api_checkin_run bodyA st) in *. rewrite HA in *.
      cbv zeta in *.
      repeat case_match; simpl in Hok; try discriminate; simplify_eq.
      assert (Hh : py_hashable (dict_get itemsA "booking_id" PNone) = true)
        by (destruct (py_hashable _); [reflexivity | discriminate]).
      split; [|exact Hh]. simpl. apply set_mem_add, Hh. }
    destruct Hin as [Hmem Hh]. rewrite <- Hid in Hmem, Hh.
    rewrite (Hapi st' bodyB itemsB idxB roomB) by assumption.
    split; [reflexivity | exact HrB].
Qed.

(** C3, as the code has it.  On the form path a request to add a room
    whose upper-cased [ac] is not A or N, [comfort] not S or N, or
    [size] not B or S always fails and leaves the registry unchanged;
    when the room number is a new integer and the rent parses, the
    failure is the "Invalid room attributes" message, and otherwise
    the room is appended, whatever the sign of the rent.  Every room
    the form path appends has its three attributes among those
    letters, status 0 and no customer. *)
Theorem form_add_room_validation (form : Form) (st : State) :
  (form_attributes_valid form = false ->
   is_success (snd (step (ManageRoomsPost form) st)) = false
   /\ fst (step (ManageRoomsPost form) st) = st)
  /\ (forall (s : string) (rno rent : Z),
        dict_lookup "room_number" form = Some s ->
        int_of_str s = Some rno ->
        find_room_index (rooms st) (PInt rno) = None ->
        py_int (form_get "rent" (PInt 0) form) = inr rent ->
        step (ManageRoomsPost form) st
        = if form_attributes_valid form
          then (mkState (rooms st ++ [form_room form rno rent])
                        (booking_ids st), RoomAdded rno)
          else (st, Flash "Invalid room attributes" "danger"))
  /\ (is_success (snd (step (ManageRoomsPost form) st)) = true ->
      exists room : Room,
        rooms (fst (step (ManageRoomsPost form) st))
        = (rooms st ++ [room])%list
        /\ room_attributes_valid room
        /\ status room = 0 /\ cust room = None).
Proof.
  unfold step, handle. rewrite manage_rooms_run.
  split; [|split].
  - intros Hv. rewrite Hv. repeat case_match; simpl; auto.
  - intros s rno rent Hs Hn Hf Hr. rewrite Hs, Hn, Hf, Hr. reflexivity.
  - repeat case_match; simpl; try discriminate. intros _.
    eexists. split; [reflexivity|].
    split; [|split; reflexivity].
    match goal with Hv : form_attributes_valid form = true |- _ =>
      unfold form_attributes_valid, str_in in Hv; simpl in Hv;
      rewrite !orb_false_r in Hv;
      apply andb_prop in Hv as [Hv Hsz];
      apply andb_prop in Hv as [Hac Hco]
    end.
    unfold room_attributes_valid; simpl.
    repeat split.
    + apply orb_prop in Hac as [E%String.eqb_eq | E%String.eqb_eq];
        rewrite E; auto.
    + apply orb_prop in Hco as [E%String.eqb_eq | E%String.eqb_eq];
        rewrite E; auto.
    + apply orb_prop in Hsz as [E%String.eqb_eq | E%String.eqb_eq];
        rewrite E; auto.
Qed.

(** The loop of the search computes the filter, as long as no name it
    lower-cases is something other than a string. *)
Lemma search_rooms_omap (q : string) (rs : list Room) :
  (forall (r : Room) (c : Customer),
      r ∈ rs -> status r = 1 -> cust r = Some c ->
      exists s : string, name c = PStr s) ->
  search_rooms q rs = inr (omap (matching_entry q) rs).
Proof.
  induction rs as [|r rs IH]; intros Hn; [reflexivity|].
  simpl. rewrite IH
    by (intros r' c' Hin; apply Hn; apply list_elem_of_further, Hin).
  unfold matching_entry.
  destruct (status r =? 1) eqn:Es; [|reflexivity].
  destruct (cust r) as [c|] eqn:Ec; [|reflexivity].
  destruct (Hn r c) as [s Hs];
    [apply list_elem_of_here | apply Z.eqb_eq, Es | exact Ec |].
  rewrite Hs. destruct (String.eqb (str_lower s) q); reflexivity.
Qed.

(** C10, as the code has it.  When every customer of a reserved room
    has a string for a name, the search answers, without touching the
    globals, with the (room number, customer) pairs, in room order, of
    exactly the reserved rooms whose customer's name, lower-cased,
    equals the query with the whitespace around it removed and then
    lower-cased; it answers with nothing when that normalised query is
    empty, even if a reserved room's customer has the empty name. *)
Theorem search_by_customer_name (args : Form) (st : State) :
  names_are_strings st ->
  let query := form_get_str "name" "" args in
  let q := str_lower (str_strip query) in
  step (ApiSearchCustomer args) st
  = (st, JsonResults (search_stripped query st))
  /\ (q = "" -> search_stripped query st = [])
  /\ (forall (n : pyval) (c : Customer),
        (n, c) ∈ search_stripped query st <->
        q <> ""
        /\ exists (r : Room) (s : string),
            r ∈ rooms st /\ status r = 1 /\ cust r = Some c
            /\ room_number r = n /\ name c = PStr s /\ str_lower s = q).
Proof.
  intros Hn query q. split; [|split].
  - unfold step, handle, api_search_customer, search_stripped.
    fold query. fold q. unfold_monad. simpl.
    destruct (String.eqb q "") eqn:Eq; [reflexivity|].
    rewrite (search_rooms_omap q (rooms st) Hn). reflexivity.
  - intros Hq. unfold search_stripped. fold query. fold q.
    rewrite Hq. reflexivity.
  - intros n c. unfold search_stripped. fold query. fold q.
    destruct (String.eqb q "") eqn:Eq.
    + apply String.eqb_eq in Eq. split.
      * intros Hin. apply elem_of_nil in Hin. destruct Hin.
      * intros [Hne _]. contradiction.
    + apply String.eqb_neq in Eq. rewrite list_elem_of_omap. split.
      * intros (r & Hr & Hm). split; [exact Eq|].
        unfold matching_entry in Hm.
        destruct (status r =? 1) eqn:Es; [|discriminate].
        destruct (cust r) as [c'|] eqn:Ec; [|discriminate].
        destruct (name c') as [| | | |s| |] eqn:En; try discriminate.
        destruct (String.eqb (str_lower s) q) eqn:El; [|discriminate].
        injection Hm as <- <-. exists r, s.
        apply Z.eqb_eq in Es. apply String.eqb_eq in El. auto 10.
      * intros (_ & r & s & Hr & Hs & Hc & Hnum & Hname & Hl).
        exists r. split; [exact Hr|].
        unfold matching_entry.
        rewrite Hs, Hc, Hname, Hl, String.eqb_refl, Hnum. reflexivity.
Qed.

(** C4, as the code has it.  For a room that is not available and any
    integer [days], negative ones included, both check-out handlers
    compute [bill = days * rent] as an exact integer and take [advance]
    from the attached customer (0.0 if there is none).  [payable] is the
    double [float(bill) - advance]: when [bill] has a nearest double, as
    every bill below [2^1023] in absolute value has, the handler frees
    the room and returns the three numbers, nothing clamped and no
    [days] rejected; when [bill] is beyond the range of a double the
    subtraction raises [OverflowError] and nothing changes.  For an
    advance that is a double, [payable] is below zero exactly when the
    advance is above [float(bill)]. *)
Theorem checkout_bill (st : State) (idx : nat) (room : Room) (days : Z) :
  rooms st !! idx = Some room ->
  status room <> 0 ->
  let bill := days * rent room in
  let advance := advance_of room in
  (cust room = None -> advance = PyFloat.zero)
  /\ (forall c : Customer, cust room = Some c -> advance = payment_advance c)
  /\ (forall (form : Form) (s d : string) (rno : Z),
        dict_lookup "room_number" form = Some s ->
        int_of_str s = Some rno ->
        find_room_index (rooms st) (PInt rno) = Some idx ->
        dict_lookup "days" form = Some d ->
        int_of_str d = Some days ->
        step (CheckoutPost form) st
        = match PyFloat.of_int bill with
          | Some fb =>
              (checked_out idx room st,
               CheckoutResult rno
                 (mkBill bill advance (PyFloat.sub fb advance)))
          | None => (st, Raised OverflowError)
          end)
  /\ (forall (body : pyval) (items : list (string * pyval)),
        json_data body = PDict items ->
        py_int (dict_get items "days" (PInt 0)) = inr days ->
        find_room_index (rooms st) (dict_get items "room_number" PNone)
        = Some idx ->
        step (ApiCheckoutPost body) st
        = match PyFloat.of_int bill with
          | Some fb =>
              (checked_out idx room st,
               JsonBill (mkBill bill advance (PyFloat.sub fb advance)))
          | None => (st, Raised OverflowError)
          end)
  /\ (Z.abs bill < 2 ^ 1023 -> exists fb : float, PyFloat.of_int bill = Some fb)
  /\ (forall fb : float,
        PyFloat.of_int bill = Some fb ->
        PyFloat.valid advance = true ->
        PyFloat.ltb (PyFloat.sub fb advance) PyFloat.zero
        = PyFloat.ltb fb advance).
Proof.
  intros Hroom Hst bill advance.
  assert (Hs : (status room =? 0) = false) by (apply Z.eqb_neq, Hst).
  split; [|split; [|split; [|split; [|split]]]].
  - intros Hc. unfold advance, advance_of. rewrite Hc. reflexivity.
  - intros c Hc. unfold advance, advance_of. rewrite Hc. reflexivity.
  - intros form s d rno Hn Hi Hf Hd Hdays. unfold step, handle.
    rewrite checkout_run, Hn, Hi, Hf, Hroom, Hs, Hd, Hdays.
    unfold int_sub_float. fold bill. fold advance.
    destruct (PyFloat.of_int bill); reflexivity.
  - intros body items Hb Hdays Hf. unfold step, handle.
    rewrite api_checkout_run, Hb, Hdays, Hf, Hroom, Hs.
    unfold int_sub_float. fold bill. fold advance.
    destruct (PyFloat.of_int bill); reflexivity.
  - apply PyFloatFacts.of_int_in_range.
  - intros fb Hfb Hv. apply PyFloatFacts.sub_negative.
    + apply (PyFloatFacts.of_int_exponent_ok bill fb Hfb).
    + apply PyFloatFacts.valid_exponent_ok, Hv.
Qed.

End Claims.

(** ** The claims at concrete requests *)

Section Witnesses.

Import Scenario.
#[local] Existing Instance ascii_builtins.

Lemma reachable_st_checked_in : reachable st_checked_in.
Proof.
  replace st_checked_in
    with (run_requests [add_101; checkin_101] init_state)
    by (vm_compute; reflexivity).
  apply reachable_run_requests, reachable_init.
Qed.

Lemma reachable_st_added : reachable st_added.
Proof.
  replace st_added with (run_requests [add_101] init_state)
    by (vm_compute; reflexivity).
  apply reachable_run_requests, reachable_init.
Qed.

Lemma occupancy_invariant_witness :
  (reachable st_checked_in \/ occupancy st_checked_in)
  /\ occupancy st_checked_in
  /\ occupancy (fst (step checkout_101 st_checked_in)).
Proof.
  split; [left; apply reachable_st_checked_in|].
  apply (occupancy_invariant st_checked_in checkout_101).
  left. apply reachable_st_checked_in.
Defined.




Lemma failure_atomicity_witness :
  is_success (snd (step checkout_101 st_added)) = false
  /\ fst (step checkout_101 st_added) = st_added
  /\ is_success (snd (step checkout_101 st_checked_in)) = true
  /\ step checkout_101 (fst (step checkout_101 st_checked_in))
     = (fst (step checkout_101 st_checked_in),
        Flash "Room is not currently checked-in" "warning")
  /\ step api_checkout_101 (fst (step api_checkout_101 st_checked_in))
     = (fst (step api_checkout_101 st_checked_in),
        JsonError "room not checked-in" 400).
Proof.
  split; [reflexivity|]. split.
  - apply (failure_atomicity checkout_101 st_added). reflexivity.
  - split; [reflexivity|]. split.
    + apply (failure_atomicity checkout_101 st_checked_in)
        with (form := checkout_form "101" "3"); reflexivity.
    + apply (failure_atomicity api_checkout_101 st_checked_in)
        with (body := PDict [("room_number", PInt 101); ("days", PInt 3)]);
        reflexivity.
Defined.

Lemma duplicate_booking_id_rejected_witness :
  let st' := fst (step (CheckinPost checkin_A) st_two_rooms) in
  let st'' := fst (step (ApiCheckinPost api_checkin_A) st_two_rooms) in
  is_success (snd (step (CheckinPost checkin_A) st_two_rooms)) = true
  /\ step (CheckinPost checkin_B) st'
     = (st', Flash "Booking ID already taken. Use a different ID" "warning")
  /\ rooms (fst (step (CheckinPost checkin_B) st')) !! 1%nat = Some room_102
  /\ is_success (snd (step (ApiCheckinPost api_checkin_A) st_two_rooms))
     = true
  /\ step (ApiCheckinPost api_checkin_B) st''
     = (st'', JsonError "booking id taken" 400)
  /\ rooms (fst (step (ApiCheckinPost api_checkin_B) st'')) !! 1%nat
     = Some room_102.
Proof.
  intros st' st''.
  destruct (duplicate_booking_id_rejected st_two_rooms)
    as (_ & Hui & _ & Hapi).
  split; [reflexivity|].
  destruct (Hui checkin_A checkin_B "102" "7" 102 7 1%nat room_102)
    as [H1 H2]; try reflexivity.
  split; [exact H1|]. split; [exact H2|].
  split; [reflexivity|].
  eapply (Hapi api_checkin_A api_checkin_B _ _ 1%nat room_102);
    reflexivity.
Defined.

(** The same rejections read off the state alone: booking id 7 is in
    the in-use set and room 102 is free. *)
Lemma booking_id_in_use_rejected :
  let st := fst (step (CheckinPost checkin_A) st_two_rooms) in
  set_mem (PInt 7) (booking_ids st) = true
  /\ step (CheckinPost checkin_B) st
     = (st, Flash "Booking ID already taken. Use a different ID" "warning")
  /\ step (ApiCheckinPost api_checkin_B) st
     = (st, JsonError "booking id taken" 400).
Proof. vm_compute. repeat split; reflexivity. Qed.

Lemma form_add_room_validation_witness :
  step add_101 init_state = (st_added, RoomAdded 101)
  /\ room_attributes_valid room_101
  /\ step (ManageRoomsPost [("room_number", "101"); ("ac", "X")]) init_state
     = (init_state, Flash "Invalid room attributes" "danger")
  /\ fst (step (ManageRoomsPost [("room_number", "x"); ("ac", "X")])
               st_added) = st_added.
Proof.
  split; [|split; [|split]].
  - destruct (form_add_room_validation
                [("room_number", "101"); ("ac", "N"); ("comfort", "N");
                 ("size", "S"); ("rent", "500")] init_state)
      as (_ & Hrun & _).
    apply (Hrun "101" 101 500); reflexivity.
  - destruct (form_add_room_validation
                [("room_number", "101"); ("ac", "N"); ("comfort", "N");
                 ("size", "S"); ("rent", "500")] init_state)
      as (_ & _ & Hvalid).
    destruct (Hvalid eq_refl) as (room & Hrooms & Hv & _).
    injection Hrooms as <-. exact Hv.
  - destruct (form_add_room_validation
                [("room_number", "101"); ("ac", "X")] init_state)
      as (_ & Hrun & _).
    apply (Hrun "101" 101 0); reflexivity.
  - destruct (form_add_room_validation
                [("room_number", "x"); ("ac", "X")] st_added)
      as (Hfail & _).
    apply Hfail. reflexivity.
Defined.

(** Against C3 as stated: a rent below zero is not rejected.  The form
    handler adds room 101 with rent -5 to the empty registry. *)
Lemma negative_rent_accepted :
  step add_101_negative_rent init_state
  = (mkState [room_101_negative_rent] [], RoomAdded 101)
  /\ rent room_101_negative_rent < 0
  /\ ~ (is_success (snd (step add_101_negative_rent init_state)) = false
        /\ fst (step add_101_negative_rent init_state) = init_state).
Proof.
  split; [reflexivity|]. split; [reflexivity|].
  intros [Hfail _]. vm_compute in Hfail. discriminate.
Qed.

Lemma names_are_strings_st_guests : names_are_strings st_guests.
Proof.
  intros r c Hin _ Hc. vm_compute in Hin.
  repeat (apply elem_of_cons in Hin as [-> | Hin]);
    try (apply elem_of_nil in Hin; destruct Hin);
    simpl in Hc; try discriminate; injection Hc as <-; simpl; eauto.
Qed.

Lemma names_are_strings_st_nameless : names_are_strings st_nameless.
Proof.
  intros r c Hin _ Hc. vm_compute in Hin.
  repeat (apply elem_of_cons in Hin as [-> | Hin]);
    try (apply elem_of_nil in Hin; destruct Hin);
    simpl in Hc; try discriminate; injection Hc as <-; simpl; eauto.
Qed.

Lemma search_by_customer_name_witness :
  names_are_strings st_guests
  /\ step (search "Alice") st_guests
     = (st_guests, JsonResults [(PInt 101, guest "alice" 1)])
  /\ step (search "ALICE SMITH") st_guests
     = (st_guests, JsonResults [(PInt 102, guest "Alice Smith" 2)])
  /\ (exists r : Room,
        r ∈ rooms st_nameless /\ status r = 1
        /\ cust r = Some (guest "" 3))
  /\ step (search "") st_nameless = (st_nameless, JsonResults [])
  /\ step (search "   ") st_nameless = (st_nameless, JsonResults []).
Proof.
  split; [apply names_are_strings_st_guests|].
  split; [|split; [|split; [|split]]].
  - exact (proj1 (search_by_customer_name [("name", "Alice")] st_guests
                    names_are_strings_st_guests)).
  - exact (proj1 (search_by_customer_name [("name", "ALICE SMITH")] st_guests
                    names_are_strings_st_guests)).
  - exists (mkRoom (PInt 103) (PStr "N") (PStr "N") (PStr "S") 0 1
                   (Some (guest "" 3))).
    split; [|split; reflexivity].
    vm_compute. apply list_elem_of_further, list_elem_of_further,
      list_elem_of_here.
  - exact (proj1 (search_by_customer_name [("name", "")] st_nameless
                    names_are_strings_st_nameless)).
  - exact (proj1 (search_by_customer_name [("name", "   ")] st_nameless
                    names_are_strings_st_nameless)).
Defined.

(** Against C10 as stated: the query is compared after the whitespace
    around it is removed.  The query " Alice " does not equal the
    stored name "alice" ignoring case, yet the search returns room
    101. *)
Lemma search_strips_the_query :
  step (search " Alice ") st_guests
  = (st_guests, JsonResults [(PInt 101, guest "alice" 1)])
  /\ search_as_specified " Alice " st_guests = []
  /\ snd (step (search " Alice ") st_guests)
     <> JsonResults (search_as_specified " Alice " st_guests).
Proof.
  split; [reflexivity|]. split; [reflexivity|].
  vm_compute. discriminate.
Qed.

Lemma checkout_bill_witness :
  rooms st_checked_in !! 0%nat
  = Some (set_status 1 (set_cust (Some (alice f200 1)) room_101))
  /\ step checkout_101 st_checked_in
     = (st_added, CheckoutResult 101 (mkBill 1500 f200 f1300))
  /\ step api_checkout_101 st_checked_in
     = (st_added, JsonBill (mkBill 1500 f200 f1300))
  /\ step (CheckoutPost (checkout_form "101" "-3")) st_checked_in
     = (st_added,
        CheckoutResult 101
          (mkBill (-1500) f200 (S754_finite true 7476679068876800 (-42))))
  /\ PyFloat.ltb f1300 PyFloat.zero
     = PyFloat.ltb (S754_finite false 6597069766656000 (-42)) f200.
Proof.
  pose (room := set_status 1 (set_cust (Some (alice f200 1)) room_101)).
  assert (Hroom : rooms st_checked_in !! 0%nat = Some room) by reflexivity.
  assert (Hst : status room <> 0) by discriminate.
  split; [exact Hroom|]. split; [|split; [|split]].
  - destruct (checkout_bill st_checked_in 0 room 3 Hroom Hst)
      as (_ & _ & Hui & _).
    apply (Hui (checkout_form "101" "3") "101" "3" 101); reflexivity.
  - destruct (checkout_bill st_checked_in 0 room 3 Hroom Hst)
      as (_ & _ & _ & Hapi & _).
    apply (Hapi (PDict [("room_number", PInt 101); ("days", PInt 3)])
                [("room_number", PInt 101); ("days", PInt 3)]);
      reflexivity.
  - destruct (checkout_bill st_checked_in 0 room (-3) Hroom Hst)
      as (_ & _ & Hui & _).
    apply (Hui (checkout_form "101" "-3") "101" "-3" 101); reflexivity.
  - destruct (checkout_bill st_checked_in 0 room 3 Hroom Hst)
      as (_ & _ & _ & _ & _ & Hsign).
    apply (Hsign (S754_finite false 6597069766656000 (-42))); reflexivity.
Defined.

(** Against C4 as stated.  Room 201, rent 1, is reserved with an advance
    of 2^53 + 4.  Checked out after 2^53 + 3 days, its bill 2^53 + 3 is
    below the advance, yet [payable] is 0.0, not negative: the bill is
    rounded to the double 2^53 + 4 before the subtraction.  And for a
    bill of 10^400 no result comes back: the subtraction raises
    [OverflowError]. *)
Lemma payable_zero_though_advance_exceeds_bill :
  reachable st_large_advance
  /\ rooms st_large_advance
     = [set_status 1
          (set_cust (Some (mkCustomer (PStr "Bob") (PStr "1 Main St")
                             (PStr "555") (PStr "2024-01-01")
                             (PStr "2024-01-04") f_2p53_4 (PInt 9)))
                    room_201)]
  /\ step checkout_201 st_large_advance
     = (mkState [room_201] [],
        CheckoutResult 201 (mkBill 9007199254740995 f_2p53_4 PyFloat.zero))
  /\ PyFloat.int_ltb 9007199254740995 f_2p53_4 = true
  /\ PyFloat.ltb PyFloat.zero PyFloat.zero = false
  /\ step api_checkout_201_overflow st_large_advance
     = (st_large_advance, Raised OverflowError).
Proof.
  split; [apply reachable_run_requests, reachable_init|].
  vm_compute. repeat split; reflexivity.
Qed.

End Witnesses.

(** * Further properties of the handlers *)

(** ** [find_room_index] is a first-match search *)

Lemma find_room_index_no_match (rs : list Room) (rno : pyval) :
  (forall (j : nat) (r : Room),
      rs !! j = Some r -> py_eq (room_number r) rno = false) ->
  find_room_index rs rno = None.
Proof.
  induction rs as [|r0 rs IH]; intros Hall; [reflexivity|]. simpl.
  rewrite (Hall 0%nat r0 eq_refl).
  rewrite IH; [reflexivity|]. intros j r Hj. apply (Hall (S j) r Hj).
Qed.

(** X1. [find_room_index] answers with an index exactly when the room
    there has a number [==] the one asked for and no earlier room has;
    it answers [None] exactly when no stored room has such a number. *)
Theorem find_room_index_first_match (rs : list Room) (rno : pyval) :
  (forall i : nat,
      find_room_index rs rno = Some i <->
      (exists r : Room, rs !! i = Some r /\ py_eq (room_number r) rno = true)
      /\ (forall (j : nat) (r : Room),
             (j < i)%nat -> rs !! j = Some r ->
             py_eq (room_number r) rno = false))
  /\ (find_room_index rs rno = None <->
      forall (j : nat) (r : Room),
        rs !! j = Some r -> py_eq (room_number r) rno = false).
Proof.
  induction rs as [|r0 rs [IHs IHn]].
  - split.
    + intros i. simpl. split; [discriminate|]. intros [(r & Hr & _) _].
      discriminate.
    + simpl. split; [|reflexivity]. intros _ j r Hj. discriminate.
  - split.
    + intros i. simpl. destruct (py_eq (room_number r0) rno) eqn:E.
      * split.
        -- intros [= <-]. split; [exists r0; auto|]. intros j r Hj. lia.
        -- intros [(r & Hr & Hm) Hfirst]. destruct i as [|i]; [reflexivity|].
           specialize (Hfirst 0%nat r0 ltac:(lia) eq_refl). congruence.
      * destruct i as [|i].
        -- split.
           ++ destruct (find_room_index rs rno); discriminate.
           ++ intros [(r & Hr & Hm) _]. simpl in Hr. injection Hr as <-.
              congruence.
        -- split.
           ++ intros Hf.
              assert (Hf' : find_room_index rs rno = Some i)
                by (destruct (find_room_index rs rno); simpl in Hf;
                    [injection Hf as ->; reflexivity | discriminate]).
              apply IHs in Hf' as [Hex Hfirst]. split; [exact Hex|].
              intros [|j] r Hj Hr; simpl in Hr.
              ** injection Hr as <-. exact E.
              ** apply (Hfirst j r); [lia | exact Hr].
           ++ intros [Hex Hfirst].
              assert (Hf' : find_room_index rs rno = Some i).
              { apply IHs. split; [exact Hex|]. intros j r Hj Hr.
                apply (Hfirst (S j) r); [lia | exact Hr]. }
              rewrite Hf'. reflexivity.
    + simpl. destruct (py_eq (room_number r0) rno) eqn:E.
      * split; [discriminate|]. intros Hall.
        specialize (Hall 0%nat r0 eq_refl). congruence.
      * split.
        -- intros Hf [|j] r Hr; simpl in Hr.
           ++ injection Hr as <-. exact E.
           ++ destruct (find_room_index rs rno) eqn:Ef; [discriminate|].
              apply (proj1 IHn eq_refl j r Hr).
        -- intros Hall.
           assert (Hf' : find_room_index rs rno = None).
           { apply IHn. intros j r Hr. apply (Hall (S j) r Hr). }
           rewrite Hf'. reflexivity.
Qed.

(** ** Keys of the in-use set *)

Lemma SFeqb_sym (x y : float) : SFeqb x y = SFeqb y x.
Proof.
  unfold SFeqb, SFcompare.
  destruct x as [sx|sx| |sx mx ex], y as [sy|sy| |sy my ey];
    try reflexivity;
    try (destruct sx; reflexivity); try (destruct sy; reflexivity);
    try (destruct sx, sy; reflexivity).
  assert (Hm : Pos.compare_cont Eq my mx = CompOpp (Pos.compare_cont Eq mx my))
    by (symmetry; apply (Pos.compare_cont_antisym mx my Eq)).
  rewrite (Z.compare_antisym ex ey), Hm.
  destruct sx, sy; try reflexivity;
    destruct (ex ?= ey); simpl; try reflexivity;
    destruct (Pos.compare_cont Eq mx my); reflexivity.
Qed.

Lemma set_key_eq_sym (a b : pyval) :
  py_hashable a = true -> py_hashable b = true ->
  set_key_eq a b = set_key_eq b a.
Proof.
  unfold set_key_eq.
  destruct a as [|x|x|x|x|x|x], b as [|y|y|y|y|y|y]; simpl;
    try discriminate; intros _ _; try reflexivity;
    try (destruct x, y; reflexivity);
    try (destruct x; apply Z.eqb_sym);
    try (destruct y; apply Z.eqb_sym);
    try apply Z.eqb_sym;
    try (rewrite String.eqb_sym; reflexivity).
  all: try (unfold PyFloat.eqb; rewrite SFeqb_sym, andb_comm; reflexivity).
  all: rewrite ?andb_false_r, ?orb_false_r; try reflexivity.
  all: try (destruct x; rewrite Z.eqb_sym; reflexivity).
  all: try (destruct y; rewrite Z.eqb_sym; reflexivity).
Qed.

Lemma set_mem_false (b y : pyval) (s : list pyval) :
  set_mem b s = false -> y ∈ s -> set_key_eq b y = false.
Proof.
  unfold set_mem. induction s as [|z s IH]; intros Hm Hin.
  - apply elem_of_nil in Hin. destruct Hin.
  - simpl in Hm. apply orb_false_elim in Hm as [Hz Hs].
    apply elem_of_cons in Hin as [-> | Hin]; [exact Hz | apply IH; assumption].
Qed.

Lemma set_mem_elem (b : pyval) (s : list pyval) :
  py_hashable b = true -> b ∈ s -> set_mem b s = true.
Proof.
  intros Hb Hin. destruct (set_mem b s) eqn:E; [reflexivity|].
  pose proof (set_mem_false b b s E Hin) as H1.
  pose proof (set_key_eq_refl b Hb) as H2. congruence.
Qed.

Lemma set_add_new (b : pyval) (s : list pyval) :
  set_mem b s = false -> set_add b s = (s ++ [b])%list.
Proof. intros Hm. unfold set_add. rewrite Hm. reflexivity. Qed.

Lemma elem_of_set_discard (a y : pyval) (s : list pyval) :
  y ∈ s -> set_key_eq a y = false -> y ∈ set_discard a s.
Proof.
  intros Hin Hk. unfold set_discard. apply list_elem_of_filter.
  split; [rewrite Hk; reflexivity | exact Hin].
Qed.

(** ** Statuses and booking ids along the requests *)

Lemma status_binary_effect (st st' : State) (r : Response) :
  effect st st' r -> status_binary st -> status_binary st'.
Proof.
  intros He Hs. unfold status_binary in *.
  destruct He as [r | room r _ Hst _ _ | idx room c r _ _ _ _ _
                  | idx room r _ _ _]; simpl.
  - exact Hs.
  - intros x [Hx | ->%list_elem_of_singleton]%elem_of_app; auto.
  - intros x [k Hk]%list_elem_of_lookup.
    apply lookup_alter_twice in Hk as [[_ Hk] | [_ (r0 & _ & ->)]].
    + apply Hs. eapply list_elem_of_lookup_2, Hk.
    + right. reflexivity.
  - intros x [k Hk]%list_elem_of_lookup.
    apply lookup_alter_twice in Hk as [[_ Hk] | [_ (r0 & _ & ->)]].
    + apply Hs. eapply list_elem_of_lookup_2, Hk.
    + left. reflexivity.
Qed.

(** The three facts about booking ids are kept together: a check-in
    needs the room to be without a customer, a check-out needs the other
    customers' ids to differ from the one discarded. *)
Lemma booking_ids_effect (st st' : State) (r : Response) :
  effect st st' r ->
  occupancy st /\ booking_ids_cover st /\ booking_ids_distinct st ->
  booking_ids_cover st' /\ booking_ids_distinct st'.
Proof.
  intros He (Hocc & Hcov & Hdis).
  destruct He as [r | room r _ Hst Hc _ | idx room c r Hidx Hfree Hh Hmem _
                  | idx room r Hidx _ _].
  - split; assumption.
  - split.
    + intros i x cx Hi Hcx. simpl in *.
      apply lookup_snoc_Some in Hi as [[_ Hi] | [_ <-]]; [|congruence].
      apply (Hcov i x cx Hi Hcx).
    + intros i j ri rj ci cj Hij Hi Hj Hci Hcj. simpl in *.
      apply lookup_snoc_Some in Hi as [[_ Hi] | [_ <-]]; [|congruence].
      apply lookup_snoc_Some in Hj as [[_ Hj] | [_ <-]]; [|congruence].
      apply (Hdis i j ri rj ci cj Hij Hi Hj Hci Hcj).
  - assert (Hnone : cust room = None).
    { destruct (cust room) as [c0|] eqn:Ec; [|reflexivity].
      assert (Hs : status room = 1)
        by (apply Hocc; [eapply list_elem_of_lookup_2, Hidx | eauto]).
      rewrite Hs in Hfree. discriminate. }
    unfold checked_in. rewrite (set_add_new _ _ Hmem). split.
    + intros i x cx Hi Hcx. simpl in *.
      apply lookup_alter_twice in Hi as [[_ Hi] | [_ (r0 & _ & ->)]].
      * destruct (Hcov i x cx Hi Hcx) as [H1 H2]. split; [exact H1|].
        apply elem_of_app. left. exact H2.
      * simpl in Hcx. injection Hcx as <-. split; [exact Hh|].
        apply elem_of_app. right. apply list_elem_of_here.
    + intros i j ri rj ci cj Hij Hi Hj Hci Hcj. simpl in *.
      apply lookup_alter_twice in Hi as [[Hi' Hi] | [-> (r0 & _ & ->)]];
        apply lookup_alter_twice in Hj as [[Hj' Hj] | [-> (r1 & _ & ->)]].
      * apply (Hdis i j ri rj ci cj Hij Hi Hj Hci Hcj).
      * simpl in Hcj. injection Hcj as <-.
        destruct (Hcov i ri ci Hi Hci) as [H1 H2].
        rewrite set_key_eq_sym by assumption.
        apply (set_mem_false _ _ _ Hmem H2).
      * simpl in Hci. injection Hci as <-.
        destruct (Hcov j rj cj Hj Hcj) as [H1 H2].
        apply (set_mem_false _ _ _ Hmem H2).
      * congruence.
  - unfold checked_out. split.
    + intros i x cx Hi Hcx. simpl in *.
      apply lookup_alter_twice in Hi as [[Hne Hi] | [_ (r0 & _ & ->)]];
        [|discriminate].
      destruct (Hcov i x cx Hi Hcx) as [H1 H2]. split; [exact H1|].
      destruct (cust room) as [c|] eqn:Ec; [|exact H2].
      destruct (py_truthy (booking_id c)); [|exact H2].
      apply elem_of_set_discard; [exact H2|].
      apply (Hdis idx i room x c cx); auto.
    + intros i j ri rj ci cj Hij Hi Hj Hci Hcj. simpl in *.
      apply lookup_alter_twice in Hi as [[_ Hi] | [_ (r0 & _ & ->)]];
        [|discriminate].
      apply lookup_alter_twice in Hj as [[_ Hj] | [_ (r1 & _ & ->)]];
        [|discriminate].
      apply (Hdis i j ri rj ci cj Hij Hi Hj Hci Hcj).
Qed.

Lemma fixed_part_alter_twice (f g : Room -> Room) (idx : nat) (rs : list Room) :
  (forall r, fixed_part (f (g r)) = fixed_part r) ->
  fixed_part <$> alter f idx (alter g idx rs) = fixed_part <$> rs.
Proof.
  intros Hfg. apply list_eq. intros k. rewrite !list_lookup_fmap.
  destruct (decide (k = idx)) as [->|Hne].
  - rewrite !list_lookup_alter_eq. destruct (rs !! idx); simpl; [|reflexivity].
    rewrite Hfg. reflexivity.
  - rewrite !list_lookup_alter_ne by auto. reflexivity.
Qed.

(** What an effect does to the list of rooms: nothing to the fixed
    parts, or one more room at the end. *)
Lemma effect_rooms (st st' : State) (r : Response) :
  effect st st' r ->
  fixed_part <$> rooms st' = fixed_part <$> rooms st
  \/ exists room : Room,
       rooms st' = (rooms st ++ [room])%list
       /\ status room = 0 /\ cust room = None
       /\ find_room_index (rooms st) (room_number room) = None.
Proof.
  intros He.
  destruct He as [r | room r Hf Hst Hc _ | idx room c r _ _ _ _ _
                  | idx room r _ _ _]; simpl.
  - left. reflexivity.
  - right. exists room. auto.
  - left. apply fixed_part_alter_twice. reflexivity.
  - left. apply fixed_part_alter_twice. reflexivity.
Qed.

Lemma find_room_index_fixed_part (rs rs' : list Room) (rno : pyval) :
  fixed_part <$> rs' = fixed_part <$> rs ->
  find_room_index rs' rno = find_room_index rs rno.
Proof.
  revert rs'. induction rs as [|r rs IH]; intros [|r' rs'] Heq;
    try discriminate; [reflexivity|].
  simpl in Heq. injection Heq as Hn _ _ _ _ Hrs. simpl.
  rewrite Hn, (IH rs' Hrs). reflexivity.
Qed.

Lemma find_room_index_app (rs : list Room) (room : Room) (rno : pyval)
      (i : nat) :
  find_room_index rs rno = Some i ->
  find_room_index (rs ++ [room]) rno = Some i.
Proof.
  revert i. induction rs as [|r rs IH]; intros i; simpl; [discriminate|].
  destruct (py_eq (room_number r) rno); [auto|].
  destruct (find_room_index rs rno) as [j|] eqn:E; simpl; [|discriminate].
  intros [= <-]. rewrite (IH j eq_refl). reflexivity.
Qed.

Lemma find_room_index_snoc_new (rs : list Room) (room : Room) :
  find_room_index rs (room_number room) = None ->
  py_eq (room_number room) (room_number room) = true ->
  find_room_index (rs ++ [room]) (room_number room) = Some (length rs).
Proof.
  induction rs as [|r rs IH]; simpl; intros Hf Hrefl.
  - rewrite Hrefl. reflexivity.
  - destruct (py_eq (room_number r) (room_number room)); [discriminate|].
    destruct (find_room_index rs (room_number room)) eqn:E; [discriminate|].
    rewrite (IH eq_refl Hrefl). reflexivity.
Qed.

Lemma fixed_part_lookup_effect (st st' : State) (r : Response) (i : nat)
      (x : Room) :
  effect st st' r -> rooms st !! i = Some x ->
  exists x' : Room, rooms st' !! i = Some x' /\ fixed_part x' = fixed_part x.
Proof.
  intros He Hi. destruct (effect_rooms _ _ _ He) as [Hfix | (room & -> & _)].
  - apply (f_equal (fun l => l !! i)) in Hfix.
    rewrite !list_lookup_fmap, Hi in Hfix. simpl in Hfix.
    destruct (rooms st' !! i) as [x'|]; [|discriminate].
    exists x'. split; [reflexivity|].
    simpl in Hfix. injection Hfix as H1 H2 H3 H4 H5.
    unfold fixed_part. congruence.
  - exists x. split; [apply lookup_app_l_Some, Hi | reflexivity].
Qed.

Section Further.

Context {builtins : Builtins}.

Lemma status_binary_reachable (st : State) :
  reachable st -> status_binary st.
Proof.
  induction 1 as [|req st _ IH].
  - intros r Hr. apply elem_of_nil in Hr. destruct Hr.
  - eapply status_binary_effect; [apply step_effect | exact IH].
Qed.

Lemma occupancy_reachable (st : State) : reachable st -> occupancy st.
Proof.
  induction 1 as [|req st _ IH]; [apply occupancy_init|].
  apply occupancy_step, IH.
Qed.

Lemma booking_ids_reachable (st : State) :
  reachable st -> booking_ids_cover st /\ booking_ids_distinct st.
Proof.
  induction 1 as [|req st Hr IH].
  - split.
    + intros i r c Hi. discriminate.
    + intros i j ri rj ci cj _ Hi. discriminate.
  - eapply booking_ids_effect; [apply step_effect|].
    split; [apply occupancy_reachable, Hr | exact IH].
Qed.

Lemma find_room_index_step (req : Request) (st : State) (rno : pyval)
      (i : nat) :
  find_room_index (rooms st) rno = Some i ->
  find_room_index (rooms (fst (step req st))) rno = Some i.
Proof.
  intros Hf.
  destruct (effect_rooms _ _ _ (step_effect req st))
    as [Hfix | (room & -> & _)].
  - rewrite (find_room_index_fixed_part _ _ rno Hfix). exact Hf.
  - apply find_room_index_app, Hf.
Qed.

Lemma room_kept_by_requests (reqs : list Request) (st : State) (rno : pyval)
      (i : nat) (x : Room) :
  find_room_index (rooms st) rno = Some i -> rooms st !! i = Some x ->
  exists x' : Room,
    find_room_index (rooms (run_requests reqs st)) rno = Some i
    /\ rooms (run_requests reqs st) !! i = Some x'
    /\ fixed_part x' = fixed_part x.
Proof.
  revert st x. induction reqs as [|req reqs IH]; intros st x Hf Hi.
  - exists x. auto.
  - simpl.
    destruct (fixed_part_lookup_effect _ _ _ i x (step_effect req st) Hi)
      as (x1 & Hi1 & Hfix1).
    destruct (IH (fst (step req st)) x1
                 (find_room_index_step req st rno i Hf) Hi1)
      as (x' & Hf' & Hi' & Hfix').
    exists x'. split; [exact Hf'|]. split; [exact Hi' | congruence].
Qed.

(** X2. A number that finds a room keeps finding it at the same index
    after any sequence of requests, and the room found has the number,
    attributes and rent it had: rooms are never removed, renumbered or
    reordered, and a new room goes to the end of the list. *)
Theorem find_room_index_stable (reqs : list Request) (st : State)
        (rno : pyval) (i : nat) (x : Room) :
  find_room_index (rooms st) rno = Some i -> rooms st !! i = Some x ->
  exists x' : Room,
    find_room_index (rooms (run_requests reqs st)) rno = Some i
    /\ rooms (run_requests reqs st) !! i = Some x'
    /\ fixed_part x' = fixed_part x.
Proof. apply room_kept_by_requests. Qed.

(** X3. No request removes a room or changes the number, the three
    attributes or the rent of a stored room: the fixed parts of the
    rooms before a request are a prefix of those after it, at most one
    room is added, and at most one stored room is touched at all. *)
Theorem rooms_append_only (req : Request) (st : State) :
  (fixed_part <$> rooms st)
    `prefix_of` (fixed_part <$> rooms (fst (step req st)))
  /\ (length (rooms st) <= length (rooms (fst (step req st)))
      <= S (length (rooms st)))%nat
  /\ (exists idx : nat,
        forall k : nat,
          k <> idx -> (k < length (rooms st))%nat ->
          rooms (fst (step req st)) !! k = rooms st !! k).
Proof.
  split; [|split].
  - destruct (effect_rooms _ _ _ (step_effect req st))
      as [-> | (room & -> & _)]; [reflexivity|].
    rewrite fmap_app. apply prefix_app_r. reflexivity.
  - destruct (effect_rooms _ _ _ (step_effect req st))
      as [Hfix | (room & -> & _)].
    + apply (f_equal length) in Hfix. rewrite !length_fmap in Hfix. lia.
    + rewrite length_app. simpl. lia.
  - destruct (step_effect req st)
      as [r | room r _ _ _ _ | idx room c r _ _ _ _ _ | idx room r _ _ _].
    + exists 0%nat. reflexivity.
    + exists (length (rooms st)). intros k _ Hk. simpl.
      apply lookup_app_l, Hk.
    + exists idx. intros k Hne _. simpl.
      rewrite !list_lookup_alter_ne by auto. reflexivity.
    + exists idx. intros k Hne _. simpl.
      rewrite !list_lookup_alter_ne by auto. reflexivity.
Qed.

End Further.

(** ** The views *)

Lemma guests_available_perm (rs : list Room) :
  (forall r : Room, r ∈ rs -> status r = 0 \/ status r = 1) ->
  filter (fun r => status r =? 1) rs ++ filter (fun r => status r =? 0) rs
  ≡ₚ rs.
Proof.
  induction rs as [|r rs IH]; intros Hs; [reflexivity|].
  assert (IH' : filter (fun r => status r =? 1) rs
                ++ filter (fun r => status r =? 0) rs ≡ₚ rs)
    by (apply IH; intros x Hx; apply Hs, list_elem_of_further, Hx).
  rewrite !filter_cons.
  destruct (Hs r (list_elem_of_here _ _)) as [E | E]; rewrite E; simpl.
  - rewrite <- Permutation_middle. constructor. exact IH'.
  - constructor. exact IH'.
Qed.

Lemma api_guests_numbers (st : State) :
  (forall r : Room, r ∈ rooms st -> status r = 1 -> is_Some (cust r)) ->
  fst <$> api_guests st = room_number <$> guests st.
Proof.
  unfold api_guests, guests. generalize (rooms st) as rs.
  induction rs as [|r rs IH]; intros Hc; [reflexivity|].
  assert (IH' := IH (fun x Hx => Hc x (list_elem_of_further _ _ _ Hx))).
  rewrite filter_cons. cbn [omap list_omap]. unfold guest_entry at 1.
  destruct (status r =? 1) eqn:E.
  - destruct (Hc r (list_elem_of_here _ _)) as [c Hcust];
      [apply Z.eqb_eq, E|].
    rewrite Hcust. rewrite decide_True by exact I.
    cbn [fmap list_fmap fst]. f_equal. exact IH'.
  - rewrite decide_False by (intros []). exact IH'.
Qed.

Section Views.

Context {builtins : Builtins}.

(** X4. After any sequence of requests every status is 0 or 1, so the
    two views split the registry: the rooms listed by [guests] followed
    by those listed by [available] are the stored rooms, each once, and
    no room is on both lists. *)
Theorem guests_available_partition (st : State) :
  reachable st ->
  status_binary st
  /\ guests st ++ available st ≡ₚ rooms st
  /\ (length (guests st) + length (available st) = length (rooms st))%nat
  /\ (forall r : Room, r ∈ guests st -> r ∉ available st).
Proof.
  intros Hr. pose proof (status_binary_reachable st Hr) as Hs.
  pose proof (guests_available_perm (rooms st) Hs) as Hp.
  split; [exact Hs|]. split; [exact Hp|]. split.
  - apply Permutation_length in Hp. rewrite length_app in Hp. exact Hp.
  - unfold guests, available. intros r [H1 _]%list_elem_of_filter
                                        [H0 _]%list_elem_of_filter.
    apply Is_true_true, Z.eqb_eq in H1. apply Is_true_true, Z.eqb_eq in H0.
    congruence.
Qed.

(** X5. After any sequence of requests [api_guests] and [guests] list
    the same rooms in the same order: the room numbers of the JSON
    entries are those of the rooms of the page, and an entry pairs a
    number with a customer exactly when a listed room has that number
    and that customer. *)
Theorem api_guests_agrees_with_guests (st : State) :
  reachable st ->
  fst <$> api_guests st = room_number <$> guests st
  /\ (forall (n : pyval) (c : Customer),
        (n, c) ∈ api_guests st <->
        exists r : Room,
          r ∈ guests st /\ room_number r = n /\ cust r = Some c).
Proof.
  intros Hr. pose proof (occupancy_reachable st Hr) as Hocc. split.
  - apply api_guests_numbers. intros r Hin Hs. apply Hocc; assumption.
  - intros n c. unfold api_guests, guests. rewrite list_elem_of_omap. split.
    + intros (r & Hin & He). unfold guest_entry in He.
      destruct (status r =? 1) eqn:E; [|discriminate].
      destruct (cust r) as [c'|] eqn:Ec; [|discriminate].
      injection He as <- <-. exists r. split; [|auto].
      apply list_elem_of_filter. split; [rewrite E; exact I | exact Hin].
    + intros (r & [Hs Hin]%list_elem_of_filter & <- & Hc).
      exists r. split; [exact Hin|]. unfold guest_entry.
      apply Is_true_true in Hs. rewrite Hs, Hc. reflexivity.
Qed.

(** X6. After any sequence of requests the booking id of every
    attached customer is in [booking_ids], and the customers of two
    different rooms never have booking ids that are equal as set keys:
    an id in use by one guest cannot be given to another. *)
Theorem booking_ids_exclusive (st : State) :
  reachable st ->
  (forall (i : nat) (r : Room) (c : Customer),
      rooms st !! i = Some r -> cust r = Some c ->
      set_mem (booking_id c) (booking_ids st) = true)
  /\ booking_ids_distinct st.
Proof.
  intros Hr. destruct (booking_ids_reachable st Hr) as [Hcov Hdis].
  split; [|exact Hdis].
  intros i r c Hi Hc. destruct (Hcov i r c Hi Hc) as [Hh Hin].
  apply set_mem_elem; assumption.
Qed.

End Views.

(** ** A check-in undone by a check-out *)

Lemma set_discard_other (b : pyval) (s : list pyval) :
  set_mem b s = false -> set_discard b s = s.
Proof.
  unfold set_mem, set_discard. induction s as [|y s IH]; [reflexivity|].
  simpl. intros [Hy Hs]%orb_false_elim. rewrite filter_cons, Hy. simpl.
  rewrite (IH Hs). reflexivity.
Qed.

Lemma set_discard_add (b : pyval) (s : list pyval) :
  py_hashable b = true -> set_mem b s = false ->
  set_discard b (set_add b s) = s.
Proof.
  intros Hh Hm. rewrite (set_add_new b s Hm). unfold set_discard.
  rewrite filter_app. fold (set_discard b s).
  rewrite (set_discard_other b s Hm).
  rewrite filter_cons, (set_key_eq_refl b Hh). simpl.
  apply app_nil_r.
Qed.

Lemma rooms_checked_out_checked_in (idx : nat) (c : Customer) (st : State)
      (room : Room) (r1 : Room) :
  rooms st !! idx = Some room -> status room = 0 -> cust room = None ->
  rooms (checked_out idx r1 (checked_in idx c st)) = rooms st.
Proof.
  intros Hr Hs Hc. unfold checked_out, checked_in. simpl.
  apply list_eq. intros k. destruct (decide (k = idx)) as [->|Hne].
  - rewrite !list_lookup_alter_eq, Hr. simpl.
    destruct room; simpl in *; subst; reflexivity.
  - rewrite !list_lookup_alter_ne by auto. reflexivity.
Qed.


Lemma checked_out_checked_in (idx : nat) (c : Customer) (st : State)
      (room : Room) :
  rooms st !! idx = Some room -> status room = 0 -> cust room = None ->
  py_hashable (booking_id c) = true ->
  set_mem (booking_id c) (booking_ids st) = false ->
  checked_out idx (set_status 1 (set_cust (Some c) room)) (checked_in idx c st)
  = mkState (rooms st) (ids_after_round_trip (booking_id c) (booking_ids st)).
Proof.
  intros Hr Hs Hc Hh Hm.
  pose proof (rooms_checked_out_checked_in idx c st room
                (set_status 1 (set_cust (Some c) room)) Hr Hs Hc) as Hrooms.
  unfold checked_out in *. simpl in *. rewrite Hrooms. f_equal.
  unfold ids_after_round_trip. destruct (py_truthy (booking_id c)).
  - apply set_discard_add; assumption.
  - apply set_add_new, Hm.
Qed.

Lemma find_room_index_checked_in (idx : nat) (c : Customer) (st : State)
      (rno : pyval) :
  find_room_index (rooms (checked_in idx c st)) rno
  = find_room_index (rooms st) rno.
Proof.
  unfold checked_in; simpl.
  rewrite !find_room_index_alter by reflexivity. reflexivity.
Qed.

Lemma lookup_checked_in (idx : nat) (c : Customer) (st : State) (room : Room) :
  rooms st !! idx = Some room ->
  rooms (checked_in idx c st) !! idx
  = Some (set_status 1 (set_cust (Some c) room)).
Proof.
  intros Hr. unfold checked_in; simpl.
  rewrite !list_lookup_alter_eq, Hr. reflexivity.
Qed.

Section RoundTrip.

Context {builtins : Builtins}.

(** A room that is not reserved in a reachable state is free and has no
    customer. *)
Lemma free_room (st : State) (idx : nat) (room : Room) :
  reachable st -> rooms st !! idx = Some room -> (status room =? 1) = false ->
  status room = 0 /\ cust room = None.
Proof.
  intros Hr Hi Hs. apply list_elem_of_lookup_2 in Hi.
  apply Z.eqb_neq in Hs.
  destruct (status_binary_reachable st Hr room Hi) as [H0 | H1]; [|congruence].
  split; [exact H0|].
  destruct (cust room) as [c|] eqn:Ec; [|reflexivity].
  exfalso. apply Hs. apply (occupancy_reachable st Hr room Hi). eauto.
Qed.

(** X7. A check-in followed by a check-out of the same room puts the
    registry back: after any sequence of requests, if the form check-in
    succeeds and the form check-out of the same room number succeeds
    after it, the rooms are exactly those before the check-in, and so is
    the in-use set unless the booking id is 0, which stays in it.  The
    same holds for the JSON check-in and check-out, where the ids left
    behind are the falsy ones. *)
Theorem checkin_then_checkout_restores (st : State) :
  reachable st ->
  (forall (f1 f2 : Form) (s1 s2 b : string) (rno bid : Z),
      dict_lookup "room_number" f1 = Some s1 -> int_of_str s1 = Some rno ->
      dict_lookup "room_number" f2 = Some s2 -> int_of_str s2 = Some rno ->
      dict_lookup "booking_id" f1 = Some b -> int_of_str b = Some bid ->
      let st1 := fst (step (CheckinPost f1) st) in
      is_success (snd (step (CheckinPost f1) st)) = true ->
      is_success (snd (step (CheckoutPost f2) st1)) = true ->
      fst (step (CheckoutPost f2) st1)
      = mkState (rooms st) (ids_after_round_trip (PInt bid) (booking_ids st))
      /\ (bid <> 0 -> fst (step (CheckoutPost f2) st1) = st))
  /\ (forall (b1 b2 : pyval) (i1 i2 : list (string * pyval)),
        json_data b1 = PDict i1 -> json_data b2 = PDict i2 ->
        dict_get i2 "room_number" PNone = dict_get i1 "room_number" PNone ->
        let bid := dict_get i1 "booking_id" PNone in
        let st1 := fst (step (ApiCheckinPost b1) st) in
        is_success (snd (step (ApiCheckinPost b1) st)) = true ->
        is_success (snd (step (ApiCheckoutPost b2) st1)) = true ->
        fst (step (ApiCheckoutPost b2) st1)
        = mkState (rooms st) (ids_after_round_trip bid (booking_ids st))
        /\ (py_truthy bid = true -> fst (step (ApiCheckoutPost b2) st1) = st)).
Proof.
  intros Hr. split.
  - intros f1 f2 s1 s2 b rno bid Hs1 Hn1 Hs2 Hn2 Hb Hbid st1.
    subst st1. unfold step, handle.
    rewrite (checkin_run f1 st), Hs1, Hn1, Hb, Hbid.
    destruct (find_room_index (rooms st) (PInt rno)) as [idx|] eqn:Ef;
      [|discriminate].
    destruct (rooms st !! idx) as [room|] eqn:Ei; [|discriminate].
    destruct (status room =? 1) eqn:Es; [discriminate|].
    destruct (set_mem (PInt bid) (booking_ids st)) eqn:Em; [discriminate|].
    cbn [fst snd]. intros _.
    destruct (free_room st idx room Hr Ei Es) as [H0 Hnone].
    set (c := form_customer f1 (form_advance f1) bid).
    rewrite (checkout_run f2), Hs2, Hn2, find_room_index_checked_in, Ef.
    rewrite (lookup_checked_in idx c st room Ei).
    cbn [status set_status].
    change (1 =? 0) with false. cbv iota.
    repeat case_match; cbn [fst snd]; try discriminate. intros _.
    pose proof (checked_out_checked_in idx c st room Ei H0 Hnone
                  eq_refl Em) as Hrt.
    change (booking_id c) with (PInt bid) in Hrt.
    split; [exact Hrt|].
    intros Hne. rewrite Hrt. unfold ids_after_round_trip. simpl.
    apply Z.eqb_neq in Hne. rewrite Hne. simpl. destruct st; reflexivity.
  - intros b1 b2 i1 i2 H1 H2 Hsame bid st1.
    subst st1. unfold step, handle.
    rewrite (api_checkin_run b1 st), H1. cbv zeta.
    destruct (is_none (dict_get i1 "room_number" PNone)); [discriminate|].
    destruct (find_room_index (rooms st) (dict_get i1 "room_number" PNone))
      as [idx|] eqn:Ef; [|discriminate].
    destruct (rooms st !! idx) as [room|] eqn:Ei; [|discriminate].
    destruct (status room =? 1) eqn:Es; [discriminate|].
    destruct (py_hashable (dict_get i1 "booking_id" PNone)) eqn:Eh;
      [|discriminate].
    cbn [negb].
    destruct (set_mem (dict_get i1 "booking_id" PNone) (booking_ids st))
      eqn:Em; [discriminate|].
    destruct (py_float (dict_get i1 "payment_advance" (PInt 0)))
      as [e|adv]; [discriminate|].
    cbn [fst snd]. intros _.
    destruct (free_room st idx room Hr Ei Es) as [H0 Hnone].
    set (c := json_customer i1 adv).
    rewrite (api_checkout_run b2), H2, Hsame, find_room_index_checked_in, Ef.
    rewrite (lookup_checked_in idx c st room Ei).
    cbn [status set_status].
    change (1 =? 0) with false. cbv iota.
    repeat case_match; cbn [fst snd]; try discriminate. intros _.
    pose proof (checked_out_checked_in idx c st room Ei H0 Hnone
                  Eh Em) as Hrt.
    change (booking_id c) with (dict_get i1 "booking_id" PNone) in Hrt.
    fold bid in Hrt |- *.
    split; [exact Hrt|].
    intros Ht. rewrite Hrt. unfold ids_after_round_trip. rewrite Ht.
    destruct st; reflexivity.
Qed.

End RoundTrip.

(** ** Looking a room up by its number *)

(** X8. [api_room] answers 404 exactly when no stored room has a number
    [==] the one in the URL; otherwise it answers with the first stored
    room that has, and it never fails on the index it was given. *)
Theorem api_room_lookup (rno : Z) (st : State) :
  (api_room rno st = inl (JsonError "not found" 404) <->
   forall (i : nat) (r : Room),
     rooms st !! i = Some r -> py_eq (room_number r) (PInt rno) = false)
  /\ (forall r : Room,
        api_room rno st = inr r <->
        exists i : nat,
          find_room_index (rooms st) (PInt rno) = Some i
          /\ rooms st !! i = Some r)
  /\ (forall r : Room,
        api_room rno st = inr r ->
        r ∈ rooms st /\ py_eq (room_number r) (PInt rno) = true)
  /\ (forall e : exn, api_room rno st <> inl (Raised e)).
Proof.
  unfold api_room.
  destruct (find_room_index (rooms st) (PInt rno)) as [i|] eqn:Ef.
  - destruct (find_room_index_Some _ _ _ Ef) as (r0 & Hi & Hm).
    rewrite Hi. split; [|split; [|split]].
    + split; [discriminate|]. intros Hall.
      rewrite (Hall i r0 Hi) in Hm. discriminate.
    + intros r. split.
      * intros [= <-]. exists i. auto.
      * intros (j & [= <-] & Hj). congruence.
    + intros r [= <-]. split; [eapply list_elem_of_lookup_2, Hi | exact Hm].
    + discriminate.
  - split; [|split; [|split]].
    + split; [|reflexivity]. intros _. apply find_room_index_None, Ef.
    + intros r. split; [discriminate|]. intros (j & [=] & _).
    + discriminate.
    + discriminate.
Qed.

Section Lookup.

Context {builtins : Builtins}.

(** X9. A room added through the form is found by [api_room] from then
    on: right after the request that adds room [rno] the lookup returns
    the room the form describes, free and without a customer, and after
    any further requests it still returns a room with that number, those
    attributes and that rent. *)
Theorem api_room_after_add (form : Form) (st : State) (rno : Z)
        (reqs : list Request) :
  snd (step (ManageRoomsPost form) st) = RoomAdded rno ->
  let st' := fst (step (ManageRoomsPost form) st) in
  exists rent : Z,
    py_int (form_get "rent" (PInt 0) form) = inr rent
    /\ api_room rno st' = inr (form_room form rno rent)
    /\ exists r : Room,
         api_room rno (run_requests reqs st') = inr r
         /\ fixed_part r = fixed_part (form_room form rno rent).
Proof.
  unfold step, handle. rewrite manage_rooms_run.
  destruct (dict_lookup "room_number" form) as [s|]; [|discriminate].
  destruct (int_of_str s) as [n|]; [|discriminate].
  destruct (find_room_index (rooms st) (PInt n)) as [i|] eqn:Ef;
    [discriminate|]. cbn [is_Some_b].
  destruct (py_int (form_get "rent" (PInt 0) form)) as [e|rent];
    [discriminate|].
  destruct (form_attributes_valid form); [|discriminate].
  cbn [fst snd]. intros [= ->]. exists rent. split; [reflexivity|].
  set (room := form_room form rno rent).
  assert (Hfind : find_room_index (rooms st ++ [room])%list (PInt rno)
                  = Some (length (rooms st))).
  { apply (find_room_index_snoc_new (rooms st) room); [exact Ef|].
    simpl. apply Z.eqb_refl. }
  assert (Hlook : (rooms st ++ [room])%list !! length (rooms st) = Some room)
    by apply list_lookup_middle, eq_refl.
  split.
  - unfold api_room. cbn [rooms]. rewrite Hfind, Hlook. reflexivity.
  - destruct (room_kept_by_requests reqs
                (mkState (rooms st ++ [room])%list (booking_ids st))
                (PInt rno) (length (rooms st)) room Hfind Hlook)
      as (r & Hf & Hi & Hfix).
    exists r. split; [|exact Hfix].
    unfold api_room. rewrite Hf, Hi. reflexivity.
Qed.

End Lookup.

(** ** What the views show after a check-in and after a check-out *)

Section Visible.

Context {builtins : Builtins}.

(** X10. After a form check-in that succeeds for room [rno], the room
    that number found before is shown by [api_room] with status 1 and
    the customer built from the form, whose booking id is the integer
    the form's [booking_id] field holds; that room is on the [guests]
    page and not on the [available] page, and [api_guests] lists it
    with that customer. *)
Theorem checkin_visible (form : Form) (st : State) (s : string) (rno : Z) :
  dict_lookup "room_number" form = Some s ->
  int_of_str s = Some rno ->
  is_success (snd (step (CheckinPost form) st)) = true ->
  let st' := fst (step (CheckinPost form) st) in
  exists (idx : nat) (room : Room) (b : string) (bid : Z),
    find_room_index (rooms st) (PInt rno) = Some idx
    /\ rooms st !! idx = Some room
    /\ dict_lookup "booking_id" form = Some b /\ int_of_str b = Some bid
    /\ let c := form_customer form (form_advance form) bid in
       let r := set_status 1 (set_cust (Some c) room) in
       (api_room rno st' = inr r)
       /\ booking_id c = PInt bid
       /\ status r = 1 /\ cust r = Some c
       /\ r ∈ guests st' /\ (r ∉ available st')
       /\ (room_number room, c) ∈ api_guests st'.
Proof.
  intros Hs Hn. unfold step, handle. rewrite checkin_run, Hs, Hn.
  destruct (find_room_index (rooms st) (PInt rno)) as [idx|] eqn:Ef;
    [|discriminate].
  destruct (rooms st !! idx) as [room|] eqn:Ei; [|discriminate].
  destruct (status room =? 1); [discriminate|].
  destruct (dict_lookup "booking_id" form) as [b|] eqn:Eb; [|discriminate].
  destruct (int_of_str b) as [bid|] eqn:Ebid; [|discriminate].
  destruct (set_mem (PInt bid) (booking_ids st)); [discriminate|].
  cbn [fst snd]. intros _.
  exists idx, room, b, bid.
  split; [reflexivity|]. split; [exact Ei|].
  split; [reflexivity|]. split; [exact Ebid|].
  set (c := form_customer form (form_advance form) bid).
  set (r := set_status 1 (set_cust (Some c) room)).
  pose proof (lookup_checked_in idx c st room Ei) as Hi. fold r in Hi.
  assert (Hin : r ∈ rooms (checked_in idx c st))
    by (eapply list_elem_of_lookup_2, Hi).
  cbv zeta. split; [|split; [|split; [|split; [|split; [|split]]]]].
  - unfold api_room. rewrite find_room_index_checked_in, Ef, Hi. reflexivity.
  - reflexivity.
  - reflexivity.
  - reflexivity.
  - unfold guests. apply list_elem_of_filter. split; [exact I | exact Hin].
  - unfold available. intros [H0 _]%list_elem_of_filter. exact H0.
  - unfold api_guests. apply list_elem_of_omap. exists r.
    split; [exact Hin | reflexivity].
Qed.

(** X11. After a form check-out that succeeds for room [rno],
    [api_room] shows that room with status 0 and no customer; the room
    is on the [available] page and not on the [guests] page, and
    [api_guests] has no entry for a room at its place. *)
Theorem checkout_visible (form : Form) (st : State) (s : string) (rno : Z) :
  dict_lookup "room_number" form = Some s ->
  int_of_str s = Some rno ->
  is_success (snd (step (CheckoutPost form) st)) = true ->
  let st' := fst (step (CheckoutPost form) st) in
  exists r : Room,
    (api_room rno st' = inr r)
    /\ status r = 0 /\ cust r = None
    /\ r ∈ available st' /\ (r ∉ guests st')
    /\ guest_entry r = None.
Proof.
  intros Hs Hn. unfold step, handle. rewrite checkout_run, Hs, Hn.
  destruct (find_room_index (rooms st) (PInt rno)) as [idx|] eqn:Ef;
    [|discriminate].
  destruct (rooms st !! idx) as [room|] eqn:Ei; [|discriminate].
  destruct (status room =? 0); [discriminate|].
  destruct (dict_lookup "days" form) as [d|]; [|discriminate].
  destruct (int_of_str d) as [days|]; [|discriminate].
  destruct (int_sub_float (days * rent room) (advance_of room)) as [e|p];
    [discriminate|].
  cbn [fst snd]. intros _.
  set (r := set_status 0 (set_cust None room)).
  pose proof (lookup_checked_out idx room st Ei) as Hi. fold r in Hi.
  assert (Hin : r ∈ rooms (checked_out idx room st))
    by (eapply list_elem_of_lookup_2, Hi).
  exists r. split; [|split; [|split; [|split; [|split]]]].
  - unfold api_room. rewrite find_room_index_checked_out, Ef, Hi. reflexivity.
  - reflexivity.
  - reflexivity.
  - unfold available. apply list_elem_of_filter. split; [exact I | exact Hin].
  - unfold guests. intros [H1 _]%list_elem_of_filter. exact H1.
  - reflexivity.
Qed.

(** The loop of the search answers with entries of [api_guests] only,
    and the only exception it can raise is [AttributeError], which it
    raises exactly when a reserved room's customer has a name that is
    not a string. *)
Lemma search_rooms_entries (q : string) (rs : list Room) :
  match search_rooms q rs with
  | inr results =>
      forall e : pyval * Customer, e ∈ results -> e ∈ omap guest_entry rs
  | inl e =>
      e = AttributeError
      /\ exists (r : Room) (c : Customer),
           r ∈ rs /\ status r = 1 /\ cust r = Some c
           /\ forall s : string, name c <> PStr s
  end.
Proof.
  induction rs as [|r rs IH];
    [intros e He; apply elem_of_nil in He; destruct He|].
  cbn [search_rooms omap list_omap]. unfold guest_entry at 1.
  destruct (status r =? 1) eqn:Es.
  - destruct (cust r) as [c|] eqn:Ec.
    + destruct (name c) as [| | | |s| |] eqn:En;
        try (split; [reflexivity|]; exists r, c;
             split; [apply list_elem_of_here|];
             split; [apply Z.eqb_eq, Es|]; split; [exact Ec|];
             intros s; congruence).
      destruct (search_rooms q rs) as [e|rest].
      * destruct IH as (-> & r' & c' & Hin & H').
        split; [reflexivity|]. exists r', c'.
        split; [apply list_elem_of_further, Hin | exact H'].
      * destruct (String.eqb (str_lower s) q).
        -- intros e [-> | He]%elem_of_cons;
             [apply list_elem_of_here | apply list_elem_of_further, IH, He].
        -- intros e He. apply list_elem_of_further, IH, He.
    + destruct (search_rooms q rs) as [e|rest].
      * destruct IH as (-> & r' & c' & Hin & H').
        split; [reflexivity|]. exists r', c'.
        split; [apply list_elem_of_further, Hin | exact H'].
      * exact IH.
  - destruct (search_rooms q rs) as [e|rest].
    + destruct IH as (-> & r' & c' & Hin & H').
      split; [reflexivity|]. exists r', c'.
      split; [apply list_elem_of_further, Hin | exact H'].
    + exact IH.
Qed.

Lemma search_rooms_raises (q : string) (rs : list Room) (r : Room)
      (c : Customer) :
  r ∈ rs -> status r = 1 -> cust r = Some c ->
  (forall s : string, name c <> PStr s) ->
  search_rooms q rs = inl AttributeError.
Proof.
  intros Hin Hs Hc Hn. induction rs as [|r0 rs IH];
    [apply elem_of_nil in Hin; destruct Hin|].
  cbn [search_rooms].
  apply elem_of_cons in Hin as [<- | Hin].
  - rewrite Hs, Hc. cbn [Z.eqb Pos.eqb].
    destruct (name c) as [| | | |s| |] eqn:En; try reflexivity.
    exfalso. apply (Hn s). reflexivity.
  - rewrite (IH Hin).
    destruct (status r0 =? 1); [|reflexivity].
    destruct (cust r0) as [c0|]; [|reflexivity].
    destruct (name c0); try reflexivity.
Qed.

(** X12. The customer search never changes the registry; whatever it
    returns is an entry of [api_guests]; and when the normalised query
    is not empty it raises [AttributeError], instead of answering,
    exactly when some reserved room's customer has a name that is not a
    string (as the JSON check-in can store). *)
Theorem search_entries_and_failure (args : Form) (st : State) :
  let q := str_lower (str_strip (form_get_str "name" "" args)) in
  fst (step (ApiSearchCustomer args) st) = st
  /\ (forall results : list (pyval * Customer),
        snd (step (ApiSearchCustomer args) st) = JsonResults results ->
        forall e : pyval * Customer, e ∈ results -> e ∈ api_guests st)
  /\ (q <> "" ->
      (snd (step (ApiSearchCustomer args) st) = Raised AttributeError <->
       exists (r : Room) (c : Customer),
         r ∈ rooms st /\ status r = 1 /\ cust r = Some c
         /\ forall s : string, name c <> PStr s)).
Proof.
  intros q. unfold step, handle. split; [apply api_search_customer_effect|].
  unfold api_search_customer. fold q. unfold_monad. cbn [fst snd].
  pose proof (search_rooms_entries q (rooms st)) as Hs.
  destruct (String.eqb q "") eqn:Eq.
  - apply String.eqb_eq in Eq. split.
    + cbn. intros results [= <-] e He. apply elem_of_nil in He. destruct He.
    + intros Hne. contradiction.
  - destruct (search_rooms q (rooms st)) as [e|results] eqn:Er; cbn.
    + destruct Hs as (-> & Hex). split; [discriminate|].
      intros _. split; [intros _; exact Hex | reflexivity].
    + split.
      * intros l [= <-]. exact Hs.
      * intros _. split; [discriminate|].
        intros (r & c & Hin & H1 & Hc & Hn).
        rewrite (search_rooms_raises q (rooms st) r c Hin H1 Hc Hn) in Er.
        discriminate.
Qed.

End Visible.

(** ** When the handlers accept and how they refuse *)

Section Answers.

Context {builtins : Builtins}.

(** X13. The form check-in succeeds exactly when the room number is an
    integer that finds a room whose status is not 1 and the booking id is
    an integer that is not in use; name, address, phone, dates and
    advance never make it fail.  It refuses, leaving the registry as it
    is, an unknown room with "Room not found" and a reserved room with
    "Room is already booked", the latter before the booking id is even
    read. *)
Theorem checkin_answers (form : Form) (st : State) :
  (is_success (snd (step (CheckinPost form) st)) = true <->
   exists (s b : string) (rno bid : Z) (idx : nat) (room : Room),
     dict_lookup "room_number" form = Some s /\ int_of_str s = Some rno
     /\ find_room_index (rooms st) (PInt rno) = Some idx
     /\ rooms st !! idx = Some room /\ status room <> 1
     /\ dict_lookup "booking_id" form = Some b /\ int_of_str b = Some bid
     /\ set_mem (PInt bid) (booking_ids st) = false)
  /\ (forall (s : string) (rno : Z),
        dict_lookup "room_number" form = Some s -> int_of_str s = Some rno ->
        find_room_index (rooms st) (PInt rno) = None ->
        step (CheckinPost form) st = (st, Flash "Room not found" "warning"))
  /\ (forall (s : string) (rno : Z) (idx : nat) (room : Room),
        dict_lookup "room_number" form = Some s -> int_of_str s = Some rno ->
        find_room_index (rooms st) (PInt rno) = Some idx ->
        rooms st !! idx = Some room -> status room = 1 ->
        step (CheckinPost form) st
        = (st, Flash "Room is already booked" "warning")).
Proof.
  unfold step, handle. rewrite checkin_run. split; [|split].
  - split.
    + repeat case_match; cbn [snd is_success]; try discriminate. intros _.
      repeat eexists; try eassumption. apply Z.eqb_neq. assumption.
    + intros (s & b & rno & bid & idx & room & Hs & Hn & Hf & Hi & Hst
              & Hb & Hbid & Hm).
      apply Z.eqb_neq in Hst.
      rewrite Hs, Hn, Hf, Hi, Hst, Hb, Hbid, Hm. reflexivity.
  - intros s rno Hs Hn Hf. rewrite Hs, Hn, Hf. reflexivity.
  - intros s rno idx room Hs Hn Hf Hi Hst.
    rewrite Hs, Hn, Hf, Hi, Hst. reflexivity.
Qed.

(** X14. The JSON check-in succeeds exactly when the body is a dict
    (or falsy) whose room number is not null and finds a room whose
    status is not 1, whose booking id is hashable and not in use, and
    whose advance [float] accepts.  An unknown room is answered 404, a
    reserved one 400, and a booking id that is a list or a dict raises
    [TypeError]; none of these changes the registry. *)
Theorem api_checkin_answers (body : pyval) (st : State) :
  (is_success (snd (step (ApiCheckinPost body) st)) = true <->
   exists (items : list (string * pyval)) (idx : nat) (room : Room)
          (adv : float),
     json_data body = PDict items
     /\ dict_get items "room_number" PNone <> PNone
     /\ find_room_index (rooms st) (dict_get items "room_number" PNone)
        = Some idx
     /\ rooms st !! idx = Some room /\ status room <> 1
     /\ py_hashable (dict_get items "booking_id" PNone) = true
     /\ set_mem (dict_get items "booking_id" PNone) (booking_ids st) = false
     /\ py_float (dict_get items "payment_advance" (PInt 0)) = inr adv)
  /\ (forall items : list (string * pyval),
        json_data body = PDict items ->
        dict_get items "room_number" PNone <> PNone ->
        find_room_index (rooms st) (dict_get items "room_number" PNone)
        = None ->
        step (ApiCheckinPost body) st = (st, JsonError "room not found" 404))
  /\ (forall (items : list (string * pyval)) (idx : nat) (room : Room),
        json_data body = PDict items ->
        dict_get items "room_number" PNone <> PNone ->
        find_room_index (rooms st) (dict_get items "room_number" PNone)
        = Some idx ->
        rooms st !! idx = Some room ->
        (status room = 1 ->
         step (ApiCheckinPost body) st = (st, JsonError "already booked" 400))
        /\ (status room <> 1 ->
            py_hashable (dict_get items "booking_id" PNone) = false ->
            step (ApiCheckinPost body) st = (st, Raised TypeError))).
Proof.
  assert (Hnone : forall v : pyval, v <> PNone -> is_none v = false)
    by (intros [] Hv; try reflexivity; congruence).
  unfold step, handle. rewrite api_checkin_run. split; [|split].
  - split.
    + destruct (json_data body) as [| | | | | |items] eqn:Eb;
        try discriminate. cbv zeta.
      repeat case_match; cbn [snd is_success]; try discriminate. intros _.
      exists items. repeat eexists; try eassumption.
      * intros Hn. match goal with H : is_none _ = false |- _ =>
                     rewrite Hn in H; discriminate end.
      * apply Z.eqb_neq. assumption.
      * destruct (py_hashable _); [reflexivity | discriminate].
    + intros (items & idx & room & adv & Hb & Hn & Hf & Hi & Hst & Hh & Hm
              & Ha).
      apply Z.eqb_neq in Hst. rewrite Hb. cbv zeta.
      rewrite (Hnone _ Hn), Hf, Hi, Hst, Hh, Hm, Ha. reflexivity.
  - intros items Hb Hn Hf. rewrite Hb. cbv zeta.
    rewrite (Hnone _ Hn), Hf. reflexivity.
  - intros items idx room Hb Hn Hf Hi. rewrite Hb. cbv zeta.
    rewrite (Hnone _ Hn), Hf, Hi. split.
    + intros ->. reflexivity.
    + intros Hst%Z.eqb_neq Hh. rewrite Hst, Hh. reflexivity.
Qed.

End Answers.

Lemma numbers_given_alter_twice (f g : Room -> Room) (idx : nat) (st : State)
      (ids : list pyval) :
  (forall r, room_number (f (g r)) = room_number r) ->
  numbers_given st ->
  numbers_given (mkState (alter f idx (alter g idx (rooms st))) ids).
Proof.
  intros Hfg Hn x [k Hk]%list_elem_of_lookup. simpl in Hk.
  apply lookup_alter_twice in Hk as [[_ Hk] | [_ (r0 & Hr0 & ->)]].
  - apply Hn. eapply list_elem_of_lookup_2, Hk.
  - rewrite Hfg. apply Hn. eapply list_elem_of_lookup_2, Hr0.
Qed.

Lemma numbers_given_snoc (st : State) (room : Room) :
  room_number room <> PNone -> numbers_given st ->
  numbers_given (mkState (rooms st ++ [room])%list (booking_ids st)).
Proof.
  intros Hroom Hn x [Hx | ->%list_elem_of_singleton]%elem_of_app;
    [apply Hn, Hx | exact Hroom].
Qed.

Lemma is_none_false (v : pyval) : is_none v = false <-> v <> PNone.
Proof. destruct v; simpl; split; congruence. Qed.

Section Bodies.

Context {builtins : Builtins}.

Lemma numbers_given_step (req : Request) (st : State) :
  numbers_given st -> numbers_given (fst (step req st)).
Proof.
  intros Hn. destruct req as [form|form|form|body|body|body|args];
    unfold step, handle.
  - rewrite manage_rooms_run. repeat case_match; cbn [fst]; try exact Hn.
    apply numbers_given_snoc; [discriminate | exact Hn].
  - rewrite checkin_run. repeat case_match; cbn [fst]; try exact Hn.
    apply numbers_given_alter_twice; [reflexivity | exact Hn].
  - rewrite checkout_run. repeat case_match; cbn [fst]; try exact Hn.
    apply numbers_given_alter_twice; [reflexivity | exact Hn].
  - rewrite api_rooms_run. cbv zeta.
    repeat case_match; cbn [fst]; try exact Hn.
    apply numbers_given_snoc; [|exact Hn].
    cbn [json_room room_number]. apply is_none_false. assumption.
  - rewrite api_checkin_run. cbv zeta.
    repeat case_match; cbn [fst]; try exact Hn.
    apply numbers_given_alter_twice; [reflexivity | exact Hn].
  - rewrite api_checkout_run. repeat case_match; cbn [fst]; try exact Hn.
    apply numbers_given_alter_twice; [reflexivity | exact Hn].
  - rewrite api_search_customer_effect. exact Hn.
Qed.

Lemma numbers_given_reachable (st : State) : reachable st -> numbers_given st.
Proof.
  induction 1 as [|req st _ IH].
  - intros r Hr. apply elem_of_nil in Hr. destruct Hr.
  - apply numbers_given_step, IH.
Qed.

Lemma find_room_index_none_number (st : State) :
  numbers_given st -> find_room_index (rooms st) PNone = None.
Proof.
  intros Hn. apply find_room_index_no_match.
  intros j r Hj. apply list_elem_of_lookup_2 in Hj.
  specialize (Hn r Hj). destruct (room_number r); try reflexivity; congruence.
Qed.

End Bodies.

Section MoreAnswers.

Context {builtins : Builtins}.

(** X15. The form check-out succeeds exactly when the room number is an
    integer that finds a room whose status is not 0, [days] is an integer
    and the bill is within the range of a double.  An unknown room and a
    free room get the same answer, whatever the [days] field holds; a
    reserved room with no [days] field raises [BadRequestKeyError].  The
    refusals leave the registry as it is, so the room stays reserved. *)
Theorem checkout_answers (form : Form) (st : State) :
  (is_success (snd (step (CheckoutPost form) st)) = true <->
   exists (s d : string) (rno days : Z) (idx : nat) (room : Room)
          (f : float),
     dict_lookup "room_number" form = Some s /\ int_of_str s = Some rno
     /\ find_room_index (rooms st) (PInt rno) = Some idx
     /\ rooms st !! idx = Some room /\ status room <> 0
     /\ dict_lookup "days" form = Some d /\ int_of_str d = Some days
     /\ PyFloat.of_int (days * rent room) = Some f)
  /\ (forall (s : string) (rno : Z),
        dict_lookup "room_number" form = Some s -> int_of_str s = Some rno ->
        (find_room_index (rooms st) (PInt rno) = None
         \/ exists (idx : nat) (room : Room),
              find_room_index (rooms st) (PInt rno) = Some idx
              /\ rooms st !! idx = Some room /\ status room = 0) ->
        step (CheckoutPost form) st
        = (st, Flash "Room is not currently checked-in" "warning"))
  /\ (forall (s : string) (rno : Z) (idx : nat) (room : Room),
        dict_lookup "room_number" form = Some s -> int_of_str s = Some rno ->
        find_room_index (rooms st) (PInt rno) = Some idx ->
        rooms st !! idx = Some room -> status room <> 0 ->
        dict_lookup "days" form = None ->
        step (CheckoutPost form) st = (st, Raised BadRequestKeyError)).
Proof.
  unfold step, handle. rewrite checkout_run. unfold int_sub_float.
  split; [|split].
  - split.
    + repeat case_match; cbn [snd is_success]; try discriminate. intros _.
      repeat eexists; try eassumption. apply Z.eqb_neq. assumption.
    + intros (s & d & rno & days & idx & room & f & Hs & Hn & Hf & Hi & Hst
              & Hd & Hdays & Hb).
      apply Z.eqb_neq in Hst.
      rewrite Hs, Hn, Hf, Hi, Hst, Hd, Hdays, Hb. reflexivity.
  - intros s rno Hs Hn [Hf | (idx & room & Hf & Hi & Hst)];
      rewrite Hs, Hn, Hf; [reflexivity|].
    rewrite Hi, Hst. reflexivity.
  - intros s rno idx room Hs Hn Hf Hi Hst%Z.eqb_neq Hd.
    rewrite Hs, Hn, Hf, Hi, Hst, Hd. reflexivity.
Qed.

(** X16. The JSON check-out converts [days] before it looks the room
    up: a [days] value that [int] rejects raises its exception even for
    an unknown room, and the registry is unchanged.  With no [days] key
    the stay is billed as 0 days: a reserved room is freed and the
    amount payable is [0.0 - advance]. *)
Theorem api_checkout_days (body : pyval) (st : State)
        (items : list (string * pyval)) :
  json_data body = PDict items ->
  (forall e : exn,
     py_int (dict_get items "days" (PInt 0)) = inl e ->
     step (ApiCheckoutPost body) st = (st, Raised e))
  /\ (forall (idx : nat) (room : Room),
        dict_lookup "days" items = None ->
        find_room_index (rooms st) (dict_get items "room_number" PNone)
        = Some idx ->
        rooms st !! idx = Some room -> status room <> 0 ->
        step (ApiCheckoutPost body) st
        = (checked_out idx room st,
           JsonBill (mkBill 0 (advance_of room)
                            (PyFloat.sub PyFloat.zero (advance_of room))))).
Proof.
  intros Hb. unfold step, handle. rewrite api_checkout_run, Hb. split.
  - intros e ->. reflexivity.
  - intros idx room Hd Hf Hi Hst%Z.eqb_neq.
    unfold dict_get at 1. rewrite Hd. cbn [py_int].
    rewrite Hf, Hi, Hst. reflexivity.
Qed.

(** X17. The JSON room creation succeeds exactly when the body is a
    dict (or falsy) with a non-null room number that no room has and a
    rent that [int] accepts.  The room is then appended with the body's
    [ac], [comfort] and [size] stored as they came, whatever they are,
    and with the rent unchecked for sign; a number already present is
    answered "room exists" before the rent is looked at. *)
Theorem api_rooms_answers (body : pyval) (st : State) :
  (is_success (snd (step (ApiRoomsPost body) st)) = true <->
   exists (items : list (string * pyval)) (rent : Z),
     json_data body = PDict items
     /\ dict_get items "room_number" PNone <> PNone
     /\ find_room_index (rooms st) (dict_get items "room_number" PNone) = None
     /\ py_int (dict_get items "rent" (PInt 0)) = inr rent)
  /\ (forall (items : list (string * pyval)) (rent : Z),
        json_data body = PDict items ->
        dict_get items "room_number" PNone <> PNone ->
        find_room_index (rooms st) (dict_get items "room_number" PNone)
        = None ->
        py_int (dict_get items "rent" (PInt 0)) = inr rent ->
        step (ApiRoomsPost body) st
        = (mkState (rooms st ++ [mkRoom (dict_get items "room_number" PNone)
                                        (dict_get items "ac" (PStr "N"))
                                        (dict_get items "comfort" (PStr "N"))
                                        (dict_get items "size" (PStr "S"))
                                        rent 0 None])%list
                   (booking_ids st),
           JsonOk 201))
  /\ (forall (items : list (string * pyval)) (idx : nat),
        json_data body = PDict items ->
        dict_get items "room_number" PNone <> PNone ->
        find_room_index (rooms st) (dict_get items "room_number" PNone)
        = Some idx ->
        step (ApiRoomsPost body) st = (st, JsonError "room exists" 400)).
Proof.
  unfold step, handle. rewrite api_rooms_run. split; [|split].
  - split.
    + destruct (json_data body) as [| | | | | |items] eqn:Eb;
        try discriminate. cbv zeta.
      repeat case_match; cbn [snd is_success]; try discriminate. intros _.
      exists items. eexists. repeat split; try eassumption.
      * apply is_none_false. assumption.
      * destruct (find_room_index _ _); [discriminate | reflexivity].
    + intros (items & rent & Hb & Hn%is_none_false & Hf & Hr).
      rewrite Hb. cbv zeta. rewrite Hn, Hf, Hr. reflexivity.
  - intros items rent Hb Hn%is_none_false Hf Hr.
    rewrite Hb. cbv zeta. rewrite Hn, Hf, Hr. reflexivity.
  - intros items idx Hb Hn%is_none_false Hf.
    rewrite Hb. cbv zeta. rewrite Hn, Hf. reflexivity.
Qed.

(** X18. What the three JSON POST handlers do with a body that is not a
    usable dict.  A falsy body (null, false, 0, 0.0, the empty string,
    list or dict) is read as the empty dict: room creation and check-in
    answer 400 "room_number required" and, in any state the server can
    reach, check-out answers 400 "room not checked-in".  A truthy body
    that is not a dict makes each of them raise [AttributeError].  The
    registry is unchanged in every case. *)
Theorem api_body_not_a_dict (body : pyval) (st : State) :
  (py_truthy body = false ->
   step (ApiRoomsPost body) st = (st, JsonError "room_number required" 400)
   /\ step (ApiCheckinPost body) st
      = (st, JsonError "room_number required" 400)
   /\ (reachable st ->
       step (ApiCheckoutPost body) st
       = (st, JsonError "room not checked-in" 400)))
  /\ (py_truthy body = true ->
      (forall items : list (string * pyval), body <> PDict items) ->
      step (ApiRoomsPost body) st = (st, Raised AttributeError)
      /\ step (ApiCheckinPost body) st = (st, Raised AttributeError)
      /\ step (ApiCheckoutPost body) st = (st, Raised AttributeError)).
Proof.
  unfold step, handle.
  rewrite api_rooms_run, api_checkin_run, api_checkout_run.
  unfold json_data. split.
  - intros ->. cbn. repeat split.
    intros Hr%numbers_given_reachable%find_room_index_none_number.
    rewrite Hr. reflexivity.
  - intros -> Hd. destruct body; try (repeat split; reflexivity).
    exfalso. eapply Hd. reflexivity.
Qed.

End MoreAnswers.

(** ** Falsy booking ids *)

Lemma eqb_int_truthy (f : float) (z : Z) :
  PyFloat.eqb_int f z = true -> PyFloat.truthy f = negb (z =? 0).
Proof.
  destruct f as [s|s| |s m e]; simpl; try discriminate.
  - intros ->. reflexivity.
  - intros H. destruct (Z.eqb_spec z 0) as [->|]; [exfalso|reflexivity].
    destruct (0 <=? e) eqn:He.
    + apply Z.eqb_eq in H. apply Z.leb_le in He.
      assert (0 < 2 ^ e) by (apply Z.pow_pos_nonneg; lia).
      destruct s;
        [pose proof (Pos2Z.neg_is_neg m) | pose proof (Pos2Z.is_pos m)]; nia.
    + apply Z.eqb_eq in H. destruct s; simpl in H; discriminate.
Qed.

Lemma SFeqb_truthy (x y : float) :
  SFeqb x y = true -> PyFloat.truthy x = PyFloat.truthy y.
Proof.
  unfold SFeqb, SFcompare.
  destruct x as [sx|sx| |sx mx ex], y as [sy|sy| |sy my ey]; simpl;
    try reflexivity; try discriminate;
    try (destruct sx; discriminate); try (destruct sy; discriminate);
    try (destruct sx, sy; discriminate).
Qed.

(** Two values that are the same key of a set are both truthy or both
    falsy. *)
Lemma set_key_eq_truthy (a b : pyval) :
  set_key_eq a b = true -> py_truthy a = py_truthy b.
Proof.
  assert (Hbool : forall x : bool, negb ((if x then 1 else 0) =? 0) = x)
    by (intros []; reflexivity).
  unfold set_key_eq.
  destruct a as [|x|x|x|x|x|x], b as [|y|y|y|y|y|y];
    cbn [py_eq as_int py_truthy py_is_nan];
    rewrite ?andb_false_r, ?orb_false_r; try discriminate;
    try reflexivity.
  - intros H%Z.eqb_eq. destruct x, y; simpl in *; congruence.
  - intros <-%Z.eqb_eq. symmetry. apply Hbool.
  - intros ->%eqb_int_truthy. symmetry. apply Hbool.
  - intros ->%Z.eqb_eq. apply Hbool.
  - intros ->%Z.eqb_eq. reflexivity.
  - intros ->%eqb_int_truthy. reflexivity.
  - intros ->%eqb_int_truthy. apply Hbool.
  - intros ->%eqb_int_truthy. reflexivity.
  - intros [H%SFeqb_truthy | [Hx Hy]%andb_prop]%orb_prop; [exact H|].
    destruct x, y; try discriminate. reflexivity.
  - intros ->%String.eqb_eq. reflexivity.
  - destruct x, y; simpl; try discriminate; reflexivity.
  - destruct x as [|[]], y; simpl; try discriminate; reflexivity.
Qed.

Lemma set_mem_witness (b : pyval) (s : list pyval) :
  set_mem b s = true <-> exists y, y ∈ s /\ set_key_eq b y = true.
Proof.
  unfold set_mem. rewrite existsb_exists. split.
  - intros (y & Hy & Hk). exists y. split; [|exact Hk].
    apply list_elem_of_In, Hy.
  - intros (y & Hy & Hk). exists y. split; [|exact Hk].
    apply list_elem_of_In, Hy.
Qed.

Lemma set_mem_set_add (b c : pyval) (s : list pyval) :
  set_mem b s = true -> set_mem b (set_add c s) = true.
Proof.
  intros Hb. unfold set_add. destruct (set_mem c s); [exact Hb|].
  unfold set_mem. rewrite existsb_app. unfold set_mem in Hb.
  rewrite Hb. reflexivity.
Qed.

Lemma set_mem_discard_truthy (b c : pyval) (s : list pyval) :
  py_truthy b = false -> py_truthy c = true ->
  set_mem b s = true -> set_mem b (set_discard c s) = true.
Proof.
  intros Hb Hc (y & Hy & Hk)%set_mem_witness. apply set_mem_witness.
  exists y. split; [|exact Hk]. apply elem_of_set_discard; [exact Hy|].
  destruct (set_key_eq c y) eqn:E; [|reflexivity].
  apply set_key_eq_truthy in E, Hk. congruence.
Qed.

Lemma falsy_id_kept_effect (st st' : State) (r : Response) (b : pyval) :
  effect st st' r -> py_truthy b = false ->
  set_mem b (booking_ids st) = true -> set_mem b (booking_ids st') = true.
Proof.
  intros He Hb Hm.
  destruct He as [r | room r _ _ _ _ | idx room c r _ _ _ _ _
                  | idx room r _ _ _]; simpl; try exact Hm.
  - apply set_mem_set_add, Hm.
  - destruct (cust room) as [c|]; [|exact Hm].
    destruct (py_truthy (booking_id c)) eqn:Ec; [|exact Hm].
    apply set_mem_discard_truthy; assumption.
Qed.

Section FalsyIds.

Context {builtins : Builtins}.

Lemma falsy_id_kept (reqs : list Request) (st : State) (b : pyval) :
  py_truthy b = false -> set_mem b (booking_ids st) = true ->
  set_mem b (booking_ids (run_requests reqs st)) = true.
Proof.
  intros Hb. revert st. induction reqs as [|req reqs IH]; intros st Hm.
  - exact Hm.
  - apply IH. eapply falsy_id_kept_effect; eauto using step_effect.
Qed.

(** X19. A falsy booking id (0, false, 0.0, the empty string, null) is
    never released: once it is in the in-use set it is there after any
    further requests, check-outs included, so every later check-in that
    offers it is refused and leaves the registry as it is. *)
Theorem falsy_booking_id_never_released
        (reqs : list Request) (st : State) (b : pyval) :
  py_truthy b = false -> set_mem b (booking_ids st) = true ->
  let st' := run_requests reqs st in
  set_mem b (booking_ids st') = true
  /\ (forall (form : Form) (s : string) (bid : Z),
        dict_lookup "booking_id" form = Some s -> int_of_str s = Some bid ->
        PInt bid = b ->
        is_success (snd (step (CheckinPost form) st')) = false
        /\ fst (step (CheckinPost form) st') = st')
  /\ (forall items : list (string * pyval),
        dict_get items "booking_id" PNone = b ->
        is_success (snd (step (ApiCheckinPost (PDict items)) st')) = false
        /\ fst (step (ApiCheckinPost (PDict items)) st') = st').
Proof.
  intros Hb Hm st'.
  assert (Hm' : set_mem b (booking_ids st') = true)
    by (apply falsy_id_kept; assumption).
  clearbody st'. split; [exact Hm'|]. split.
  - intros form s bid Hs Hbid <-. unfold step, handle.
    rewrite checkin_run, Hs, Hbid, Hm'.
    repeat case_match; split; reflexivity.
  - intros items <-. unfold step, handle.
    rewrite api_checkin_run. unfold json_data. cbv zeta.
    destruct (py_truthy (PDict items)); cbv zeta.
    + rewrite Hm'. repeat case_match; split; reflexivity.
    + cbn. split; reflexivity.
Qed.

End FalsyIds.

Section Repeated.

Context {builtins : Builtins}.

(** X20. A request that added a room or checked a guest in is refused
    when it is sent again at once, and the second time changes nothing:
    the room it added is now found ("already exists"), the room it
    reserved is now booked.  For the JSON room creation this needs the
    room number to equal itself, which a NaN does not. *)
Theorem repeated_request_refused (st : State) :
  (forall form : Form,
     let st' := fst (step (ManageRoomsPost form) st) in
     is_success (snd (step (ManageRoomsPost form) st)) = true ->
     step (ManageRoomsPost form) st'
     = (st', Flash "Room number already exists. Choose a unique number."
                   "warning"))
  /\ (forall (body : pyval) (items : list (string * pyval)),
        let st' := fst (step (ApiRoomsPost body) st) in
        json_data body = PDict items ->
        py_eq (dict_get items "room_number" PNone)
              (dict_get items "room_number" PNone) = true ->
        is_success (snd (step (ApiRoomsPost body) st)) = true ->
        step (ApiRoomsPost body) st' = (st', JsonError "room exists" 400))
  /\ (forall form : Form,
        let st' := fst (step (CheckinPost form) st) in
        is_success (snd (step (CheckinPost form) st)) = true ->
        step (CheckinPost form) st'
        = (st', Flash "Room is already booked" "warning"))
  /\ (forall body : pyval,
        let st' := fst (step (ApiCheckinPost body) st) in
        is_success (snd (step (ApiCheckinPost body) st)) = true ->
        step (ApiCheckinPost body) st' = (st', JsonError "already booked" 400)).
Proof.
  unfold step, handle. repeat split.
  - intros form. cbv zeta. rewrite !manage_rooms_run.
    destruct (dict_lookup "room_number" form) as [s|]; [|discriminate].
    destruct (int_of_str s) as [rno|]; [|discriminate].
    destruct (find_room_index (rooms st) (PInt rno)) eqn:Ef; [discriminate|].
    cbn [is_Some_b].
    destruct (py_int _) as [e|rent]; [discriminate|].
    destruct (form_attributes_valid form); [|discriminate].
    intros _. cbn [fst rooms].
    rewrite (find_room_index_snoc_new (rooms st) (form_room form rno rent) Ef)
      by (simpl; apply Z.eqb_refl).
    reflexivity.
  - intros body items. cbv zeta. rewrite !api_rooms_run. intros -> Hrefl.
    cbv zeta. destruct (is_none _) eqn:En; [discriminate|].
    destruct (find_room_index (rooms st) _) eqn:Ef; [discriminate|].
    cbn [is_Some_b].
    destruct (py_int _) as [e|rent]; [discriminate|].
    intros _. cbn [fst rooms].
    pose proof (find_room_index_snoc_new (rooms st) (json_room items rent)
                  Ef Hrefl) as Hnew.
    cbn [json_room room_number] in Hnew. rewrite Hnew. reflexivity.
  - intros form. cbv zeta. rewrite !checkin_run.
    destruct (dict_lookup "room_number" form) as [s|]; [|discriminate].
    destruct (int_of_str s) as [rno|]; [|discriminate].
    destruct (find_room_index (rooms st) (PInt rno)) as [idx|] eqn:Ef;
      [|discriminate].
    destruct (rooms st !! idx) as [room|] eqn:Ei; [|discriminate].
    destruct (status room =? 1); [discriminate|].
    destruct (dict_lookup "booking_id" form) as [b|]; [|discriminate].
    destruct (int_of_str b) as [bid|]; [|discriminate].
    destruct (set_mem _ _); [discriminate|].
    intros _. cbn [fst].
    rewrite find_room_index_checked_in, Ef, (lookup_checked_in _ _ _ _ Ei).
    reflexivity.
  - intros body. cbv zeta. rewrite !api_checkin_run.
    destruct (json_data body) as [| | | | | |items]; try discriminate.
    cbv zeta. destruct (is_none _); [discriminate|].
    destruct (find_room_index (rooms st) _) as [idx|] eqn:Ef; [|discriminate].
    destruct (rooms st !! idx) as [room|] eqn:Ei; [|discriminate].
    destruct (status room =? 1); [discriminate|].
    destruct (negb _); [discriminate|].
    destruct (set_mem _ _); [discriminate|].
    destruct (py_float _) as [e|adv]; [discriminate|].
    intros _. cbn [fst].
    rewrite find_room_index_checked_in, Ef, (lookup_checked_in _ _ _ _ Ei).
    reflexivity.
Qed.

End Repeated.

(** ** The further properties on concrete requests *)

Section FurtherWitnesses.

Import Scenario.
#[local] Existing Instance ascii_builtins.

Lemma reachable_st_guests : reachable st_guests.
Proof. unfold st_guests. apply reachable_run_requests, reachable_init. Qed.

(** Room 101 is still found at index 0 once room 102 has been added and
    a guest has come and gone. *)
Lemma find_room_index_stable_witness :
  let reqs := [add_102; checkin_101; checkout_101] in
  find_room_index (rooms st_added) (PInt 101) = Some 0%nat
  /\ rooms st_added !! 0%nat = Some room_101
  /\ exists x' : Room,
       find_room_index (rooms (run_requests reqs st_added)) (PInt 101)
       = Some 0%nat
       /\ rooms (run_requests reqs st_added) !! 0%nat = Some x'
       /\ fixed_part x' = fixed_part room_101.
Proof.
  intros reqs. split; [reflexivity|]. split; [reflexivity|].
  apply (find_room_index_stable reqs st_added (PInt 101) 0%nat room_101);
    reflexivity.
Defined.

Lemma guests_available_partition_witness :
  reachable st_guests
  /\ status_binary st_guests
  /\ guests st_guests ++ available st_guests ≡ₚ rooms st_guests
  /\ (length (guests st_guests) + length (available st_guests)
      = length (rooms st_guests))%nat
  /\ (forall r : Room, r ∈ guests st_guests -> r ∉ available st_guests).
Proof.
  split; [exact reachable_st_guests|].
  exact (guests_available_partition st_guests reachable_st_guests).
Defined.

Lemma api_guests_agrees_with_guests_witness :
  reachable st_guests
  /\ fst <$> api_guests st_guests = [PInt 101; PInt 102].
Proof.
  split; [exact reachable_st_guests|].
  destruct (api_guests_agrees_with_guests st_guests reachable_st_guests)
    as [Hnumbers _].
  rewrite Hnumbers. reflexivity.
Defined.

Lemma booking_ids_exclusive_witness :
  reachable st_guests
  /\ set_mem (PInt 2) (booking_ids st_guests) = true
  /\ booking_ids_distinct st_guests.
Proof.
  split; [exact reachable_st_guests|].
  destruct (booking_ids_exclusive st_guests reachable_st_guests)
    as [Hcover Hdistinct].
  split; [|exact Hdistinct].
  apply (Hcover 1%nat
           (set_status 1 (set_cust (Some (guest "Alice Smith" 2)) room_102))
           (guest "Alice Smith" 2)); reflexivity.
Defined.

(** Alice checks into room 101 with booking id 1 and out again: the
    registry is the one before she came. *)
Lemma checkin_then_checkout_restores_witness :
  let f1 := checkin_form "101" "1" "Alice" "200" in
  let f2 := checkout_form "101" "3" in
  reachable st_added
  /\ is_success (snd (step (CheckinPost f1) st_added)) = true
  /\ fst (step (CheckoutPost f2) (fst (step (CheckinPost f1) st_added)))
     = st_added.
Proof.
  intros f1 f2. split; [exact reachable_st_added|]. split; [reflexivity|].
  destruct (checkin_then_checkout_restores st_added reachable_st_added)
    as [Hform _].
  destruct (Hform f1 f2 "101" "101" "1" 101 1 eq_refl eq_refl eq_refl
                  eq_refl eq_refl eq_refl eq_refl eq_refl) as [_ Hsame].
  apply Hsame. lia.
Defined.

Lemma api_room_after_add_witness :
  let form := [("room_number", "101"); ("ac", "N"); ("comfort", "N");
               ("size", "S"); ("rent", "500")] in
  let st' := fst (step (ManageRoomsPost form) init_state) in
  snd (step (ManageRoomsPost form) init_state) = RoomAdded 101
  /\ exists rent : Z,
       py_int (form_get "rent" (PInt 0) form) = inr rent
       /\ api_room 101 st' = inr (form_room form 101 rent)
       /\ exists r : Room,
            api_room 101 (run_requests [checkin_101; checkout_101] st')
            = inr r
            /\ fixed_part r = fixed_part (form_room form 101 rent).
Proof.
  intros form st'. split; [reflexivity|].
  exact (api_room_after_add form init_state 101 [checkin_101; checkout_101]
                            eq_refl).
Defined.

Lemma checkin_visible_witness :
  let form := checkin_form "101" "1" "Alice" "200" in
  let st' := fst (step (CheckinPost form) st_added) in
  is_success (snd (step (CheckinPost form) st_added)) = true
  /\ api_room 101 st'
     = inr (set_status 1 (set_cust (Some (alice f200 1)) room_101))
  /\ (PInt 101, alice f200 1) ∈ api_guests st'.
Proof.
  intros form st'. split; [reflexivity|].
  assert (Hs : dict_lookup "room_number" form = Some "101") by reflexivity.
  assert (Hn : int_of_str "101" = Some 101) by reflexivity.
  assert (Hok : is_success (snd (step (CheckinPost form) st_added)) = true)
    by reflexivity.
  destruct (checkin_visible form st_added "101" 101 Hs Hn Hok)
    as (idx & room & b & bid & Hf & Hi & Hb & Hbid & Hroom & _ & _ & _ & _
        & _ & Hlisted).
  vm_compute in Hf. injection Hf as <-.
  vm_compute in Hi. injection Hi as <-.
  vm_compute in Hb. injection Hb as <-.
  vm_compute in Hbid. injection Hbid as <-.
  split; [exact Hroom | exact Hlisted].
Defined.

Lemma checkout_visible_witness :
  let form := checkout_form "101" "3" in
  let st' := fst (step (CheckoutPost form) st_checked_in) in
  is_success (snd (step (CheckoutPost form) st_checked_in)) = true
  /\ exists r : Room,
       (api_room 101 st' = inr r)
       /\ status r = 0 /\ cust r = None
       /\ r ∈ available st' /\ (r ∉ guests st')
       /\ guest_entry r = None.
Proof.
  intros form st'. split; [reflexivity|].
  exact (checkout_visible form st_checked_in "101" 101
                          eq_refl eq_refl eq_refl).
Defined.

(** A guest checked in through the JSON API with a null name makes a
    later search with a query fail. *)
Lemma search_entries_and_failure_witness :
  let nameless := PDict [("room_number", PInt 101); ("booking_id", PInt 1);
                         ("name", PNone)] in
  let st := fst (step (ApiCheckinPost nameless) st_added) in
  str_lower (str_strip "alice") <> ""
  /\ snd (step (search "alice") st) = Raised AttributeError.
Proof.
  intros nameless st.
  assert (Hq : str_lower (str_strip "alice") <> "") by discriminate.
  split; [exact Hq|].
  destruct (search_entries_and_failure [("name", "alice")] st)
    as (_ & _ & Hraise).
  apply (Hraise Hq).
  exists (mkRoom (PInt 101) (PStr "N") (PStr "N") (PStr "S") 500 1
                 (Some (mkCustomer PNone (PStr "") (PStr "") (PStr "")
                                   (PStr "") PyFloat.zero (PInt 1)))).
  eexists. split; [apply list_elem_of_here|].
  split; [reflexivity|]. split; [reflexivity|]. discriminate.
Defined.

Lemma checkin_answers_witness :
  step (CheckinPost (checkin_form "105" "1" "Alice" "200")) st_added
  = (st_added, Flash "Room not found" "warning").
Proof.
  destruct (checkin_answers (checkin_form "105" "1" "Alice" "200") st_added)
    as (_ & Hunknown & _).
  apply (Hunknown "105" 105); reflexivity.
Defined.

Lemma api_checkin_answers_witness :
  step (ApiCheckinPost (api_checkin_body (PInt 101) (PList []) "Alice"
                                         (PInt 0))) st_added
  = (st_added, Raised TypeError).
Proof.
  destruct (api_checkin_answers
              (api_checkin_body (PInt 101) (PList []) "Alice" (PInt 0))
              st_added) as (_ & _ & Hfound).
  destruct (Hfound [("room_number", PInt 101); ("booking_id", PList []);
                    ("name", PStr "Alice"); ("payment_advance", PInt 0)]
                   0%nat room_101) as [_ Hraise];
    [reflexivity | discriminate | reflexivity | reflexivity |].
  apply Hraise; [discriminate | reflexivity].
Defined.

(** A check-out form without [days] for a reserved room. *)
Lemma checkout_answers_witness :
  step (CheckoutPost [("room_number", "101")]) st_checked_in
  = (st_checked_in, Raised BadRequestKeyError).
Proof.
  destruct (checkout_answers [("room_number", "101")] st_checked_in)
    as (_ & _ & Hdays).
  apply (Hdays "101" 101 0%nat
               (set_status 1 (set_cust (Some (alice f200 1)) room_101)));
    [reflexivity | reflexivity | reflexivity | reflexivity | discriminate
    | reflexivity].
Defined.

(** The JSON check-out of room 101 without [days]: nothing is billed
    and the advance of 200.0 is owed back. *)
Lemma api_checkout_days_witness :
  let body := PDict [("room_number", PInt 101)] in
  json_data body = PDict [("room_number", PInt 101)]
  /\ step (ApiCheckoutPost body) st_checked_in
     = (st_added,
        JsonBill (mkBill 0 f200 (PyFloat.sub PyFloat.zero f200))).
Proof.
  intros body. split; [reflexivity|].
  destruct (api_checkout_days body st_checked_in
                              [("room_number", PInt 101)] eq_refl)
    as [_ Hnone].
  apply (Hnone 0%nat
               (set_status 1 (set_cust (Some (alice f200 1)) room_101)));
    [reflexivity | reflexivity | reflexivity | discriminate].
Defined.

(** A JSON room whose [ac] is the number 3 and whose rent is -5. *)
Lemma api_rooms_answers_witness :
  step (ApiRoomsPost (PDict [("room_number", PInt 7); ("ac", PInt 3);
                             ("rent", PInt (-5))])) init_state
  = (mkState [mkRoom (PInt 7) (PInt 3) (PStr "N") (PStr "S") (-5) 0 None] [],
     JsonOk 201).
Proof.
  destruct (api_rooms_answers
              (PDict [("room_number", PInt 7); ("ac", PInt 3);
                      ("rent", PInt (-5))]) init_state)
    as (_ & Hadd & _).
  apply (Hadd [("room_number", PInt 7); ("ac", PInt 3); ("rent", PInt (-5))]
              (-5)); [reflexivity | discriminate | reflexivity | reflexivity].
Defined.

Lemma api_body_not_a_dict_witness :
  step (ApiRoomsPost (PList [PInt 1])) st_added
  = (st_added, Raised AttributeError)
  /\ step (ApiCheckinPost (PList [PInt 1])) st_added
     = (st_added, Raised AttributeError)
  /\ step (ApiCheckoutPost (PList [PInt 1])) st_added
     = (st_added, Raised AttributeError).
Proof.
  destruct (api_body_not_a_dict (PList [PInt 1]) st_added) as [_ Hlist].
  apply Hlist; [reflexivity | discriminate].
Defined.

(** Booking id 0 after the guest who used it has left. *)
Lemma falsy_booking_id_never_released_witness :
  let st := run_requests [add_101; checkin_101_id0] init_state in
  let st' := run_requests [checkout_101] st in
  py_truthy (PInt 0) = false
  /\ set_mem (PInt 0) (booking_ids st) = true
  /\ set_mem (PInt 0) (booking_ids st') = true
  /\ is_success (snd (step checkin_101_id0 st')) = false.
Proof.
  intros st st'. split; [reflexivity|]. split; [reflexivity|].
  destruct (falsy_booking_id_never_released [checkout_101] st (PInt 0)
                                            eq_refl eq_refl)
    as (Hkept & Hform & _).
  split; [exact Hkept|].
  apply (Hform (checkin_form "101" "0" "Alice" "200") "0" 0); reflexivity.
Defined.

Lemma repeated_request_refused_witness :
  let form := checkin_form "101" "1" "Alice" "200" in
  let st' := fst (step (CheckinPost form) st_added) in
  is_success (snd (step (CheckinPost form) st_added)) = true
  /\ step (CheckinPost form) st'
     = (st', Flash "Room is already booked" "warning").
Proof.
  intros form st'. split; [reflexivity|].
  destruct (repeated_request_refused st_added) as (_ & _ & Hcheckin & _).
  exact (Hcheckin form eq_refl).
Defined.

End FurtherWitnesses.
